(** * PINN-DATA: the NIST scraper and the data-collection pipeline

    A shallow embedding of [nist_scraper.py], [quick_data_collection.py] and
    [main_data_collection.py], and the properties of the specification that
    were checked against it.

    Conventions of the embedding.
    - A Python [str] is a list of Latin-1 code points ([list ascii]); the
      multiplication sign is code 215, the plus-minus sign 177 and the
      degree sign 176.  On this alphabet the regex class [\d] is [0-9] and
      [str.isspace] holds of codes 9-13, 28-32, 133 and 160.
    - A Python [float] is the real number it denotes, an infinity or NaN.
      A finite value is kept as an exact rational: rounding to binary64,
      overflow and underflow are not modelled, and neither is the sign of
      zero.  Comparisons with NaN are false, as in IEEE 754.
    - A function that can raise returns a [Result]; stateful code runs in
      the monad [M] over the runtime state (random draws consumed, files
      written).
    - The [print] calls, the [import] statements and [time.sleep] are taken
      to return: standard output can encode every message, the modules are
      installed and the delay is not negative.  Nothing is stated here
      about a run in which one of them raises.
    - A write that is refused is one whose [open] raises, which leaves the
      file as it was; a failure after the file has been opened, and so
      truncated, is not modelled. *)

From Stdlib Require Import QArith Qround.
From stdpp Require Import gmap strings list pretty.
From Stdlib Require Import Ascii.

Local Open Scope Z_scope.

(** ** Text *)

Abbreviation text := (list ascii).

Definition str (s : string) : text := String.list_ascii_of_string s.

Definition times_sign : ascii := "215"%char.
Definition plus_minus : ascii := "177"%char.
Definition degree_sign : ascii := "176"%char.

Definition code (c : ascii) : nat := nat_of_ascii c.

Definition in_range (lo hi : nat) (c : ascii) : bool :=
  (lo <=? code c)%nat && (code c <=? hi)%nat.

Definition is_digit (c : ascii) : bool := in_range 48 57 c.

Definition ascii_eqb (a b : ascii) : bool := Ascii.eqb a b.

Arguments in_range : simpl never.
Arguments is_digit : simpl never.
Arguments ascii_eqb : simpl never.

(** [str.isspace] on Latin-1. *)
Definition is_space (c : ascii) : bool :=
  in_range 9 13 c || in_range 28 32 c
  || (code c =? 133)%nat || (code c =? 160)%nat.

(** [str.lower] on Latin-1: A-Z and the accented capitals 192-222, the
    multiplication sign excepted. *)
Definition lower_char (c : ascii) : ascii :=
  if in_range 65 90 c
     || (in_range 192 222 c && negb (ascii_eqb c times_sign))
  then ascii_of_nat (code c + 32) else c.

Definition lower (s : text) : text := map lower_char s.

Fixpoint lstrip (s : text) : text :=
  match s with
  | c :: s' => if is_space c then lstrip s' else s
  | [] => []
  end.

Definition rstrip (s : text) : text := rev (lstrip (rev s)).

(** [str.strip()] *)
Definition strip (s : text) : text := rstrip (lstrip s).

Fixpoint text_eqb (s t : text) : bool :=
  match s, t with
  | [], [] => true
  | a :: s', b :: t' => ascii_eqb a b && text_eqb s' t'
  | _, _ => false
  end.

Fixpoint starts_with (p s : text) : bool :=
  match p, s with
  | [], _ => true
  | a :: p', b :: s' => ascii_eqb a b && starts_with p' s'
  | _ :: _, [] => false
  end.

(** [p in s] on strings. *)
Fixpoint contains (p s : text) : bool :=
  starts_with p s ||
  match s with
  | [] => false
  | _ :: s' => contains p s'
  end.

(** [sep.join(parts)] *)
Fixpoint join (sep : text) (parts : list text) : text :=
  match parts with
  | [] => []
  | [p] => p
  | p :: ps => p ++ sep ++ join sep ps
  end.

(** [s.replace(old, new)] for a one-character [old]. *)
Definition replace_char (old new : ascii) (s : text) : text :=
  map (fun c => if ascii_eqb c old then new else c) s.

(** [s.split(sep)[0]] for a one-character [sep]: the text before the first
    occurrence of [sep], the whole text when there is none. *)
Fixpoint split_first (sep : ascii) (s : text) : text :=
  match s with
  | [] => []
  | c :: s' => if ascii_eqb c sep then [] else c :: split_first sep s'
  end.

(** The longest prefix of characters in a class, and the rest. *)
Fixpoint span (p : ascii -> bool) (s : text) : text * text :=
  match s with
  | c :: s' => if p c then let (a, b) := span p s' in (c :: a, b) else ([], s)
  | [] => ([], [])
  end.

(** ** Floats *)

Inductive pyfloat :=
| Fin (q : Q)
| PInf
| NInf
| NaN.

Definition fneg (x : pyfloat) : pyfloat :=
  match x with
  | Fin q => Fin (Qred (- q))
  | PInf => NInf
  | NInf => PInf
  | NaN => NaN
  end.

(** Ordering of two floats, [None] when one of them is NaN. *)
Definition fcmp (x y : pyfloat) : option comparison :=
  match x, y with
  | NaN, _ | _, NaN => None
  | Fin p, Fin q => Some (p ?= q)%Q
  | NInf, NInf | PInf, PInf => Some Eq
  | NInf, _ | _, PInf => Some Lt
  | PInf, _ | _, NInf => Some Gt
  end.

Definition flt (x y : pyfloat) : bool :=
  match fcmp x y with Some Lt => true | _ => false end.
Definition fgt (x y : pyfloat) : bool :=
  match fcmp x y with Some Gt => true | _ => false end.
Definition fle (x y : pyfloat) : bool :=
  match fcmp x y with Some Lt | Some Eq => true | _ => false end.
Definition fge (x y : pyfloat) : bool :=
  match fcmp x y with Some Gt | Some Eq => true | _ => false end.

Definition is_nan (x : pyfloat) : bool :=
  match x with NaN => true | _ => false end.

Definition of_Z (n : Z) : pyfloat := Fin (inject_Z n).

(** *** [float(str)]

    After CPython's [PyFloat_FromString]: white space is stripped, digit
    separators are checked and removed, then the whole remainder has to be
    a signed [inf], [infinity] or [nan] in any case, or a decimal literal
    read by [strtod]. *)

(** The characters [float] strips: [Py_ISSPACE] after the two Latin-1
    blanks 133 and 160 have been turned into spaces. *)
Definition float_space (c : ascii) : bool :=
  in_range 9 13 c || (code c =? 32)%nat
  || (code c =? 133)%nat || (code c =? 160)%nat.

Fixpoint float_lstrip (s : text) : text :=
  match s with
  | c :: s' => if float_space c then float_lstrip s' else s
  | [] => []
  end.

Definition float_strip (s : text) : text :=
  rev (float_lstrip (rev (float_lstrip s))).

Definition underscore : ascii := "_"%char.

(** [_Py_string_to_number_with_underscores]: an underscore is allowed only
    between two digits; [prev] is the previous character. *)
Fixpoint strip_underscores (prev : option ascii) (s : text) : option text :=
  let prev_digit := match prev with Some p => is_digit p | None => false end in
  let prev_us :=
    match prev with Some p => ascii_eqb p underscore | None => false end in
  match s with
  | [] => if prev_us then None else Some []
  | c :: s' =>
      if ascii_eqb c underscore
      then if prev_digit then strip_underscores (Some c) s' else None
      else if prev_us && negb (is_digit c) then None
           else option_map (cons c) (strip_underscores (Some c) s')
  end.

(** Optional sign: whether it is a minus, and the rest. *)
Definition take_sign (s : text) : bool * text :=
  match s with
  | c :: s' =>
      if ascii_eqb c "-"%char then (true, s')
      else if ascii_eqb c "+"%char then (false, s')
      else (false, s)
  | [] => (false, [])
  end.

Definition ascii_lower (c : ascii) : ascii :=
  if in_range 65 90 c then ascii_of_nat (code c + 32) else c.

Arguments float_space : simpl never.
Arguments ascii_lower : simpl never.

(** [_Py_parse_inf_or_nan], after the sign. *)
Definition parse_inf_or_nan (s : text) : option (pyfloat * text) :=
  let l := map ascii_lower s in
  if starts_with (str "inf") l then
    if starts_with (str "inity") (drop 3 l)
    then Some (PInf, drop 8 s) else Some (PInf, drop 3 s)
  else if starts_with (str "nan") l then Some (NaN, drop 3 s)
  else None.

Definition digit_value (c : ascii) : Z := Z.of_nat (code c - 48).

Definition digits_value (ds : text) : Z :=
  fold_left (fun acc c => 10 * acc + digit_value c) ds 0.

(** [m * 10^e] *)
Definition scale10 (m e : Z) : Q :=
  if 0 <=? e then inject_Z (m * 10 ^ e)
  else Qred (Qmake m (Z.to_pos (10 ^ (- e)))).

Definition is_exp_char (c : ascii) : bool :=
  ascii_eqb c "e"%char || ascii_eqb c "E"%char.

(** The exponent part of a literal: its value and what follows it.  A
    malformed exponent is not consumed. *)
Definition take_exponent (s : text) : Z * text :=
  match s with
  | c :: s1 =>
      if is_exp_char c then
        let (neg, s2) := take_sign s1 in
        let (ds, s3) := span is_digit s2 in
        match ds with
        | [] => (0, s)
        | _ => ((if neg then - digits_value ds else digits_value ds), s3)
        end
      else (0, s)
  | [] => (0, [])
  end.

(** [strtod] after the sign: digits, an optional point and digits, at least
    one digit in all, and an optional exponent.  [None] when no number can
    be read. *)
Definition strtod (s : text) : option (Q * text) :=
  let (ip, r1) := span is_digit s in
  let (fp, r2) :=
    match r1 with
    | c :: r => if ascii_eqb c "."%char then span is_digit r else ([], r1)
    | [] => ([], r1)
    end in
  match ip ++ fp with
  | [] => None
  | ds =>
      let (e, r3) := take_exponent r2 in
      Some (scale10 (digits_value ds) (e - Z.of_nat (length fp)), r3)
  end.

(** [float(s)]; [None] stands for [ValueError]. *)
Definition py_float (s : text) : option pyfloat :=
  match strip_underscores None (float_strip s) with
  | None => None
  | Some s1 =>
      let (neg, body) := take_sign s1 in
      let sgn := fun x => if neg then fneg x else x in
      match parse_inf_or_nan body with
      | Some (x, []) => Some (sgn x)
      | Some (_, _ :: _) => None
      | None =>
          match strtod body with
          | Some (q, []) => Some (sgn (Fin q))
          | _ => None
          end
      end
  end.

(** ** Exceptions *)

Inductive exn :=
| ValueError
| AttributeError
| KeyError
| OSError (path : string).

Inductive Result (A : Type) :=
| Ok (a : A)
| Raise (e : exn).
Arguments Ok {A} a.
Arguments Raise {A} e.

Definition rbind {A B} (x : Result A) (f : A -> Result B) : Result B :=
  match x with
  | Ok a => f a
  | Raise e => Raise e
  end.

(** [try: return body  except Exception as e: return handler e] -- every
    exception of the model is an instance of [Exception]. *)
Definition try_or {A} (body : Result A) (handler : exn -> A) : A :=
  match body with
  | Ok a => a
  | Raise e => handler e
  end.

(** [try: body  except ValueError: handler] *)
Definition try_except_ValueError {A} (body handler : Result A) : Result A :=
  match body with
  | Raise ValueError => handler
  | r => r
  end.

(** [float(s)] as a call that can raise. *)
Definition float_of (s : text) : Result pyfloat :=
  match py_float s with
  | Some x => Ok x
  | None => Raise ValueError
  end.

(** ** Regular expressions

    The fragment of [re] the scraper uses: character classes, sequence, the
    greedy optional group and greedy repetition of a class, matched by
    backtracking as [re] does ([k] is the continuation of the match). *)

Inductive regex :=
| Cls (p : ascii -> bool)
| Seq (r1 r2 : regex)
| Opt (r : regex)
| Star (p : ascii -> bool)
| Plus (p : ascii -> bool).

Fixpoint star_match (p : ascii -> bool) (s : text)
    (k : text -> option text) : option text :=
  match s with
  | c :: s' =>
      if p c then
        match star_match p s' k with
        | Some r => Some r
        | None => k s
        end
      else k s
  | [] => k []
  end.

Fixpoint rmatch (r : regex) (s : text) (k : text -> option text)
  : option text :=
  match r with
  | Cls p =>
      match s with
      | c :: s' => if p c then k s' else None
      | [] => None
      end
  | Seq a b => rmatch a s (fun s1 => rmatch b s1 k)
  | Opt a =>
      match rmatch a s k with
      | Some x => Some x
      | None => k s
      end
  | Star p => star_match p s k
  | Plus p =>
      match s with
      | c :: s' => if p c then star_match p s' k else None
      | [] => None
      end
  end.

(** The match of [r] at the start of [s]: the matched text and the rest. *)
Definition match_at (r : regex) (s : text) : option (text * text) :=
  match rmatch r s Some with
  | Some rest => Some (take (length s - length rest) s, rest)
  | None => None
  end.

(** [re.findall(r, s)]: the matches from left to right, the search resuming
    after each match ([skip] characters of a match are still to be passed). *)
Fixpoint findall_from (r : regex) (skip : nat) (s : text) : list text :=
  match s with
  | [] =>
      match skip, match_at r [] with
      | O, Some (m, _) => [m]
      | _, _ => []
      end
  | _ :: s' =>
      match skip with
      | S n => findall_from r n s'
      | O =>
          match match_at r s with
          | Some (m, _) => m :: findall_from r (length m - 1) s'
          | None => findall_from r 0 s'
          end
      end
  end.

Definition findall (r : regex) (s : text) : list text := findall_from r 0 s.

Definition is_sign (c : ascii) : bool :=
  ascii_eqb c "-"%char || ascii_eqb c "+"%char.
Definition is_dot (c : ascii) : bool := ascii_eqb c "."%char.

Arguments is_sign : simpl never.
Arguments is_dot : simpl never.
Arguments is_exp_char : simpl never.

(** [[-+]?[0-9]*\.?[0-9]+(?:[eE][-+]?[0-9]+)?] *)
Definition number_re : regex :=
  Seq (Opt (Cls is_sign))
  (Seq (Star is_digit)
  (Seq (Opt (Cls is_dot))
  (Seq (Plus is_digit)
       (Opt (Seq (Cls is_exp_char)
            (Seq (Opt (Cls is_sign)) (Plus is_digit))))))).

(** The complement of the class [[^\d.+-eE×]]: inside the brackets [+-e] is
    the range from [+] (43) to [e] (101). *)
Definition kept_by_cleaning (c : ascii) : bool :=
  is_digit c || is_dot c || in_range 43 101 c
  || ascii_eqb c "E"%char || ascii_eqb c times_sign.

(** ** The numeric extractor: [NISTChemicalDataScraper._parse_number] *)

(** [re.sub(r'[^\d.+-eE×]', '', text)] followed by the replacement of the
    multiplication sign by [e]. *)
Definition clean (text1 : text) : text :=
  replace_char times_sign "e"%char (List.filter kept_by_cleaning text1).

Definition _parse_number (text0 : text) : Result (option pyfloat) :=
  if text_eqb text0 [] || text_eqb text0 (str "-") || text_eqb text0 []
  then Ok None
  else
    let text1 := strip text0 in
    let cleaned := clean text1 in
    let cleaned :=
      if contains [plus_minus] text1 then split_first plus_minus cleaned
      else cleaned in
    try_except_ValueError
      (rbind (float_of cleaned) (fun x => Ok (Some x)))
      (let numbers := findall number_re text1 in
       match numbers with
       | n0 :: _ => rbind (float_of n0) (fun x => Ok (Some x))
       | [] => Ok None
       end).

(** ** Parsed pages

    A page is what [find_all] returns on it: its tables, and for each table
    the texts of its [th] cells and, row by row, of the [td] cells of its
    [tr] elements (the header row included). *)

Record Table := {
  th : list text;
  tr : list (list text);
}.

Abbreviation Soup := (list Table).

(** One row of the thermodynamic data: the five parallel lists of [data]
    taken together, and a row of the [DataFrame] built from them.  [None]
    is a missing cell. *)
Record ThermoRecord := {
  temperature : pyfloat;
  heat_capacity : pyfloat;
  entropy : option pyfloat;
  enthalpy_minus_h298 : option pyfloat;
  gibbs_free_energy : option pyfloat;
}.

Abbreviation DataFrame := (list ThermoRecord).

Definition thermo_keywords : list text :=
  [str "temperature"; str "heat capacity"; str "entropy";
   str "cp" ++ [degree_sign]; str "cp";
   str "enthalpy"; str "gibbs"; str "janaf"; str "thermodynamic"].

(** The local variables [cp], [entropy], [enthalpy] and [gibbs] of the
    loop over the cells of a row. *)
Record Columns := {
  col_cp : option pyfloat;
  col_entropy : option pyfloat;
  col_enthalpy : option pyfloat;
  col_gibbs : option pyfloat;
}.

Definition no_columns : Columns :=
  {| col_cp := None; col_entropy := None;
     col_enthalpy := None; col_gibbs := None |}.

Definition set_column (i : nat) (value : pyfloat) (c : Columns) : Columns :=
  match i with
  | 1%nat => {| col_cp := Some value; col_entropy := col_entropy c;
                col_enthalpy := col_enthalpy c; col_gibbs := col_gibbs c |}
  | 2%nat => {| col_cp := col_cp c; col_entropy := Some value;
                col_enthalpy := col_enthalpy c; col_gibbs := col_gibbs c |}
  | 3%nat => {| col_cp := col_cp c; col_entropy := col_entropy c;
                col_enthalpy := col_enthalpy c; col_gibbs := Some value |}
  | 4%nat => {| col_cp := col_cp c; col_entropy := col_entropy c;
                col_enthalpy := Some value; col_gibbs := col_gibbs c |}
  | _ => c
  end.

(** [for i, cell in enumerate(cells[1:], 1)] *)
Fixpoint scan_cells (i : nat) (cells : list text) (c : Columns)
  : Result Columns :=
  match cells with
  | [] => Ok c
  | cell :: rest =>
      rbind (_parse_number (strip cell)) (fun value =>
        scan_cells (S i) rest
          (match value with
           | Some v => set_column i v c
           | None => c
           end))
  end.

(** The body of the [try] for one row with at least two cells: the record
    appended to [data], if any. *)
Definition parse_thermo_cells (cells : list text)
  : Result (option ThermoRecord) :=
  rbind (_parse_number (strip (default [] (head cells)))) (fun temp =>
    match temp with
    | None => Ok None
    | Some temp =>
        if flt temp (of_Z 50) || fgt temp (of_Z 5000) then Ok None
        else
          rbind (scan_cells 1 (tail cells) no_columns) (fun c =>
            match col_cp c with
            | Some cp =>
                if fgt cp (of_Z 0)
                then Ok (Some {| temperature := temp;
                                 heat_capacity := cp;
                                 entropy := col_entropy c;
                                 enthalpy_minus_h298 := col_enthalpy c;
                                 gibbs_free_energy := col_gibbs c |})
                else Ok None
            | None => Ok None
            end)
    end).

(** One [tr] of a qualifying table: rows with fewer than two cells are
    passed over, and so is a row whose parsing raises. *)
Definition parse_thermo_row (cells : list text) : list ThermoRecord :=
  if (2 <=? length cells)%nat then
    match try_or (parse_thermo_cells cells) (fun _ => None) with
    | Some r => [r]
    | None => []
    end
  else [].

Definition header_text (t : Table) : text :=
  join (str " ") (map strip (th t)).

Definition is_thermo_table (t : Table) : bool :=
  existsb (fun keyword => contains keyword (lower (header_text t)))
          thermo_keywords.

(** The records one table adds to [data]. *)
Definition parse_thermo_table (t : Table) : list ThermoRecord :=
  match th t with
  | [] => []
  | _ =>
      if is_thermo_table t
      then flat_map parse_thermo_row (tail (tr t))
      else []
  end.

(** [NISTChemicalDataScraper._parse_thermodynamic_tables] *)
Definition _parse_thermodynamic_tables (soup : Soup) : option DataFrame :=
  match flat_map parse_thermo_table soup with
  | [] => None
  | data => Some data
  end.

(** One row of a phase-change table. *)
Definition phase_row (phase_data : gmap string pyfloat) (cells : list text)
  : Result (gmap string pyfloat) :=
  match cells with
  | cell0 :: cell1 :: _ =>
      let property_name := lower (strip cell0) in
      let value_text := strip cell1 in
      let has := fun w : string => contains (str w) property_name in
      rbind (_parse_number value_text) (fun value =>
        match value with
        | Some value =>
            if has "boiling" || has "vaporization" then
              if has "temperature" || has "point"
              then Ok (<["boiling_point_K" := value]> phase_data)
              else if has "enthalpy"
              then Ok (<["heat_of_vaporization" := value]> phase_data)
              else Ok phase_data
            else if has "melting" || has "fusion" then
              if has "temperature" || has "point"
              then Ok (<["melting_point_K" := value]> phase_data)
              else if has "enthalpy"
              then Ok (<["heat_of_fusion" := value]> phase_data)
              else Ok phase_data
            else Ok phase_data
        | None => Ok phase_data
        end)
  | _ => Ok phase_data
  end.

Fixpoint phase_rows (phase_data : gmap string pyfloat)
    (rows : list (list text)) : Result (gmap string pyfloat) :=
  match rows with
  | [] => Ok phase_data
  | cells :: rest =>
      rbind (phase_row phase_data cells) (fun d => phase_rows d rest)
  end.

(** [NISTChemicalDataScraper._parse_phase_change_data] *)
Definition _parse_phase_change_data (soup : Soup)
  : Result (gmap string pyfloat) :=
  phase_rows ∅ (flat_map tr soup).

(** ** The runtime

    What the program reads from its surroundings, and the state it changes.
    The requests are answered by the [Runtime]: the compound id that
    [search_compound] ends up with, and the parsed page or the exception of
    each of the two data requests.  [gauss k] is the [k]-th standard normal
    deviate drawn from [np.random], [np_log] is [np.log], [hash_secret] is
    the key of the interpreter's string hash and [write_ok k] tells whether
    the [k]-th attempt to open a file for writing succeeds. *)

Record Runtime := {
  search : string -> option string;
  thermo_page : string -> Result Soup;
  phase_page : string -> Result Soup;
  gauss : nat -> Q;
  np_log : Q -> Q;
  hash_secret : Z * Z;
  write_ok : nat -> bool;
}.

(** [thermodynamic_data] of a compound: [None], a [DataFrame], or the plain
    list that [json.load] returns. *)
Inductive ThermoData :=
| NoData
| Frame (df : DataFrame)
| Records (l : list ThermoRecord).

(** The dict returned by [scrape_compound_data]. *)
Record CompoundData := {
  formula : string;
  compound_id : string;
  thermodynamic_data : ThermoData;
  phase_change_data : gmap string pyfloat;
}.

(** A dict whose iteration order matters: insertion order, an assignment to
    a key already present keeping its place. *)
Fixpoint dict_set {V} (k : string) (v : V) (d : list (string * V))
  : list (string * V) :=
  match d with
  | [] => [(k, v)]
  | (k', v') :: d' =>
      if String.eqb k' k then (k, v) :: d' else (k', v') :: dict_set k v d'
  end.

Abbreviation RawData := (list (string * CompoundData)).

Record MolProps := {
  molecular_weight : Q;
  n_atoms : Z;
  is_polar : Z;
}.

(** A row of the training table. *)
Module Sample.
Record t := {
  compound : string;
  compound_id : Z;
  temperature : pyfloat;
  heat_capacity : pyfloat;
  entropy : option pyfloat;
  enthalpy_minus_h298 : option pyfloat;
  mol_props : MolProps;
}.
End Sample.

Abbreviation TrainingTable := (list Sample.t).

(** What [save_data] hands to [json.dump] for one compound. *)
Record SavedCompound := {
  saved_formula : string;
  saved_compound_id : string;
  saved_phase_change_data : gmap string pyfloat;
  saved_thermodynamic_data : option (list ThermoRecord);
}.

Inductive FileContent :=
| Json (d : list (string * SavedCompound))
| Csv (rows : TrainingTable).

Record State := {
  draws : nat;
  attempts : nat;
  files : gmap string FileContent;
}.

Definition M (A : Type) : Type := State -> Result A * State.

Definition ret {A} (a : A) : M A := fun st => (Ok a, st).

Definition bind {A B} (m : M A) (f : A -> M B) : M B :=
  fun st =>
    match m st with
    | (Ok a, st') => f a st'
    | (Raise e, st') => (Raise e, st')
    end.

Definition lift {A} (r : Result A) : M A := fun st => (r, st).

(** [try: body  except Exception as e: handler e] *)
Definition try_catch {A} (body : M A) (handler : exn -> M A) : M A :=
  fun st =>
    match body st with
    | (Ok a, st') => (Ok a, st')
    | (Raise e, st') => handler e st'
    end.

Notation "'do' x <- m ; k" := (bind m (fun x => k))
  (at level 10, x name, m at level 100, k at level 200).

(** [open(filename, 'w')] followed by the dump of [content].  [write_ok]
    tells whether the [open] of this attempt succeeds; the dump that
    follows an [open] that succeeded is taken to succeed. *)
Definition write_file (rt : Runtime) (filename : string)
    (content : FileContent) : M unit :=
  fun st =>
    if write_ok rt (attempts st)
    then (Ok tt, {| draws := draws st; attempts := S (attempts st);
                    files := <[filename := content]> (files st) |})
    else (Raise (OSError filename),
          {| draws := draws st; attempts := S (attempts st);
             files := files st |}).

(** [np.random.normal(loc, scale)] *)
Definition np_random_normal (rt : Runtime) (loc scale : Q) : M Q :=
  fun st =>
    (Ok (loc + scale * gauss rt (draws st))%Q,
     {| draws := S (draws st); attempts := attempts st;
        files := files st |}).

(** ** [hash(str)]

    CPython's string hash: SipHash-1-3 of the characters (one byte each for
    a Latin-1 string) under the interpreter's secret key, read as a signed
    64-bit integer. *)

Definition mask64 (x : Z) : Z := Z.land x (2 ^ 64 - 1).

Definition rotl64 (x : Z) (b : Z) : Z :=
  mask64 (Z.lor (Z.shiftl x b) (Z.shiftr x (64 - b))).

Definition half_round (a b c d s t : Z) : Z * Z * Z * Z :=
  let a := mask64 (a + b) in
  let c := mask64 (c + d) in
  let b := Z.lxor (rotl64 b s) a in
  let d := Z.lxor (rotl64 d t) c in
  let a := rotl64 a 32 in
  (a, b, c, d).

Definition single_round (v : Z * Z * Z * Z) : Z * Z * Z * Z :=
  let '(v0, v1, v2, v3) := v in
  let '(v0, v1, v2, v3) := half_round v0 v1 v2 v3 13 16 in
  let '(v2, v1, v0, v3) := half_round v2 v1 v0 v3 17 21 in
  (v0, v1, v2, v3).

(** A little-endian word of at most eight bytes. *)
Fixpoint le_word (bs : text) : Z :=
  match bs with
  | [] => 0
  | c :: bs' => Z.of_nat (code c) + 256 * le_word bs'
  end.

Definition absorb (m : Z) (v : Z * Z * Z * Z) : Z * Z * Z * Z :=
  let '(v0, v1, v2, v3) := v in
  let '(v0, v1, v2, v3) := single_round (v0, v1, v2, Z.lxor v3 m) in
  (Z.lxor v0 m, v1, v2, v3).

(** The loop over the full eight-byte words; [fuel] bounds the number of
    words and the length of the input is enough. *)
Fixpoint sip_blocks (fuel : nat) (src : text) (v : Z * Z * Z * Z)
  : (Z * Z * Z * Z) * text :=
  match fuel with
  | O => (v, src)
  | S fuel' =>
      if (8 <=? length src)%nat
      then sip_blocks fuel' (drop 8 src) (absorb (le_word (take 8 src)) v)
      else (v, src)
  end.

Definition siphash13 (k0 k1 : Z) (src : text) : Z :=
  let b := mask64 (Z.shiftl (Z.of_nat (length src)) 56) in
  let v := (Z.lxor k0 0x736f6d6570736575, Z.lxor k1 0x646f72616e646f6d,
            Z.lxor k0 0x6c7967656e657261, Z.lxor k1 0x7465646279746573) in
  let '(v, rest) := sip_blocks (length src) src v in
  let b := Z.lor b (le_word rest) in
  let '(v0, v1, v2, v3) := absorb b v in
  let v := (v0, v1, Z.lxor v2 0xff, v3) in
  let '(v0, v1, v2, v3) := single_round (single_round (single_round v)) in
  Z.lxor (Z.lxor v0 v1) (Z.lxor v2 v3).

(** [hash(s)] for a string [s]. *)
Definition py_hash (secret : Z * Z) (s : string) : Z :=
  match str s with
  | [] => 0
  | src =>
      let x := siphash13 (fst secret) (snd secret) src in
      let x := if 2 ^ 63 <=? x then x - 2 ^ 64 else x in
      if x =? -1 then -2 else x
  end.

(** The secret key the interpreter derives from [PYTHONHASHSEED=seed]
    ([seed] not 0): the first sixteen bytes of a linear congruential
    sequence. *)
Fixpoint lcg_bytes (n : nat) (x : Z) : list Z :=
  match n with
  | O => []
  | S n' =>
      let x := Z.land (x * 214013 + 2531011) (2 ^ 32 - 1) in
      Z.land (Z.shiftr x 16) 255 :: lcg_bytes n' x
  end.

Definition le_int (bs : list Z) : Z :=
  fold_right (fun b acc => b + 256 * acc) 0 bs.

Definition secret_of_seed (seed : Z) : Z * Z :=
  match seed with
  | 0 => (0, 0)
  | _ => let bs := lcg_bytes 16 seed in
         (le_int (take 8 bs), le_int (drop 8 bs))
  end.

(** ** [nist_scraper.py]: requests and collection *)

Section Scraper.
Variable rt : Runtime.

(** [search_compound]: the request and the search of the answer for a
    link are left to the runtime; [None] when the four attempts fail. *)
Definition search_compound (formula_or_name : string) : option string :=
  search rt formula_or_name.

Definition get_thermodynamic_data (id : string) : option DataFrame :=
  try_or (rbind (thermo_page rt id)
                (fun soup => Ok (_parse_thermodynamic_tables soup)))
         (fun _ => None).

Definition get_phase_change_data (id : string) : gmap string pyfloat :=
  try_or (rbind (phase_page rt id) _parse_phase_change_data)
         (fun _ => ∅).

Definition frame_or_none (df : option DataFrame) : ThermoData :=
  match df with
  | Some df => Frame df
  | None => NoData
  end.

Definition scrape_compound_data (formula_or_name : string)
  : option CompoundData :=
  match search_compound formula_or_name with
  | None | Some EmptyString => None
  | Some id =>
      let thermo_data := get_thermodynamic_data id in
      let phase_data := get_phase_change_data id in
      Some {| formula := formula_or_name;
              compound_id := id;
              thermodynamic_data := frame_or_none thermo_data;
              phase_change_data := phase_data |}
  end.

(** One entry of [serializable_data]; [to_dict('records')] is applied to
    a value that is not [None], and a plain list has no such method. *)
Definition to_serializable (cd : CompoundData) : Result SavedCompound :=
  let saved := fun td =>
    {| saved_formula := formula cd;
       saved_compound_id := compound_id cd;
       saved_phase_change_data := phase_change_data cd;
       saved_thermodynamic_data := td |} in
  match thermodynamic_data cd with
  | NoData => Ok (saved None)
  | Frame df => Ok (saved (Some df))
  | Records _ => Raise AttributeError
  end.

Fixpoint serialize_loop (data : RawData)
    (serializable_data : list (string * SavedCompound))
  : Result (list (string * SavedCompound)) :=
  match data with
  | [] => Ok serializable_data
  | (name, cd) :: rest =>
      rbind (to_serializable cd) (fun sc =>
        serialize_loop rest (dict_set name sc serializable_data))
  end.

Definition save_data (data : RawData) (filename : string) : M unit :=
  do d <- lift (serialize_loop data []);
  write_file rt filename (Json d).

(** [load_data]: a list that is not empty becomes a [DataFrame] again. *)
Definition of_serializable (sc : SavedCompound) : CompoundData :=
  {| formula := saved_formula sc;
     compound_id := saved_compound_id sc;
     phase_change_data := saved_phase_change_data sc;
     thermodynamic_data :=
       match saved_thermodynamic_data sc with
       | None => NoData
       | Some [] => Records []
       | Some l => Frame l
       end |}.

Definition load_data (filename : string) : M RawData :=
  fun st =>
    match files st !! filename with
    | Some (Json d) =>
        (Ok (map (fun '(name, sc) => (name, of_serializable sc)) d), st)
    | Some (Csv _) => (Raise ValueError, st)
    | None => (Raise (OSError filename), st)
    end.

Definition progress_file (n : nat) : string :=
  "nist_data_progress_" +:+ pretty n +:+ ".json".

(** The loop of [scrape_multiple_compounds], from the compound of index
    [i] on.  [results] is a dict updated in place: the entry of a
    compound stays in it when the save of the progress raises. *)
Fixpoint scrape_loop (save_progress : bool) (i : nat)
    (compound_list : list string) (results : RawData) : M RawData :=
  match compound_list with
  | [] => ret results
  | compound :: rest =>
      let data := scrape_compound_data compound in
      let results :=
        match data with
        | Some data => dict_set compound data results
        | None => results
        end in
      do _ <-
        try_catch
          (match data with
           | Some _ =>
               if save_progress && ((i + 1) mod 5 =? 0)%nat
               then save_data results (progress_file (i + 1))
               else ret tt
           | None => ret tt
           end)
          (fun _ => ret tt);
      scrape_loop save_progress (S i) rest results
  end.

Definition scrape_multiple_compounds (compound_list : list string)
    (save_progress : bool) : M RawData :=
  scrape_loop save_progress 0 compound_list [].

End Scraper.

(** ** [quick_data_collection.py] *)

Definition mk_props (w : Q) (n p : Z) : MolProps :=
  {| molecular_weight := w; n_atoms := n; is_polar := p |}.

Definition properties : gmap string MolProps :=
  list_to_map
    [("H2O", mk_props 18.015 3 1);
     ("CO2", mk_props 44.01 3 0);
     ("CH4", mk_props 16.04 5 0);
     ("NH3", mk_props 17.03 4 1);
     ("C2H5OH", mk_props 46.07 9 1);
     ("N2", mk_props 28.01 2 0);
     ("O2", mk_props 32.00 2 0);
     ("C6H6", mk_props 78.11 12 0);
     ("C8H18", mk_props 114.23 26 0);
     ("NaCl", mk_props 58.44 2 1)].

Definition get_molecular_properties (compound : string) : MolProps :=
  default (mk_props 50 5 0) (properties !! compound).

Section Collection.
Variable rt : Runtime.

(** [hash(compound) % 1000] *)
Definition encode (compound : string) : Z :=
  py_hash (hash_secret rt) compound mod 1000.

(** [df.dropna(subset=['temperature', 'heat_capacity'])] followed by the
    selection of the temperatures from 200 to 2000. *)
Definition clean_and_filter (df : DataFrame) : DataFrame :=
  let df := List.filter
    (fun r => negb (is_nan (temperature r))
              && negb (is_nan (heat_capacity r))) df in
  List.filter
    (fun r => fge (temperature r) (of_Z 200)
              && fle (temperature r) (of_Z 2000)) df.

Definition training_sample (compound : string) (row : ThermoRecord)
  : Sample.t :=
  {| Sample.compound := compound;
     Sample.compound_id := encode compound;
     Sample.temperature := temperature row;
     Sample.heat_capacity := heat_capacity row;
     Sample.entropy := entropy row;
     Sample.enthalpy_minus_h298 := enthalpy_minus_h298 row;
     Sample.mol_props := get_molecular_properties compound |}.

Fixpoint process_for_training (raw_data : RawData) : Result TrainingTable :=
  match raw_data with
  | [] => Ok []
  | (compound, data) :: rest =>
      rbind
        (match thermodynamic_data data with
         | NoData => Ok []
         | Frame df => Ok (map (training_sample compound)
                               (clean_and_filter df))
         | Records _ => Raise AttributeError
         end) (fun samples =>
      rbind (process_for_training rest) (fun more =>
      Ok (samples ++ more)))
  end.

Definition compounds : list string :=
  ["H2O"; "CO2"; "CH4"; "NH3"; "C2H5OH"; "N2"; "O2"; "C6H6"; "C8H18";
   "NaCl"].

(** [np.linspace(start, stop, num)] *)
Definition linspace (start stop : Q) (num : nat) : list Q :=
  match num with
  | 0%nat => []
  | 1%nat => [start]
  | _ =>
      let step := ((stop - start) / inject_Z (Z.of_nat num - 1))%Q in
      map (fun i : nat => Qred (start + inject_Z (Z.of_nat i) * step))
          (seq 0 num)
  end.

(** [max(a, b)] on numbers: [b] when it is the greater, else [a]. *)
Definition py_max (a b : Q) : Q :=
  if Qlt_le_dec a b then b else a.

Fixpoint mapM {A B} (f : A -> M B) (l : list A) : M (list B) :=
  match l with
  | [] => ret []
  | x :: l' =>
      do y <- f x;
      do ys <- mapM f l';
      ret (y :: ys)
  end.

(** The body of the loop over the temperatures. *)
Definition synthetic_sample (compound : string) (mol_props : MolProps)
    (temp : Q) : M Sample.t :=
  let base_cp := (20 + inject_Z (n_atoms mol_props) * 5)%Q in
  let temp_effect := (0.01 * temp + 0.000001 * temp ^ 2)%Q in
  do noise <- np_random_normal rt 0 2;
  let cp := (base_cp + temp_effect + noise)%Q in
  do noise <- np_random_normal rt 0 5;
  let entropy :=
    (150 + np_log rt temp * 20 + inject_Z (n_atoms mol_props) * 10
     + noise)%Q in
  do enthalpy <- np_random_normal rt 0 1000;
  ret {| Sample.compound := compound;
         Sample.compound_id := encode compound;
         Sample.temperature := Fin temp;
         Sample.heat_capacity := Fin (py_max cp 10);
         Sample.entropy := Some (Fin (py_max entropy 0));
         Sample.enthalpy_minus_h298 := Some (Fin enthalpy);
         Sample.mol_props := mol_props |}.

Definition samples_per_compound (existing_count : Z) : Z :=
  let target_samples := Z.max (100 - existing_count) 0 in
  Z.max (target_samples / Z.of_nat (length compounds)) 5.

Definition generate_synthetic_supplement (existing_count : Z)
  : M TrainingTable :=
  do blocks <-
    mapM (fun compound =>
            let mol_props := get_molecular_properties compound in
            let temps :=
              linspace 200 2000
                (Z.to_nat (samples_per_compound existing_count)) in
            mapM (synthetic_sample compound mol_props) temps)
         compounds;
  ret (concat blocks).

Definition target_compounds : list string :=
  ["H2O"; "water"; "CO2"; "carbon dioxide"; "CH4"; "methane";
   "NH3"; "ammonia"; "C2H5OH"; "ethanol"; "N2"; "nitrogen";
   "O2"; "oxygen"; "C6H6"; "benzene"; "C8H18"; "octane";
   "NaCl"; "sodium chloride"; "H2"; "hydrogen";
   "CO"; "carbon monoxide"; "C2H4"; "ethylene"; "C3H8"; "propane";
   "C2H6"; "ethane"].

Definition has_thermo (data : CompoundData) : bool :=
  match thermodynamic_data data with
  | NoData => false
  | _ => true
  end.

(** The loop over [target_compounds]. *)
Fixpoint collect_loop (todo : list string) (raw_data : RawData)
  : M RawData :=
  match todo with
  | [] => ret raw_data
  | compound :: rest =>
      do raw_data <-
        try_catch
          (match scrape_compound_data rt compound with
           | Some data =>
               if has_thermo data
               then ret (dict_set compound data raw_data)
               else ret raw_data
           | None => ret raw_data
           end)
          (fun _ => ret raw_data);
      collect_loop rest raw_data
  end.

Definition collect_hackathon_dataset : M TrainingTable :=
  do raw_data <- collect_loop target_compounds [];
  do _ <- match raw_data with
          | [] => ret tt
          | _ => save_data rt raw_data "hackathon_raw_data.json"
          end;
  do training_data <- lift (process_for_training raw_data);
  do training_data <-
    (if (length training_data <? 50)%nat then
       do synthetic_data <-
         generate_synthetic_supplement (Z.of_nat (length training_data));
       ret (training_data ++ synthetic_data)
     else ret training_data);
  do _ <- write_file rt "hackathon_training_data.csv" (Csv training_data);
  ret training_data.

(** ** [main_data_collection.py] *)

(** The dataset summary reads the columns of the table; a table without
    rows has none. *)
Definition dataset_summary (data : TrainingTable) : Result unit :=
  match data with
  | [] => Raise KeyError
  | _ => Ok tt
  end.

(** The body of the [except] clause of [main]. *)
Definition emergency_fallback : M TrainingTable :=
  do data <- generate_synthetic_supplement 0;
  do _ <- write_file rt "final_training_data.csv" (Csv data);
  ret data.

(** [main]: the [try] block and its [except] clause.  The import at the
    head of each and the prints are taken to return, so the exceptions of
    this [main] are those of the collection, of the summary and of the
    writes. *)
Definition main : M TrainingTable :=
  try_catch
    (do data <- collect_hackathon_dataset;
     do _ <- lift (dataset_summary data);
     do _ <- write_file rt "final_training_data.csv" (Csv data);
     ret data)
    (fun _ => emergency_fallback).

End Collection.

(** * Properties *)

(** ** Definitions used in the statements *)

Definition all_ascii : list ascii := map ascii_of_nat (seq 0 256).

(** The characters a match of [number_re] is made of. *)
Definition number_char (c : ascii) : bool :=
  is_sign c || is_digit c || is_dot c || is_exp_char c.

(** The texts a regular expression matches. *)
Fixpoint lang (r : regex) (m : text) : Prop :=
  match r with
  | Cls p => exists c, m = [c] /\ p c = true
  | Seq a b => exists m1 m2, m = m1 ++ m2 /\ lang a m1 /\ lang b m2
  | Opt a => m = [] \/ lang a m
  | Star p => forallb p m = true
  | Plus p => m <> [] /\ forallb p m = true
  end.

Definition no_digit (s : text) : Prop :=
  Forall (fun c => is_digit c = false) s.

(** The values [float] gives to the spellings of infinity and NaN. *)
Definition special (x : pyfloat) : Prop :=
  x = PInf \/ x = NInf \/ x = NaN.

(** A step that leaves the files alone. *)
Definition same_disk (st st' : State) : Prop :=
  attempts st' = attempts st /\ files st' = files st.

(** A row made by the synthetic generator for [compound] at [temp]. *)
Definition synthetic_row (rt : Runtime) (compound : string) (temp : Q)
    (row : Sample.t) : Prop :=
  Sample.compound row = compound /\
  Sample.compound_id row = encode rt compound /\
  Sample.temperature row = Fin temp /\
  (exists cp, Sample.heat_capacity row = Fin cp /\ (10 <= cp)%Q) /\
  (exists s, Sample.entropy row = Some (Fin s) /\ (0 <= s)%Q) /\
  Sample.mol_props row = get_molecular_properties compound.

(** The number of rows per compound, as the specification writes it. *)
Definition rows_per_compound (existing_count : Z) : Z :=
  Z.max ((100 - existing_count) / 10) 5.

(** The bounds every row of the training table is to satisfy. *)
Definition row_in_bounds (row : Sample.t) : Prop :=
  fge (Sample.temperature row) (of_Z 200) = true /\
  fle (Sample.temperature row) (of_Z 2000) = true /\
  fgt (Sample.heat_capacity row) (of_Z 0) = true /\
  Sample.mol_props row = get_molecular_properties (Sample.compound row).

Definition heat_capacity_positive (r : ThermoRecord) : Prop :=
  fgt (heat_capacity r) (of_Z 0) = true.

(** What the scraper can put in [thermodynamic_data]: nothing, or a frame
    that is not empty. *)
Definition scraped (cd : CompoundData) : Prop :=
  match thermodynamic_data cd with
  | NoData => True
  | Frame df => df <> [] /\ Forall heat_capacity_positive df
  | Records _ => False
  end.

(** The outcome of a computation from a state: [Q] holds of a result and of
    the state it leaves, [E] of an exception and of the state at the
    raise. *)
Definition post {A} (m : M A) (st : State)
    (Q : A -> State -> Prop) (E : exn -> State -> Prop) : Prop :=
  match m st with
  | (Ok a, st') => Q a st'
  | (Raise e, st') => E e st'
  end.

Abbreviation final_csv := "final_training_data.csv"%string.

(** ** Runs used as examples *)

Definition init : State := {| draws := 0; attempts := 0; files := ∅ |}.

Definition nist_url : string := "https://webbook.nist.gov/cgi/cbook.cgi".

(** A runtime without network: no compound is found.  [writable] tells
    which attempts to write a file succeed. *)
Definition offline (writable : nat -> bool) : Runtime :=
  {| search := fun _ => None;
     thermo_page := fun _ => Raise (OSError nist_url);
     phase_page := fun _ => Raise (OSError nist_url);
     gauss := fun k => ((inject_Z (Z.of_nat (k mod 7)) - 3) / 2)%Q;
     np_log := fun q => (inject_Z (Z.log2 (Qfloor q)) * 0.6931)%Q;
     hash_secret := (0, 0);
     write_ok := writable |}.

(** No file can be written. *)
Definition read_only : Runtime := offline (fun _ => false).

(** The first attempt to write fails, the later ones succeed. *)
Definition flaky : Runtime := offline (fun k => negb (k =? 0)%nat).

Definition water_page : Soup :=
  [ {| th := [str "Temperature (K)"; str "Cp (J/mol*K)"; str "S (J/mol*K)"];
       tr := [ [];
               [str "100"; str "33.30"; str "152.39"];
               [str "298"; str "33.59"; str "188.84"];
               [str "500"; str "35.22"];
               [str "2500"; str "53.06"; str "267.08"] ] |} ].

(** Only water is found, and its page has two rows between 200 and 2000. *)
Definition water_only : Runtime :=
  {| search := fun name => if String.eqb name "H2O" then Some "C7732185"
                           else None;
     thermo_page := fun _ => Ok water_page;
     phase_page := fun _ => Ok [];
     gauss := gauss read_only;
     np_log := np_log read_only;
     hash_secret := (0, 0);
     write_ok := fun _ => true |}.

Definition water_table : TrainingTable :=
  match main water_only init with
  | (Ok data, _) => data
  | (Raise _, _) => []
  end.

(** ** Texts and tables used as examples *)

(** "298 ± 2" *)
Definition uncertain_text : text := str "298 " ++ plus_minus :: str " 2".

(** "1.2×10^-3" *)
Definition times_text : text := str "1.2" ++ times_sign :: str "10^-3".

(** A table of thermodynamic data whose only row has no temperature. *)
Definition nan_table : Table :=
  {| th := [str "Temperature (K)"; str "Cp (J/mol*K)"];
     tr := [[]; [str "NaN"; str "35.5"]] |}.

(** Whether the label of a phase-change row, stripped and in lower case,
    contains a word. *)
Definition label_has (w : string) (cell : text) : bool :=
  contains (str w) (lower (strip cell)).

(** What [save_data] writes for a compound whose data is [None] or a
    frame. *)
Definition saved_of (cd : CompoundData) : SavedCompound :=
  {| saved_formula := formula cd;
     saved_compound_id := compound_id cd;
     saved_phase_change_data := phase_change_data cd;
     saved_thermodynamic_data :=
       match thermodynamic_data cd with
       | Frame df => Some df
       | _ => None
       end |}.

(** The raw results a snapshot can be taken of and read back: the data of a
    compound is [None] or a frame with at least one row, which is what the
    scraper produces. *)
Definition reloadable (cd : CompoundData) : Prop :=
  match thermodynamic_data cd with
  | NoData => True
  | Frame df => df <> []
  | Records _ => False
  end.

(** The runtime of [water_only] in an interpreter started with
    [PYTHONHASHSEED=seed]. *)
Definition seeded (seed : Z) : Runtime :=
  {| search := search water_only;
     thermo_page := thermo_page water_only;
     phase_page := phase_page water_only;
     gauss := gauss water_only;
     np_log := np_log water_only;
     hash_secret := secret_of_seed seed;
     write_ok := write_ok water_only |}.

(** The raw results of the collection when only water is found. *)
Definition water_raw : RawData :=
  match collect_loop water_only target_compounds [] init with
  | (Ok raw, _) => raw
  | (Raise _, _) => []
  end.

Definition snapshot : string := "hackathon_raw_data.json".

(** The raw results read back, by an interpreter with seed 2, from the
    snapshot an interpreter with seed 1 has saved. *)
Definition water_reloaded : Result RawData :=
  fst (load_data snapshot
         (snd (save_data (seeded 1) water_raw snapshot init))).

Definition compound_ids (r : Result TrainingTable) : list Z :=
  match r with
  | Ok table => map Sample.compound_id table
  | Raise _ => []
  end.

(** The results of [scrape_multiple_compounds]: the data of the compounds
    that are found, in the order of the list. *)
Definition scrape_results (rt : Runtime) (compound_list : list string)
    (results : RawData) : RawData :=
  fold_left (fun results compound =>
               match scrape_compound_data rt compound with
               | Some data => dict_set compound data results
               | None => results
               end) compound_list results.

(** The identifiers of five compounds, as [search_compound] reads them
    from the links of the WebBook. *)
Definition cas_number (name : string) : option string :=
  if String.eqb name "H2O" then Some "C7732185"
  else if String.eqb name "CO2" then Some "C124389"
  else if String.eqb name "CH4" then Some "C74828"
  else if String.eqb name "NH3" then Some "C7664417"
  else if String.eqb name "N2" then Some "C7727379"
  else None.

(** Four compounds are found and the fifth, xenon, is not. *)
Definition fifth_missing : Runtime :=
  {| search := cas_number;
     thermo_page := fun _ => Ok water_page;
     phase_page := fun _ => Ok [];
     gauss := gauss read_only;
     np_log := np_log read_only;
     hash_secret := (0, 0);
     write_ok := fun _ => true |}.

Definition five_compounds : list string := ["H2O"; "CO2"; "CH4"; "NH3"; "Xe"].

(** Five compounds that are all found. *)
Definition five_found : list string := ["H2O"; "CO2"; "CH4"; "NH3"; "N2"].

(** A page with one row, whose label names an enthalpy and a point of
    boiling. *)
Definition enthalpy_at_boiling_page : Soup :=
  [ {| th := [str "Quantity"; str "Value"];
       tr := [ [str "Enthalpy at boiling point"; str "373.15"] ] |} ].

(** A page with one row, whose label names fusion, an enthalpy and a point,
    and boiling as well. *)
Definition fusion_at_boiling_page : Soup :=
  [ {| th := [str "Quantity"; str "Value"];
       tr := [ [str "Enthalpy of fusion at boiling point";
                str "6.01"] ] |} ].

(** ** Further definitions *)

Definition has_digit (s : text) : Prop :=
  exists c, In c s /\ is_digit c = true.

(** What the cell of index [j] of a row parses to; no value when the row
    has no such cell. *)
Definition value_at (cells : list text) (j : nat) : option pyfloat :=
  match cells !! j with
  | Some cell =>
      match _parse_number (strip cell) with
      | Ok value => value
      | Raise _ => None
      end
  | None => None
  end.

(** The local variable of the loop over the cells that the cell of index
    [k] is assigned to. *)
Definition column (k : nat) (c : Columns) : option pyfloat :=
  match k with
  | 1%nat => col_cp c
  | 2%nat => col_entropy c
  | 3%nat => col_gibbs c
  | 4%nat => col_enthalpy c
  | _ => None
  end.

(** A row of five cells with a dash for the Gibbs function. *)
Definition five_cells : list text :=
  [str "298"; str "33.59"; str "188.84"; str "-"; str "9.90"].

(** The key under which the value of a phase-change row is stored, from
    the label of the row, stripped and in lower case. *)
Definition phase_key (property_name : text) : option string :=
  let has := fun w : string => contains (str w) property_name in
  if has "boiling" || has "vaporization" then
    if has "temperature" || has "point" then Some "boiling_point_K"
    else if has "enthalpy" then Some "heat_of_vaporization"
    else None
  else if has "melting" || has "fusion" then
    if has "temperature" || has "point" then Some "melting_point_K"
    else if has "enthalpy" then Some "heat_of_fusion"
    else None
  else None.

(** What a row of a phase-change table stores: a key and a value, when the
    row has two cells, its label has a key and its second cell a value. *)
Definition row_write (cells : list text) : option (string * pyfloat) :=
  match cells with
  | cell0 :: _ :: _ =>
      match value_at cells 1, phase_key (lower (strip cell0)) with
      | Some v, Some k => Some (k, v)
      | _, _ => None
      end
  | _ => None
  end.

Definition phase_change_keys : list string :=
  ["boiling_point_K"; "heat_of_vaporization"; "melting_point_K";
   "heat_of_fusion"].

(** A page with two rows for the boiling point and one for the melting
    point. *)
Definition boiling_page : Soup :=
  [ {| th := [str "Quantity"; str "Value"];
       tr := [ [str "Boiling point"; str "373.15"];
               [str "Boiling Temperature"; str "373"];
               [str "Melting point"; str "273.15"] ] |} ].

(** A snapshot in which the thermodynamic data of water is an empty
    list. *)
Definition empty_list_snapshot : list (string * SavedCompound) :=
  [("H2O", {| saved_formula := "H2O";
              saved_compound_id := "C7732185";
              saved_phase_change_data := ∅;
              saved_thermodynamic_data := Some [] |})].

Definition with_snapshot : State :=
  {| draws := 0; attempts := 0;
     files := {[ snapshot := Json empty_list_snapshot ]} |}.

Abbreviation raw_json := "hackathon_raw_data.json"%string.
Abbreviation training_csv := "hackathon_training_data.csv"%string.

(** The state a successful write leaves. *)
Definition written (filename : string) (content : FileContent) (st : State)
  : State :=
  {| draws := draws st; attempts := S (attempts st);
     files := <[filename := content]> (files st) |}.

(** The state a refused write leaves. *)
Definition refused (st : State) : State :=
  {| draws := draws st; attempts := S (attempts st); files := files st |}.

(** No compound is found, and of the attempts to write only the second
    fails: the write of the final table by [main]. *)
Definition final_write_fails : Runtime :=
  offline (fun k => negb (k =? 1)%nat).

(** The table the collection returns when only water is found. *)
Definition water_collected : TrainingTable :=
  match collect_hackathon_dataset water_only init with
  | (Ok data, _) => data
  | (Raise _, _) => []
  end.

(** The table the collection returns when nothing is found. *)
Definition offline_collected : TrainingTable :=
  match collect_hackathon_dataset final_write_fails init with
  | (Ok data, _) => data
  | (Raise _, _) => []
  end.

(** ** [search_compound], request by request

    [Runtime.search] stands for the whole of [search_compound].  Here the
    function is followed through its four requests; of the answer to a
    request it reads the [href] of each [a] element that has one, in the
    order of the document, and the URL of the response. *)

Record Response := {
  hrefs : list text;
  url : text;
}.

Definition is_char (a c : ascii) : bool := ascii_eqb c a.

(** [ID=C\d+] *)
Definition id_re : regex :=
  Seq (Cls (is_char "I"))
  (Seq (Cls (is_char "D"))
  (Seq (Cls (is_char "="))
  (Seq (Cls (is_char "C")) (Plus is_digit)))).

(** [re.search(r, s)]: the match at the leftmost position that has one. *)
Fixpoint re_search (r : regex) (s : text) : option text :=
  match match_at r s with
  | Some (m, _) => Some m
  | None =>
      match s with
      | [] => None
      | _ :: s' => re_search r s'
      end
  end.

(** Group 1 of a match of [ID=(C\d+)]. *)
Definition group1 (m : text) : text := drop 3 m.

(** The body of the [try] for one response; [Ok None] when the loop is to
    go on with the next request.  [.group(1)] of no match raises
    [AttributeError]. *)
Definition id_of_response (response : Response) : Result (option text) :=
  let compound_links :=
    List.filter (fun href => bool_decide (is_Some (re_search id_re href)))
                (hrefs response) in
  match compound_links with
  | href :: _ =>
      match re_search id_re href with
      | Some m => Ok (Some (group1 m))
      | None => Raise AttributeError
      end
  | [] =>
      if contains (str "ID=C") (url response) then
        match re_search id_re (url response) with
        | Some m => Ok (Some (group1 m))
        | None => Ok None
        end
      else Ok None
  end.

(** The loop over the requests: a request that raises, or whose answer
    raises, is passed over. *)
Fixpoint search_compound_requests (responses : list (Result Response))
  : option text :=
  match responses with
  | [] => None
  | response :: rest =>
      match rbind response id_of_response with
      | Ok (Some compound_id) => Some compound_id
      | Ok None | Raise _ => search_compound_requests rest
      end
  end.

(** A response without a link to a compound or a compound in its URL. *)
Definition no_compound (response : Response) : Prop :=
  Forall (fun href => re_search id_re href = None) (hrefs response)
  /\ re_search id_re (url response) = None.

(** Four answers to a search for water: the first request fails, the
    second is answered by a list of links. *)
Definition water_answers : list (Result Response) :=
  [ Raise (OSError nist_url);
    Ok {| hrefs := [str "/chemistry/";
                    str "/cgi/cbook.cgi?ID=C7732185&Units=SI";
                    str "/cgi/cbook.cgi?ID=C7789200&Units=SI"];
          url := str "https://webbook.nist.gov/cgi/cbook.cgi?Name=water" |};
    Raise (OSError nist_url);
    Raise (OSError nist_url) ].

(** The records of the frame of a compound; none when the compound has no
    thermodynamic data. *)
Definition frame_of (cd : CompoundData) : DataFrame :=
  match thermodynamic_data cd with
  | Frame df => df
  | _ => []
  end.

(** The records that the aggregation keeps: temperature and heat capacity
    are numbers, and the temperature is from 200 to 2000. *)
Definition kept_for_training (r : ThermoRecord) : bool :=
  negb (is_nan (temperature r)) && negb (is_nan (heat_capacity r))
  && fge (temperature r) (of_Z 200) && fle (temperature r) (of_Z 2000).

(** ** Characters *)

Lemma forall_ascii (P : ascii -> bool) :
  forallb P all_ascii = true -> forall c, P c = true.
Proof.
  intros H c. rewrite forallb_forall in H. apply H.
  rewrite <- (ascii_nat_embedding c). unfold all_ascii.
  apply in_map, in_seq. pose proof (nat_ascii_bounded c). lia.
Qed.

Ltac by_cases_on_ascii c :=
  revert c; apply forall_ascii; vm_compute; reflexivity.

Lemma number_char_plain c :
  implb (number_char c)
        (negb (float_space c) && negb (ascii_eqb c underscore)) = true.
Proof. by_cases_on_ascii c. Qed.

Lemma digit_facts c :
  implb (is_digit c)
        (negb (is_sign c) && negb (ascii_eqb c ".") && negb (is_exp_char c)
         && negb (ascii_eqb "i" (ascii_lower c))
         && negb (ascii_eqb "n" (ascii_lower c))) = true.
Proof. by_cases_on_ascii c. Qed.

Lemma dot_facts c :
  implb (is_dot c)
        (negb (is_sign c) && negb (is_digit c) && ascii_eqb c "."
         && negb (ascii_eqb "i" (ascii_lower c))
         && negb (ascii_eqb "n" (ascii_lower c))) = true.
Proof. by_cases_on_ascii c. Qed.

Lemma exp_char_facts c :
  implb (is_exp_char c)
        (negb (is_digit c) && negb (ascii_eqb c ".")) = true.
Proof. by_cases_on_ascii c. Qed.

Lemma sign_facts c :
  implb (is_sign c)
        (negb (is_digit c) &&
         (ascii_eqb c "-" || ascii_eqb c "+")) = true.
Proof. by_cases_on_ascii c. Qed.

(** ** The regular-expression matcher *)

Lemma star_match_sound p : forall s k x,
  star_match p s k = Some x ->
  exists m s', s = m ++ s' /\ forallb p m = true /\ k s' = Some x.
Proof.
  induction s as [|c s IH]; intros k x H; simpl in H.
  - exists [], []. auto.
  - destruct (p c) eqn:Hc.
    + destruct (star_match p s k) as [r|] eqn:Hs.
      * injection H as <-. destruct (IH _ _ Hs) as (m & s' & -> & Hm & Hk).
        exists (c :: m), s'. simpl. rewrite Hc, Hm. auto.
      * exists [], (c :: s). auto.
    + exists [], (c :: s). auto.
Qed.

Lemma rmatch_sound r : forall s k x,
  rmatch r s k = Some x ->
  exists m s', s = m ++ s' /\ lang r m /\ k s' = Some x.
Proof.
  induction r as [p|a IHa b IHb|a IHa|p|p]; intros s k x H; simpl in H.
  - destruct s as [|c s]; [discriminate|].
    destruct (p c) eqn:Hc; [|discriminate].
    exists [c], s. simpl. repeat split; eauto.
  - destruct (IHa _ _ _ H) as (m1 & s1 & -> & H1 & Hk).
    destruct (IHb _ _ _ Hk) as (m2 & s2 & -> & H2 & Hk2).
    exists (m1 ++ m2), s2. rewrite <- app_assoc. simpl. repeat split; eauto.
  - destruct (rmatch a s k) as [y|] eqn:Ha.
    + injection H as <-. destruct (IHa _ _ _ Ha) as (m & s' & -> & Hm & Hk).
      exists m, s'. simpl. auto.
    + exists [], s. simpl. auto.
  - apply star_match_sound in H. exact H.
  - destruct s as [|c s]; [discriminate|].
    destruct (p c) eqn:Hc; [|discriminate].
    apply star_match_sound in H. destruct H as (m & s' & -> & Hm & Hk).
    exists (c :: m), s'. simpl. rewrite Hc, Hm. auto.
Qed.

Lemma match_at_lang r s m rest :
  match_at r s = Some (m, rest) -> s = m ++ rest /\ lang r m.
Proof.
  unfold match_at. destruct (rmatch r s Some) as [x|] eqn:H; [|discriminate].
  intros [= <- <-]. apply rmatch_sound in H.
  destruct H as (m & s' & -> & Hm & [= ->]).
  rewrite length_app, Nat.add_sub, take_app_length. auto.
Qed.

Lemma findall_from_matches r : forall s skip m,
  In m (findall_from r skip s) ->
  exists s' rest, match_at r s' = Some (m, rest).
Proof.
  induction s as [|c s IH]; intros skip m H; simpl in H.
  - destruct skip; [|contradiction].
    destruct (match_at r []) as [[m' rest]|] eqn:Hm; [|contradiction].
    destruct H as [<-|[]]. eauto.
  - destruct skip as [|n]; [|eauto].
    destruct (match_at r (c :: s)) as [[m' rest]|] eqn:Hm; [|eauto].
    destruct H as [<-|H]; eauto.
Qed.

(** ** [float] accepts every match of [number_re] *)

Ltac split_andb H :=
  repeat match type of H with
         | (_ && _) = true =>
             let H1 := fresh H in
             apply andb_prop in H; destruct H as [H H1]
         end.

Ltac use_facts lem c Hc :=
  let F := fresh "F" in
  pose proof (lem c) as F; rewrite Hc in F; simpl in F; split_andb F;
  repeat match goal with
         | H : negb _ = true |- _ => apply negb_true_iff in H
         end.

Lemma float_lstrip_plain s :
  match s with [] => True | c :: _ => float_space c = false end ->
  float_lstrip s = s.
Proof. destruct s as [|c s]; simpl; [auto|]. now intros ->. Qed.

Lemma float_strip_plain s :
  Forall (fun c => float_space c = false) s -> float_strip s = s.
Proof.
  intros H. unfold float_strip.
  rewrite (float_lstrip_plain s) by (destruct H; auto).
  apply Forall_rev in H.
  rewrite (float_lstrip_plain (rev s)) by (destruct H; auto).
  apply rev_involutive.
Qed.

Lemma strip_underscores_plain s : forall prev,
  match prev with
  | Some p => ascii_eqb p underscore = false
  | None => True
  end ->
  Forall (fun c => ascii_eqb c underscore = false) s ->
  strip_underscores prev s = Some s.
Proof.
  induction s as [|c s IH]; intros prev Hp Hs; simpl.
  - destruct prev as [p|]; [now rewrite Hp|reflexivity].
  - inversion Hs as [|? ? Hc Hs']; subst. rewrite Hc.
    replace (match prev with
             | Some p => ascii_eqb p underscore
             | None => false
             end) with false by (destruct prev; auto).
    simpl. now rewrite (IH (Some c) Hc Hs').
Qed.

Lemma span_app p d rest :
  forallb p d = true ->
  match rest with [] => True | c :: _ => p c = false end ->
  span p (d ++ rest) = (d, rest).
Proof.
  intros Hd Hr. induction d as [|c d IH]; simpl in *.
  - destruct rest as [|c rest]; simpl; [reflexivity|]. now rewrite Hr.
  - apply andb_prop in Hd. destruct Hd as [-> Hd]. now rewrite (IH Hd).
Qed.

Lemma span_all p d : forallb p d = true -> span p d = (d, []).
Proof.
  intros H. pose proof (span_app p d [] H I) as E.
  now rewrite app_nil_r in E.
Qed.

Lemma forallb_number_char (p : ascii -> bool) m :
  (forall c, p c = true -> number_char c = true) ->
  forallb p m = true -> forallb number_char m = true.
Proof.
  intros Hp H. rewrite forallb_forall in *. auto.
Qed.

Lemma number_char_intro c :
  is_sign c = true \/ is_digit c = true \/ is_dot c = true
  \/ is_exp_char c = true -> number_char c = true.
Proof.
  unfold number_char. intros [ -> | [ -> | [ -> | -> ] ] ];
    rewrite ?orb_true_r; reflexivity.
Qed.

(** A text that starts with a digit or a point is neither signed nor one of
    the special values. *)
Lemma unsigned_literal_start c s :
  is_digit c = true \/ is_dot c = true ->
  take_sign (c :: s) = (false, c :: s) /\ parse_inf_or_nan (c :: s) = None.
Proof.
  intros H.
  assert (is_sign c = false /\ ascii_eqb "i" (ascii_lower c) = false
          /\ ascii_eqb "n" (ascii_lower c) = false) as (Hs & Hi & Hn).
  { destruct H as [H|H]; [use_facts digit_facts c H|use_facts dot_facts c H];
      auto. }
  unfold is_sign in Hs. apply orb_false_elim in Hs. destruct Hs as [Hm Hp].
  split.
  - unfold take_sign. now rewrite Hm, Hp.
  - unfold parse_inf_or_nan. simpl. now rewrite Hi, Hn.
Qed.

Lemma take_sign_signed c s :
  is_sign c = true -> exists neg, take_sign (c :: s) = (neg, s).
Proof.
  intros H. use_facts sign_facts c H. unfold take_sign.
  destruct (ascii_eqb c "-"); [eauto|].
  simpl in F0. rewrite F0. eauto.
Qed.

(** The exponent of a match, when there is one, is read to its end. *)
Lemma take_exponent_match ex :
  lang (Opt (Seq (Cls is_exp_char) (Seq (Opt (Cls is_sign)) (Plus is_digit))))
       ex ->
  exists e, take_exponent ex = (e, []).
Proof.
  simpl. intros [->|(m1 & m2 & -> & (c & -> & Hc) &
                     (sg & ds & -> & Hsg & Hne & Hds))].
  - exists 0. reflexivity.
  - simpl. rewrite Hc.
    assert (exists neg, take_sign (sg ++ ds) = (neg, ds)) as [neg ->].
    { destruct Hsg as [->|(s & -> & Hs)].
      - destruct ds as [|d ds]; [congruence|]. simpl in Hds.
        apply andb_prop in Hds. destruct Hds as [Hd _].
        exists false. apply unsigned_literal_start. auto.
      - apply take_sign_signed. exact Hs. }
    rewrite span_all by auto.
    destruct ds as [|d ds]; [congruence|]. eauto.
Qed.

Lemma strtod_match d1 dt d2 ex :
  forallb is_digit d1 = true ->
  lang (Opt (Cls is_dot)) dt ->
  d2 <> [] -> forallb is_digit d2 = true ->
  lang (Opt (Seq (Cls is_exp_char) (Seq (Opt (Cls is_sign)) (Plus is_digit))))
       ex ->
  exists q, strtod (d1 ++ dt ++ d2 ++ ex) = Some (q, []).
Proof.
  intros H1 Hdt Hne H2 Hex.
  destruct (take_exponent_match ex Hex) as [e He].
  assert (Hexh : match ex with [] => True | c :: _ => is_digit c = false end).
  { destruct Hex as [->|(m1 & m2 & -> & (c & -> & Hc) & _)]; [exact I|].
    simpl. use_facts exp_char_facts c Hc. auto. }
  assert (Hexd : match ex with
                 | [] => True | c :: _ => ascii_eqb c "." = false end).
  { destruct Hex as [->|(m1 & m2 & -> & (c & -> & Hc) & _)]; [exact I|].
    simpl. use_facts exp_char_facts c Hc. auto. }
  unfold strtod. destruct Hdt as [->|(c & -> & Hc)]; simpl app.
  - rewrite app_assoc, span_app; [| now rewrite forallb_app, H1, H2 | auto].
    replace (match ex with
             | [] => ([], ex)
             | c :: r => if ascii_eqb c "." then span is_digit r else ([], ex)
             end) with (@nil ascii, ex)
      by (destruct ex; [reflexivity|now rewrite Hexd]).
    rewrite app_nil_r.
    destruct (d1 ++ d2) as [|x l] eqn:E.
    { apply app_eq_nil in E. destruct E. congruence. }
    rewrite He. eauto.
  - use_facts dot_facts c Hc.
    rewrite span_app; [| auto | simpl; auto].
    replace (ascii_eqb c ".") with true by (symmetry; assumption).
    rewrite span_app by auto.
    destruct (d1 ++ d2) as [|x l] eqn:E.
    { apply app_eq_nil in E. destruct E. congruence. }
    rewrite He. eauto.
Qed.

Lemma lang_number_chars m :
  lang number_re m -> forallb number_char m = true.
Proof.
  simpl.
  intros (sg & r1 & -> & Hsg & d1 & r2 & -> & H1 & dt & r3 & -> & Hdt
          & d2 & ex & -> & [_ H2] & Hex).
  rewrite !forallb_app. repeat (apply andb_true_intro; split).
  - destruct Hsg as [->|(c & -> & Hc)]; [reflexivity|]. simpl.
    rewrite number_char_intro; auto.
  - eapply forallb_number_char; [|exact H1].
    intros; apply number_char_intro; auto.
  - destruct Hdt as [->|(c & -> & Hc)]; [reflexivity|]. simpl.
    rewrite number_char_intro; auto.
  - eapply forallb_number_char; [|exact H2].
    intros; apply number_char_intro; auto.
  - destruct Hex as [->|(m1 & m2 & -> & (c & -> & Hc) &
                         (s & ds & -> & Hs & _ & Hds))]; [reflexivity|].
    simpl. rewrite number_char_intro by auto. simpl.
    rewrite forallb_app. apply andb_true_intro; split.
    + destruct Hs as [->|(c' & -> & Hc')]; [reflexivity|]. simpl.
      rewrite number_char_intro; auto.
    + eapply forallb_number_char; [|exact Hds].
      intros; apply number_char_intro; auto.
Qed.

Lemma py_float_number m :
  lang number_re m -> exists x, py_float m = Some x.
Proof.
  intros H. pose proof (lang_number_chars m H) as Hch.
  assert (Hplain : Forall (fun c => float_space c = false
                                   /\ ascii_eqb c underscore = false) m).
  { rewrite forallb_forall in Hch. apply Forall_forall. intros c Hc.
    apply list_elem_of_In in Hc.
    specialize (Hch c Hc). use_facts number_char_plain c Hch. auto. }
  unfold py_float.
  rewrite float_strip_plain
    by (eapply Forall_impl; [exact Hplain|]; simpl; tauto).
  rewrite (strip_underscores_plain m None I)
    by (eapply Forall_impl; [exact Hplain|]; simpl; tauto).
  simpl in H.
  destruct H as (sg & r1 & -> & Hsg & d1 & r2 & -> & H1 & dt & r3 & -> & Hdt
                 & d2 & ex & -> & [Hne H2] & Hex).
  destruct (strtod_match d1 dt d2 ex H1 Hdt Hne H2 Hex) as [q Hq].
  assert (Hstart : exists c s, d1 ++ dt ++ d2 ++ ex = c :: s
                    /\ (is_digit c = true \/ is_dot c = true)).
  { destruct d1 as [|c d1].
    - destruct Hdt as [->|(c & -> & Hc)].
      + destruct d2 as [|c d2]; [congruence|]. simpl in H2.
        apply andb_prop in H2. destruct H2 as [Hc _]. simpl. eauto.
      + simpl. eauto.
    - simpl in H1. apply andb_prop in H1. destruct H1 as [Hc _].
      simpl. eauto. }
  destruct Hstart as (c & s & E & Hc).
  destruct (unsigned_literal_start c s Hc) as [Hts Hin].
  destruct Hsg as [->|(sc & -> & Hsc)]; simpl app.
  - rewrite E in *. rewrite Hts, Hin, Hq. eauto.
  - destruct (take_sign_signed sc (d1 ++ dt ++ d2 ++ ex) Hsc) as [neg ->].
    rewrite E in *. rewrite Hin, Hq. eauto.
Qed.

Lemma findall_number_parses s n0 rest :
  findall number_re s = n0 :: rest -> exists x, float_of n0 = Ok x.
Proof.
  intros H.
  destruct (findall_from_matches number_re s 0 n0) as (s' & r & Hm).
  { unfold findall in H. rewrite H. now left. }
  apply match_at_lang in Hm. destruct Hm as [_ Hl].
  destruct (py_float_number n0 Hl) as [x Hx].
  exists x. unfold float_of. now rewrite Hx.
Qed.

(** The extractor never raises. *)
Lemma parse_number_total text0 : exists r, _parse_number text0 = Ok r.
Proof.
  unfold _parse_number.
  destruct (text_eqb text0 [] || text_eqb text0 (str "-")
            || text_eqb text0 []); [eauto|].
  match goal with
  | |- context [float_of ?c] => destruct (float_of c) as [x|e] eqn:Hf
  end; simpl; [eauto|].
  assert (e = ValueError) as ->.
  { unfold float_of in Hf. destruct (py_float _); congruence. }
  destruct (findall number_re (strip text0)) as [|n0 rest] eqn:Hn; [eauto|].
  destruct (findall_number_parses _ _ _ Hn) as [x ->]. simpl. eauto.
Qed.

(** ** The numeric extractor on particular inputs *)

Lemma lstrip_blank s : forallb is_space s = true -> lstrip s = [].
Proof.
  induction s as [|c s IH]; simpl; [reflexivity|].
  intros H. apply andb_prop in H. destruct H as [-> H]. auto.
Qed.

Lemma parse_number_blank s :
  forallb is_space s = true -> _parse_number s = Ok None.
Proof.
  intros H. unfold _parse_number.
  destruct (text_eqb s [] || text_eqb s (str "-") || text_eqb s []);
    [reflexivity|].
  unfold strip. rewrite (lstrip_blank s H). reflexivity.
Qed.

(** Nothing that survives the cleaning is a plus-minus sign, so cutting the
    cleaned text at that sign changes nothing. *)
Lemma kept_not_plus_minus c :
  implb (kept_by_cleaning c)
        (negb (ascii_eqb
                 (if ascii_eqb c times_sign then "e"%char else c)
                 plus_minus)) = true.
Proof. by_cases_on_ascii c. Qed.

Lemma split_first_clean s : split_first plus_minus (clean s) = clean s.
Proof.
  unfold clean, replace_char.
  induction s as [|c s IH]; simpl; [reflexivity|].
  destruct (kept_by_cleaning c) eqn:Hc; [|exact IH].
  simpl. use_facts kept_not_plus_minus c Hc. rewrite F. now rewrite IH.
Qed.

(** ** Texts without a digit *)

Lemma findall_from_suffix r : forall s skip m,
  In m (findall_from r skip s) ->
  exists pre s' rest, s = pre ++ s' /\ match_at r s' = Some (m, rest).
Proof.
  induction s as [|c s IH]; intros skip m H; simpl in H.
  - destruct skip; [|contradiction].
    destruct (match_at r []) as [[m' rest]|] eqn:Hm; [|contradiction].
    destruct H as [<-|[]]. exists [], [], rest. auto.
  - assert (forall k, In m (findall_from r k s) ->
              exists pre s' rest,
                c :: s = pre ++ s' /\ match_at r s' = Some (m, rest)) as Htl.
    { intros k Hk. destruct (IH _ _ Hk) as (pre & s' & rest & -> & Hm).
      exists (c :: pre), s', rest. auto. }
    destruct skip as [|n]; [|eauto].
    destruct (match_at r (c :: s)) as [[m' rest]|] eqn:Hm; [|eauto].
    destruct H as [<-|H]; [|eauto].
    exists [], (c :: s), rest. auto.
Qed.

Lemma no_digit_app s t : no_digit (s ++ t) <-> no_digit s /\ no_digit t.
Proof. apply Forall_app. Qed.

Lemma no_digit_forallb s :
  no_digit s -> forallb is_digit s = true -> s = [].
Proof.
  destruct s as [|c s]; [reflexivity|]. intros Hn H. simpl in H.
  inversion Hn; subst. apply andb_prop in H. destruct H. congruence.
Qed.

Lemma findall_no_digit s : no_digit s -> findall number_re s = [].
Proof.
  intros Hs. destruct (findall number_re s) as [|m l] eqn:E; [reflexivity|].
  destruct (findall_from_suffix number_re s 0 m) as (pre & s' & rest & -> & H).
  { unfold findall in E. rewrite E. now left. }
  apply match_at_lang in H. destruct H as [-> H]. simpl in H.
  destruct H as (sg & r1 & -> & _ & d1 & r2 & -> & _ & dt & r3 & -> & _
                 & d2 & ex & -> & [Hne H2] & _).
  rewrite !no_digit_app in Hs.
  destruct Hs as (_ & (_ & _ & _ & Hd & _) & _).
  elim Hne. now apply no_digit_forallb.
Qed.

Lemma span_no_digit s : no_digit s -> span is_digit s = ([], s).
Proof. destruct 1 as [|c s Hc _]; simpl; [reflexivity|]. now rewrite Hc. Qed.

Lemma strtod_no_digit s : no_digit s -> strtod s = None.
Proof.
  intros H. unfold strtod. rewrite (span_no_digit s H).
  destruct H as [|c s Hc Hs]; [reflexivity|].
  destruct (ascii_eqb c "."); [|reflexivity].
  now rewrite (span_no_digit s Hs).
Qed.

Lemma float_lstrip_no_digit s : no_digit s -> no_digit (float_lstrip s).
Proof.
  induction 1 as [|c s Hc Hs IH]; simpl; [constructor|].
  destruct (float_space c); [exact IH|]. now constructor.
Qed.

Lemma strip_underscores_no_digit s : forall prev s1,
  no_digit s -> strip_underscores prev s = Some s1 -> no_digit s1.
Proof.
  induction s as [|c s IH]; intros prev s1 Hs H; simpl in H.
  - destruct (match prev with Some p => ascii_eqb p underscore | None => false
              end); [discriminate|]. injection H as <-. constructor.
  - inversion Hs as [|? ? Hc Hs']; subst.
    destruct (ascii_eqb c underscore).
    + destruct (match prev with Some p => is_digit p | None => false end);
        [eauto|discriminate].
    + destruct (_ && _); [discriminate|].
      destruct (strip_underscores (Some c) s) as [t|] eqn:E; [|discriminate].
      simpl in H. injection H as <-. constructor; [exact Hc|].
      exact (IH _ _ Hs' E).
Qed.

Lemma take_sign_no_digit s :
  no_digit s -> no_digit (snd (take_sign s)).
Proof.
  destruct 1 as [|c s Hc Hs]; simpl; [constructor|].
  destruct (ascii_eqb c "-"); [exact Hs|].
  destruct (ascii_eqb c "+"); [exact Hs|]. now constructor.
Qed.

(** Without a digit, [float] accepts the spellings of infinity and NaN
    only. *)
Lemma py_float_no_digit s x :
  no_digit s -> py_float s = Some x -> special x.
Proof.
  intros Hs. unfold py_float.
  destruct (strip_underscores None (float_strip s)) as [s1|] eqn:E;
    [|discriminate].
  assert (H1 : no_digit s1).
  { eapply strip_underscores_no_digit; [|exact E]. unfold float_strip.
    apply Forall_rev, float_lstrip_no_digit, Forall_rev.
    now apply float_lstrip_no_digit. }
  pose proof (take_sign_no_digit s1 H1) as H2.
  destruct (take_sign s1) as [neg body]. simpl in H2.
  rewrite (strtod_no_digit body H2).
  unfold parse_inf_or_nan.
  repeat match goal with
         | |- context [if ?b then _ else _] =>
             match b with
             | starts_with _ _ => destruct b
             end
         end;
    repeat match goal with
           | |- context [drop ?n body] => destruct (drop n body)
           end;
    try discriminate; intros [= <-]; destruct neg; unfold special; simpl;
    auto.
Qed.

Lemma clean_no_digit s : no_digit s -> no_digit (clean s).
Proof.
  unfold clean, replace_char. induction 1 as [|c s Hc Hs IH]; simpl;
    [constructor|].
  destruct (kept_by_cleaning c); [|exact IH]. simpl. constructor; [|exact IH].
  destruct (ascii_eqb c times_sign); [reflexivity|exact Hc].
Qed.

Lemma strip_no_digit s : no_digit s -> no_digit (strip s).
Proof.
  assert (Hl : forall t, no_digit t -> no_digit (lstrip t)).
  { induction 1 as [|c t Hc Ht IH]; simpl; [constructor|].
    destruct (is_space c); [exact IH|]. now constructor. }
  intros H. unfold strip, rstrip. apply Forall_rev, Hl, Forall_rev, Hl, H.
Qed.

(** What the extractor returns for a text without a digit: nothing, or the
    special value the cleaned text spells. *)
Lemma parse_number_no_digit s :
  no_digit s ->
  _parse_number s = Ok None \/
  exists x, py_float (clean (strip s)) = Some x /\ special x
            /\ _parse_number s = Ok (Some x).
Proof.
  intros Hs. unfold _parse_number.
  destruct (text_eqb s [] || text_eqb s (str "-") || text_eqb s []);
    [now left|].
  replace (if contains [plus_minus] (strip s)
           then split_first plus_minus (clean (strip s))
           else clean (strip s)) with (clean (strip s))
    by (destruct (contains _ _); [now rewrite split_first_clean|reflexivity]).
  unfold float_of.
  destruct (py_float (clean (strip s))) as [x|] eqn:E; simpl.
  - right. exists x. repeat split.
    eapply py_float_no_digit; [|exact E].
    now apply clean_no_digit, strip_no_digit.
  - left. now rewrite (findall_no_digit _ (strip_no_digit s Hs)).
Qed.

(** ** The monad *)

Lemma bind_ok {A B} (m : M A) (f : A -> M B) st a st1 :
  m st = (Ok a, st1) -> bind m f st = f a st1.
Proof. unfold bind. now intros ->. Qed.

Lemma bind_raise {A B} (m : M A) (f : A -> M B) st e st1 :
  m st = (Raise e, st1) -> bind m f st = (Raise e, st1).
Proof. unfold bind. now intros ->. Qed.

Lemma try_catch_raise {A} (body : M A) handler st e st1 :
  body st = (Raise e, st1) -> try_catch body handler st = handler e st1.
Proof. unfold try_catch. now intros ->. Qed.

Lemma same_disk_trans st1 st2 st3 :
  same_disk st1 st2 -> same_disk st2 st3 -> same_disk st1 st3.
Proof. unfold same_disk. intros [-> ->] [-> ->]. auto. Qed.

Lemma mapM_spec {A B} (f : A -> M B) (P : A -> B -> Prop) :
  (forall x st, exists y st',
      f x st = (Ok y, st') /\ P x y /\ same_disk st st') ->
  forall l st, exists ys st',
      mapM f l st = (Ok ys, st') /\ Forall2 P l ys /\ same_disk st st'.
Proof.
  intros Hf. induction l as [|x l IH]; intros st; simpl.
  - exists [], st. repeat split; constructor.
  - destruct (Hf x st) as (y & st1 & Hy & HP & H1).
    destruct (IH st1) as (ys & st2 & Hys & HF & H2).
    exists (y :: ys), st2. rewrite (bind_ok _ _ _ _ _ Hy).
    rewrite (bind_ok _ _ _ _ _ Hys). repeat split.
    + now constructor.
    + eapply same_disk_trans; eauto.
    + eapply same_disk_trans; eauto.
Qed.

(** ** The synthetic generator *)

Lemma py_max_r a b : (b <= py_max a b)%Q.
Proof.
  unfold py_max. destruct (Qlt_le_dec a b); [apply Qle_refl|assumption].
Qed.

Lemma synthetic_sample_spec rt compound temp st :
  exists row st',
    synthetic_sample rt compound (get_molecular_properties compound) temp st
    = (Ok row, st')
    /\ synthetic_row rt compound temp row /\ same_disk st st'.
Proof.
  unfold synthetic_sample, bind, np_random_normal, ret. simpl.
  eexists _, _. split; [reflexivity|]. split.
  - unfold synthetic_row. simpl. repeat split; eauto using py_max_r.
  - split; reflexivity.
Qed.

Lemma samples_per_compound_spec e :
  samples_per_compound e = rows_per_compound e /\ 5 <= rows_per_compound e.
Proof.
  unfold samples_per_compound, rows_per_compound. simpl length.
  change (Z.of_nat 10) with 10. split; [|lia].
  destruct (Z.max_spec (100 - e) 0) as [[H ->]|[H ->]].
  - change (0 / 10) with 0.
    assert ((100 - e) / 10 < 0) by (apply Z.div_lt_upper_bound; lia). lia.
  - reflexivity.
Qed.

Lemma generate_synthetic_supplement_spec rt e st :
  exists blocks st',
    generate_synthetic_supplement rt e st = (Ok (concat blocks), st')
    /\ Forall2 (fun compound block =>
                  Forall2 (synthetic_row rt compound)
                          (linspace 200 2000 (Z.to_nat (rows_per_compound e)))
                          block)
               compounds blocks
    /\ same_disk st st'.
Proof.
  unfold generate_synthetic_supplement.
  destruct (mapM_spec
              (fun compound =>
                 mapM (synthetic_sample rt compound
                         (get_molecular_properties compound))
                      (linspace 200 2000
                         (Z.to_nat (samples_per_compound e))))
              (fun compound block =>
                 Forall2 (synthetic_row rt compound)
                         (linspace 200 2000 (Z.to_nat (rows_per_compound e)))
                         block)) with (l := compounds) (st := st)
    as (blocks & st' & Hb & HF & Hd).
  { intros compound st0.
    rewrite (proj1 (samples_per_compound_spec e)).
    apply mapM_spec. intros temp st1. apply synthetic_sample_spec. }
  exists blocks, st'. rewrite (bind_ok _ _ _ _ _ Hb). auto.
Qed.

(** ** [linspace] *)

Lemma lookup_map_seq {A} (f : nat -> A) : forall num j i,
  (i < num)%nat -> map f (seq j num) !! i = Some (f (j + i)%nat).
Proof.
  induction num as [|num IH]; intros j i Hi; [lia|]. simpl.
  destruct i as [|i]; simpl.
  - now rewrite Nat.add_0_r.
  - rewrite IH by lia. f_equal. f_equal. lia.
Qed.

Lemma linspace_length a b num : length (linspace a b num) = num.
Proof.
  unfold linspace. destruct num as [|[|num]]; try reflexivity.
  now rewrite length_map, length_seq.
Qed.

Lemma linspace_lookup a b num i :
  (2 <= num)%nat -> (i < num)%nat ->
  exists t, linspace a b num !! i = Some t /\
    (t == a + inject_Z (Z.of_nat i)
             * ((b - a) / inject_Z (Z.of_nat num - 1)))%Q.
Proof.
  intros Hn Hi. unfold linspace. destruct num as [|[|num]]; try lia.
  rewrite lookup_map_seq by exact Hi. simpl "+"%nat.
  eexists. split; [reflexivity|]. apply Qred_correct.
Qed.

Lemma linspace_bounds a b num t :
  (a <= b)%Q -> In t (linspace a b num) -> (a <= t <= b)%Q.
Proof.
  intros Hab Ht. apply list_elem_of_In, list_elem_of_lookup in Ht.
  destruct Ht as [i Hi].
  assert (Hlt : (i < num)%nat).
  { apply lookup_lt_Some in Hi. now rewrite linspace_length in Hi. }
  destruct num as [|[|num]]; [lia| |].
  { destruct i; [|lia]. injection Hi as <-. split; [apply Qle_refl|exact Hab]. }
  destruct (linspace_lookup a b (S (S num)) i) as (t' & Ht' & E);
    [lia|lia|].
  rewrite Hi in Ht'. injection Ht' as <-. rewrite E.
  set (k := inject_Z (Z.of_nat (S (S num)) - 1)).
  set (x := inject_Z (Z.of_nat i)).
  assert (Hk : (0 < k)%Q).
  { unfold k. rewrite <- (Zlt_Qlt 0). lia. }
  assert (Hx0 : (0 <= x)%Q).
  { unfold x. rewrite <- (Zle_Qle 0). lia. }
  assert (Hxk : (x <= k)%Q).
  { unfold x, k. rewrite <- Zle_Qle. lia. }
  assert (Hd : (0 <= b - a)%Q).
  { unfold Qminus. now apply (proj1 (Qle_minus_iff a b)). }
  assert (Hs : (0 <= (b - a) / k)%Q).
  { apply Qle_shift_div_l; [exact Hk|]. now rewrite Qmult_0_l. }
  split.
  - rewrite <- (Qplus_0_r a) at 1. apply Qplus_le_r.
    now apply Qmult_le_0_compat.
  - apply Qle_trans with (a + k * ((b - a) / k))%Q.
    + apply Qplus_le_r. now apply Qmult_le_compat_r.
    + rewrite Qmult_div_r.
      * ring_simplify. apply Qle_refl.
      * intros E0. rewrite E0 in Hk. discriminate.
Qed.

Lemma concat_length_blocks {A B} (n : nat) (l : list A) (blocks : list (list B)) :
  Forall2 (fun _ block => length block = n) l blocks ->
  length (concat blocks) = (length l * n)%nat.
Proof.
  induction 1 as [|x b l bs Hb _ IH]; simpl; [reflexivity|].
  rewrite length_app, IH, Hb. reflexivity.
Qed.

Lemma synthetic_block rt compound n block :
  (2 <= n)%nat ->
  Forall2 (synthetic_row rt compound) (linspace 200 2000 n) block ->
  length block = n /\
  (forall i, (i < n)%nat ->
     exists row t, block !! i = Some row
       /\ Sample.compound row = compound
       /\ Sample.temperature row = Fin t
       /\ (t == 200 + inject_Z (Z.of_nat i)
                    * (1800 / inject_Z (Z.of_nat n - 1)))%Q
       /\ (200 <= t <= 2000)%Q) /\
  Forall (fun row =>
            (exists cp, Sample.heat_capacity row = Fin cp /\ (10 <= cp)%Q) /\
            (exists s, Sample.entropy row = Some (Fin s) /\ (0 <= s)%Q))
         block.
Proof.
  intros Hn HF. split; [|split].
  - apply Forall2_length in HF. now rewrite linspace_length in HF.
  - intros i Hi.
    destruct (linspace_lookup 200 2000 n i Hn Hi) as (t & Ht & E).
    destruct (Forall2_lookup_l _ _ _ _ _ HF Ht) as (row & Hrow & Hr).
    destruct Hr as (Hc & _ & Htemp & _).
    exists row, t. repeat split; auto.
    + apply (linspace_bounds 200 2000 n t); [discriminate|].
      apply list_elem_of_In, list_elem_of_lookup. eauto.
    + apply (linspace_bounds 200 2000 n t); [discriminate|].
      apply list_elem_of_In, list_elem_of_lookup. eauto.
  - eapply Forall2_Forall_r; [exact HF|]. apply Forall_forall.
    intros t _ row (_ & _ & _ & Hcp & Hs & _). auto.
Qed.

(** ** What the table parser lets through *)

Lemma parse_thermo_cells_positive cells r :
  parse_thermo_cells cells = Ok (Some r) -> heat_capacity_positive r.
Proof.
  unfold parse_thermo_cells, heat_capacity_positive.
  destruct (_parse_number _) as [[temp|]|]; simpl; try discriminate.
  destruct (flt temp (of_Z 50) || fgt temp (of_Z 5000)); [discriminate|].
  destruct (scan_cells 1 (tail cells) no_columns) as [c|]; simpl;
    [|discriminate].
  destruct (col_cp c) as [cp|]; [|discriminate].
  destruct (fgt cp (of_Z 0)) eqn:Hcp; [|discriminate].
  intros [= <-]. exact Hcp.
Qed.

Lemma parse_thermo_row_positive cells :
  Forall heat_capacity_positive (parse_thermo_row cells).
Proof.
  unfold parse_thermo_row. destruct (2 <=? length cells)%nat; [|constructor].
  destruct (parse_thermo_cells cells) as [[r|]|e] eqn:E; simpl;
    try constructor; [|constructor].
  eapply parse_thermo_cells_positive, E.
Qed.

Lemma Forall_flat_map {A B} (P : B -> Prop) (f : A -> list B) l :
  (forall x, Forall P (f x)) -> Forall P (flat_map f l).
Proof.
  intros H. induction l as [|x l IH]; simpl; [constructor|].
  apply Forall_app. auto.
Qed.

Lemma parse_thermodynamic_tables_positive soup df :
  _parse_thermodynamic_tables soup = Some df ->
  df <> [] /\ Forall heat_capacity_positive df.
Proof.
  unfold _parse_thermodynamic_tables.
  assert (H : Forall heat_capacity_positive
                (flat_map parse_thermo_table soup)).
  { apply Forall_flat_map. intros t. unfold parse_thermo_table.
    destruct (th t); [constructor|].
    destruct (is_thermo_table t); [|constructor].
    apply Forall_flat_map, parse_thermo_row_positive. }
  destruct (flat_map parse_thermo_table soup) as [|r l]; [discriminate|].
  intros [= <-]. split; [discriminate|exact H].
Qed.

Lemma scrape_compound_data_scraped rt name cd :
  scrape_compound_data rt name = Some cd -> scraped cd.
Proof.
  unfold scrape_compound_data.
  destruct (search_compound rt name) as [[|c id]|]; try discriminate.
  intros [= <-]. unfold scraped. simpl.
  unfold get_thermodynamic_data.
  destruct (thermo_page rt (String c id)) as [soup|e]; simpl; [|exact I].
  destruct (_parse_thermodynamic_tables soup) as [df|] eqn:E; simpl;
    [|exact I].
  eapply parse_thermodynamic_tables_positive, E.
Qed.

(** ** The collection *)

Lemma dict_set_Forall {V} (P : string * V -> Prop) k v d :
  P (k, v) -> Forall P d -> Forall P (dict_set k v d).
Proof.
  intros Hv. induction 1 as [|[k' v'] d Hx Hd IH]; simpl.
  - repeat constructor. exact Hv.
  - destruct (String.eqb k' k); constructor; auto.
Qed.

Lemma collect_loop_spec rt : forall todo raw st,
  Forall (fun kv => scraped (snd kv)) raw ->
  exists raw',
    collect_loop rt todo raw st = (Ok raw', st)
    /\ Forall (fun kv => scraped (snd kv)) raw'.
Proof.
  induction todo as [|compound todo IH]; intros raw st Hraw; simpl.
  - exists raw. split; [reflexivity|exact Hraw].
  - set (step := try_catch _ _).
    assert (exists raw1, step st = (Ok raw1, st)
                         /\ Forall (fun kv => scraped (snd kv)) raw1)
      as (raw1 & Hstep & H1).
    { unfold step, try_catch.
      destruct (scrape_compound_data rt compound) as [data|] eqn:E;
        [|exists raw; auto].
      destruct (has_thermo data); [|exists raw; auto].
      exists (dict_set compound data raw). split; [reflexivity|].
      apply dict_set_Forall; [|exact Hraw].
      simpl. eapply scrape_compound_data_scraped, E. }
    rewrite (bind_ok _ _ _ _ _ Hstep). apply IH, H1.
Qed.

Lemma serialize_loop_scraped : forall raw acc,
  Forall (fun kv => scraped (snd kv)) raw ->
  exists d, serialize_loop raw acc = Ok d.
Proof.
  induction raw as [|[name cd] raw IH]; intros acc H; simpl; [eauto|].
  inversion H as [|? ? Hcd Hraw]; subst. simpl in Hcd.
  unfold to_serializable, scraped in *.
  destruct (thermodynamic_data cd); simpl; try apply IH; auto.
  contradiction.
Qed.

(** ** The aggregation *)

Lemma fge_fle_of_Qle (lo hi : Z) (q : Q) :
  (inject_Z lo <= q <= inject_Z hi)%Q ->
  fge (Fin q) (of_Z lo) = true /\ fle (Fin q) (of_Z hi) = true.
Proof.
  intros [Hlo Hhi]. unfold fge, fle, fcmp, of_Z. split.
  - destruct (q ?= inject_Z lo)%Q eqn:E; try reflexivity.
    apply Qlt_alt in E. apply Qle_not_lt in Hlo. contradiction.
  - destruct (q ?= inject_Z hi)%Q eqn:E; try reflexivity.
    apply Qgt_alt in E. apply Qle_not_lt in Hhi. contradiction.
Qed.

Lemma synthetic_row_in_bounds rt compound temp row :
  (200 <= temp <= 2000)%Q ->
  synthetic_row rt compound temp row -> row_in_bounds row.
Proof.
  intros Ht (Hc & _ & Htemp & (cp & Hcp & Hcp10) & _ & Hm).
  unfold row_in_bounds. rewrite Htemp, Hcp, Hm, Hc.
  destruct (fge_fle_of_Qle 200 2000 temp Ht) as [H1 H2].
  repeat split; auto.
  unfold fgt, fcmp, of_Z.
  assert (inject_Z 0 < cp)%Q as H
    by (eapply Qlt_le_trans; [|exact Hcp10]; reflexivity).
  apply Qgt_alt in H. now rewrite H.
Qed.

Lemma training_sample_in_bounds rt compound df :
  Forall heat_capacity_positive df ->
  Forall row_in_bounds (map (training_sample rt compound)
                            (clean_and_filter df)).
Proof.
  intros Hdf. apply Forall_map, Forall_forall. intros r Hr.
  unfold clean_and_filter in Hr.
  apply list_elem_of_In, filter_In in Hr. destruct Hr as [Hr Hrange].
  apply filter_In in Hr. destruct Hr as [Hr _].
  apply andb_prop in Hrange. destruct Hrange as [Hlo Hhi].
  rewrite Forall_forall in Hdf. apply list_elem_of_In in Hr.
  unfold row_in_bounds. simpl. repeat split; auto. now apply Hdf.
Qed.

Lemma process_for_training_spec rt : forall raw,
  Forall (fun kv => scraped (snd kv)) raw ->
  exists table,
    process_for_training rt raw = Ok table /\ Forall row_in_bounds table.
Proof.
  induction raw as [|[compound cd] raw IH]; intros H; simpl.
  - exists []. split; [reflexivity|constructor].
  - inversion H as [|? ? Hcd Hraw]; subst. simpl in Hcd.
    destruct (IH Hraw) as (more & -> & Hmore).
    unfold scraped in Hcd.
    destruct (thermodynamic_data cd) as [|df|l]; simpl.
    + exists more. auto.
    + eexists. split; [reflexivity|]. apply Forall_app. split; [|exact Hmore].
      apply training_sample_in_bounds. tauto.
    + contradiction.
Qed.

Lemma generate_rows_in_bounds rt e st :
  exists rows st',
    generate_synthetic_supplement rt e st = (Ok rows, st')
    /\ Forall row_in_bounds rows
    /\ length rows = (10 * Z.to_nat (rows_per_compound e))%nat
    /\ same_disk st st'.
Proof.
  destruct (generate_synthetic_supplement_spec rt e st)
    as (blocks & st' & Hgen & HF & Hd).
  exists (concat blocks), st'. repeat split; try apply Hd; [exact Hgen| |].
  - apply Forall_concat. eapply Forall2_Forall_r; [exact HF|].
    apply Forall_forall. intros compound _ block Hb.
    eapply Forall2_Forall_r; [exact Hb|]. apply Forall_forall.
    intros temp Ht row Hrow. eapply synthetic_row_in_bounds; [|exact Hrow].
    apply (linspace_bounds 200 2000 (Z.to_nat (rows_per_compound e)) temp);
      [discriminate|].
    now apply list_elem_of_In.
  - rewrite (concat_length_blocks (Z.to_nat (rows_per_compound e))
               compounds blocks); [reflexivity|].
    eapply Forall2_impl; [exact HF|]. intros c b Hb.
    apply Forall2_length in Hb. now rewrite linspace_length in Hb.
Qed.

(** ** Outcomes of computations *)

Lemma post_bind {A B} (m : M A) (f : A -> M B) st Q E :
  post m st (fun a st1 => post (f a) st1 Q E) E -> post (bind m f) st Q E.
Proof. unfold post, bind. destruct (m st) as [[a|e] st1]; auto. Qed.

Lemma post_try_catch {A} (body : M A) handler st Q E :
  post body st Q (fun e st1 => post (handler e) st1 Q E) ->
  post (try_catch body handler) st Q E.
Proof. unfold post, try_catch. destruct (body st) as [[a|e] st1]; auto. Qed.

Lemma post_conseq {A} (m : M A) st (Q Q' : A -> State -> Prop)
    (E E' : exn -> State -> Prop) :
  post m st Q E ->
  (forall a st', Q a st' -> Q' a st') ->
  (forall e st', E e st' -> E' e st') ->
  post m st Q' E'.
Proof. unfold post. destruct (m st) as [[a|e] st1]; auto. Qed.

Lemma post_ok_inv {A} (m : M A) st Q E a st' :
  post m st Q E -> m st = (Ok a, st') -> Q a st'.
Proof. unfold post. intros H Heq. now rewrite Heq in H. Qed.

Lemma post_raise_inv {A} (m : M A) st Q E e st' :
  post m st Q E -> m st = (Raise e, st') -> E e st'.
Proof. unfold post. intros H Heq. now rewrite Heq in H. Qed.

Lemma post_cases {A} (m : M A) st Q E :
  post m st Q E ->
  (exists a st', m st = (Ok a, st') /\ Q a st')
  \/ (exists e st', m st = (Raise e, st') /\ E e st').
Proof. unfold post. destruct (m st) as [[a|e] st']; eauto. Qed.

Lemma post_ret {A} (a : A) st (Q : A -> State -> Prop) E :
  Q a st -> post (ret a) st Q E.
Proof. auto. Qed.

Lemma post_ok {A} (m : M A) st a st' (Q : A -> State -> Prop) E :
  m st = (Ok a, st') -> Q a st' -> post m st Q E.
Proof. unfold post. now intros ->. Qed.

Lemma post_write_file rt f c st (Q : unit -> State -> Prop)
    (E : exn -> State -> Prop) :
  (write_ok rt (attempts st) = true ->
   Q tt {| draws := draws st; attempts := S (attempts st);
           files := <[f := c]> (files st) |}) ->
  (write_ok rt (attempts st) = false ->
   E (OSError f) {| draws := draws st; attempts := S (attempts st);
                    files := files st |}) ->
  post (write_file rt f c) st Q E.
Proof.
  unfold post, write_file. destruct (write_ok rt (attempts st)); auto.
Qed.

Lemma post_generate rt e st :
  post (generate_synthetic_supplement rt e) st
       (fun rows st' =>
          Forall row_in_bounds rows
          /\ length rows = (10 * Z.to_nat (rows_per_compound e))%nat
          /\ same_disk st st')
       (fun _ _ => False).
Proof.
  destruct (generate_rows_in_bounds rt e st) as (rows & st' & H & ?).
  eapply post_ok; eauto.
Qed.

Lemma post_save_data rt raw f st (Q : unit -> State -> Prop) :
  Forall (fun kv => scraped (snd kv)) raw ->
  (forall st', Q tt st') ->
  post (save_data rt raw f) st Q (fun e _ => e = OSError f).
Proof.
  intros Hraw HQ. unfold save_data. apply post_bind.
  destruct (serialize_loop_scraped raw [] Hraw) as [d Hd].
  unfold lift. rewrite Hd. unfold post at 1.
  apply post_write_file; auto.
Qed.

Lemma post_save_if_any rt raw st :
  Forall (fun kv => scraped (snd kv)) raw ->
  post (match raw with
        | [] => ret tt
        | _ => save_data rt raw "hackathon_raw_data.json"
        end) st
       (fun _ _ => True) (fun e _ => exists path, e = OSError path).
Proof.
  intros H. destruct raw as [|kv raw'] eqn:E; [exact I|]. rewrite <- E in *.
  eapply post_conseq;
    [apply (post_save_data rt raw _ st (fun _ _ => True)); auto|auto|].
  simpl. eauto.
Qed.

(** [collect_hackathon_dataset] returns at least fifty rows, all within the
    bounds, and raises only when a file cannot be written. *)
Lemma post_collect rt st :
  post (collect_hackathon_dataset rt) st
       (fun data _ => Forall row_in_bounds data /\ (50 <= length data)%nat)
       (fun e _ => exists path, e = OSError path).
Proof.
  unfold collect_hackathon_dataset.
  destruct (collect_loop_spec rt target_compounds [] st) as (raw & Hl & Hraw);
    [constructor|].
  apply post_bind. eapply post_ok; [exact Hl|].
  apply post_bind.
  eapply post_conseq; [apply post_save_if_any; exact Hraw| |auto].
  intros _ st1 _. apply post_bind.
  destruct (process_for_training_spec rt raw Hraw) as (table & Ht & Hb).
  unfold lift. rewrite Ht. unfold post at 1.
  apply post_bind.
  apply post_conseq
    with (Q := fun data _ => Forall row_in_bounds data
                             /\ (50 <= length data)%nat)
         (E := fun _ _ => False); [| |contradiction].
  - destruct (length table <? 50)%nat eqn:Hlen.
    + apply post_bind. eapply post_conseq; [apply post_generate| |auto].
      intros rows st2 (Hrows & Hn & _). apply post_ret. split.
      * apply Forall_app. auto.
      * rewrite length_app, Hn.
        pose proof (samples_per_compound_spec (Z.of_nat (length table)))
          as [_ H5]. lia.
    + apply post_ret. apply Nat.ltb_ge in Hlen. auto.
  - intros data st2 Hdata. apply post_bind. apply post_write_file.
    + intros _. apply post_ret. exact Hdata.
    + eauto.
Qed.

Lemma post_emergency_fallback rt st :
  post (emergency_fallback rt) st
       (fun data st' =>
          Forall row_in_bounds data /\ length data = 100%nat
          /\ write_ok rt (attempts st) = true
          /\ fst (generate_synthetic_supplement rt 0 st) = Ok data
          /\ files st' !! final_csv = Some (Csv data))
       (fun e _ => e = OSError final_csv
                   /\ write_ok rt (attempts st) = false).
Proof.
  unfold emergency_fallback. apply post_bind.
  destruct (generate_rows_in_bounds rt 0 st)
    as (rows & st1 & Hg & Hb & Hn & Ha & Hf).
  eapply post_ok; [exact Hg|].
  apply post_bind. apply post_write_file; rewrite Ha.
  - intros Hw. apply post_ret. cbn [files fst]. rewrite Hg. repeat split; auto.
    apply lookup_insert_eq.
  - auto.
Qed.

Lemma post_main rt st :
  post (main rt) st
       (fun data st' =>
          Forall row_in_bounds data /\ (50 <= length data)%nat
          /\ files st' !! final_csv = Some (Csv data))
       (fun e _ => e = OSError final_csv).
Proof.
  unfold main. apply post_try_catch. apply post_bind.
  eapply post_conseq; [apply post_collect| |].
  - intros data st1 [Hb Hn]. apply post_bind.
    destruct data as [|row data]; [simpl in Hn; lia|].
    unfold lift, dataset_summary, post at 1.
    apply post_bind. apply post_write_file.
    + intros _. apply post_ret. cbn [files]. repeat split; auto.
      apply lookup_insert_eq.
    + intros _. eapply post_conseq; [apply post_emergency_fallback| |].
      * intros d st2 (H1 & H2 & _ & _ & H3). repeat split; auto. lia.
      * intros e st2 [He _]. exact He.
  - intros e st1 _. eapply post_conseq; [apply post_emergency_fallback| |].
    + intros d st2 (H1 & H2 & _ & _ & H3). repeat split; auto. lia.
    + intros e' st2 [He _]. exact He.
Qed.

(** ** Rows of a table of thermodynamic data *)

Lemma scan_cells_total : forall cells i c,
  exists c', scan_cells i cells c = Ok c'.
Proof.
  induction cells as [|cell cells IH]; intros i c; simpl; [eauto|].
  destruct (parse_number_total (strip cell)) as [v ->]. simpl. apply IH.
Qed.

Lemma set_column_cp i v c :
  (2 <= i)%nat -> col_cp (set_column i v c) = col_cp c.
Proof.
  intros H. destruct i as [|[|[|[|[|i]]]]]; try reflexivity; lia.
Qed.

Lemma scan_cells_cp : forall cells i c c',
  (2 <= i)%nat -> scan_cells i cells c = Ok c' -> col_cp c' = col_cp c.
Proof.
  induction cells as [|cell cells IH]; intros i c c' Hi H; simpl in H.
  - now injection H as <-.
  - destruct (_parse_number (strip cell)) as [v|e]; [|discriminate].
    simpl in H. apply IH in H; [|lia]. rewrite H.
    destruct v; [now apply set_column_cp|reflexivity].
Qed.

(** The heat capacity of a row is what its second cell parses to. *)
Lemma scan_cells_first c1 rest v :
  _parse_number (strip c1) = Ok v ->
  exists c, scan_cells 1 (c1 :: rest) no_columns = Ok c /\ col_cp c = v.
Proof.
  intros H. simpl. rewrite H. simpl.
  destruct (scan_cells_total rest 2
              (match v with
               | Some v0 => set_column 1 v0 no_columns
               | None => no_columns
               end)) as [c Hc].
  exists c. split; [exact Hc|]. rewrite (scan_cells_cp _ _ _ _ (le_n 2) Hc).
  now destruct v.
Qed.

(** A row with at least two cells gives a record exactly when its first
    cell parses to a value that is neither below 50 nor above 5000 and its
    second cell to a value above 0; the record then holds these two
    values. *)
Lemma thermo_row_accepted c0 c1 rest r :
  parse_thermo_row (c0 :: c1 :: rest) = [r] <->
  exists t cp c,
    _parse_number (strip c0) = Ok (Some t)
    /\ flt t (of_Z 50) = false /\ fgt t (of_Z 5000) = false
    /\ _parse_number (strip c1) = Ok (Some cp)
    /\ fgt cp (of_Z 0) = true
    /\ scan_cells 1 (c1 :: rest) no_columns = Ok c
    /\ r = {| temperature := t; heat_capacity := cp;
              entropy := col_entropy c;
              enthalpy_minus_h298 := col_enthalpy c;
              gibbs_free_energy := col_gibbs c |}.
Proof.
  unfold parse_thermo_row, parse_thermo_cells.
  change (2 <=? length (c0 :: c1 :: rest))%nat with true.
  change (default [] (head (c0 :: c1 :: rest))) with c0.
  change (tail (c0 :: c1 :: rest)) with (c1 :: rest).
  destruct (parse_number_total (strip c0)) as [vt Ht].
  destruct (parse_number_total (strip c1)) as [vcp Hcp].
  destruct (scan_cells_first c1 rest vcp Hcp) as (c & Hc & Hcol).
  rewrite Ht, Hc. cbn [rbind try_or]. rewrite Hcol. split.
  - destruct vt as [t|]; cbn [rbind try_or]; [|discriminate].
    destruct (flt t (of_Z 50)) eqn:Hlo; cbn [orb rbind try_or];
      [discriminate|].
    destruct (fgt t (of_Z 5000)) eqn:Hhi; cbn [orb rbind try_or];
      [discriminate|].
    destruct vcp as [cp|]; cbn [rbind try_or]; [|discriminate].
    destruct (fgt cp (of_Z 0)) eqn:Hpos; cbn [rbind try_or]; [|discriminate].
    intros [= <-]. exists t, cp, c. auto 10.
  - intros (t & cp & c' & E1 & Hlo & Hhi & E2 & Hpos & E3 & ->).
    injection E1 as ->. rewrite Hcp in E2. injection E2 as ->.
    injection E3 as <-. cbn [rbind try_or].
    rewrite Hlo, Hhi. cbn [orb rbind try_or]. now rewrite Hpos.
Qed.

Lemma thermo_row_short cells :
  (length cells < 2)%nat -> parse_thermo_row cells = [].
Proof.
  intros H. unfold parse_thermo_row.
  destruct (Nat.leb_spec 2 (length cells)); [lia|reflexivity].
Qed.

(** A row gives one record or none. *)
Lemma thermo_row_one_or_none cells :
  parse_thermo_row cells = [] \/ exists r, parse_thermo_row cells = [r].
Proof.
  unfold parse_thermo_row. destruct (2 <=? length cells)%nat; [|auto].
  destruct (try_or _ _); eauto.
Qed.

(** A table whose headers name no keyword adds no record, whatever its
    rows; one whose headers name one adds the records of its rows after
    the first. *)
Lemma thermo_table_records t :
  parse_thermo_table t
  = if is_thermo_table t then flat_map parse_thermo_row (tail (tr t)) else [].
Proof.
  unfold parse_thermo_table. destruct (th t) eqn:E; [|reflexivity].
  unfold is_thermo_table, header_text. rewrite E. reflexivity.
Qed.

(** Within the range means what the test of the code means, except for
    NaN, which the test lets through. *)
Lemma range_test t :
  flt t (of_Z 50) = false /\ fgt t (of_Z 5000) = false <->
  t = NaN \/ (fge t (of_Z 50) = true /\ fle t (of_Z 5000) = true).
Proof.
  unfold flt, fgt, fge, fle, fcmp, of_Z.
  destruct t as [q| | |]; simpl;
    try (destruct (q ?= inject_Z 50)%Q; destruct (q ?= inject_Z 5000)%Q);
    split; intros H; try tauto; try (destruct H as [H|[H1 H2]]; congruence);
    try (right; split; reflexivity); try (destruct H; congruence).
Qed.

(** ** Saving and reloading the raw results *)

Lemma dict_set_fresh {V} k (v : V) d :
  k ∉ map fst d -> dict_set k v d = d ++ [(k, v)].
Proof.
  induction d as [|[k' v'] d IH]; simpl; intros H; [reflexivity|].
  apply not_elem_of_cons in H. destruct H as [Hne H].
  destruct (String.eqb_spec k' k) as [->|_]; [congruence|].
  now rewrite IH.
Qed.

Lemma to_serializable_reloadable cd :
  reloadable cd -> to_serializable cd = Ok (saved_of cd).
Proof.
  unfold reloadable, to_serializable, saved_of.
  destruct (thermodynamic_data cd); [reflexivity|reflexivity|contradiction].
Qed.

Lemma of_serializable_saved cd :
  reloadable cd -> of_serializable (saved_of cd) = cd.
Proof.
  unfold reloadable, of_serializable, saved_of. destruct cd as [f i td p].
  simpl. destruct td as [|[|r df]|l]; intros H; try reflexivity;
    contradiction.
Qed.

Lemma serialize_loop_nodup : forall raw acc,
  NoDup (map fst raw) ->
  (forall k, k ∈ map fst raw -> k ∉ map fst acc) ->
  Forall (fun kv => reloadable (snd kv)) raw ->
  serialize_loop raw acc
  = Ok (acc ++ map (fun kv => (fst kv, saved_of (snd kv))) raw).
Proof.
  induction raw as [|[k cd] raw IH]; intros acc Hnd Hacc Hr; simpl.
  - now rewrite app_nil_r.
  - inversion Hr as [|? ? Hcd Hraw]; subst. simpl in Hcd.
    apply NoDup_cons in Hnd. destruct Hnd as [Hk Hnd].
    rewrite (to_serializable_reloadable cd Hcd). cbn [rbind].
    rewrite dict_set_fresh by (apply Hacc; simpl; left).
    rewrite IH; [now rewrite <- app_assoc|exact Hnd| |exact Hraw].
    intros k' Hk'. rewrite map_app. simpl. intros Hin.
    apply elem_of_app in Hin. destruct Hin as [Hin|Hin].
    + revert Hin. apply Hacc. simpl. now right.
    + apply list_elem_of_singleton in Hin. subst. contradiction.
Qed.

Lemma reload_map raw :
  Forall (fun kv => reloadable (snd kv)) raw ->
  map (fun kv : string * SavedCompound =>
         let '(name, sc) := kv in (name, of_serializable sc))
      (map (fun kv => (fst kv, saved_of (snd kv))) raw) = raw.
Proof.
  induction 1 as [|[k cd] raw Hcd _ IH]; simpl; [reflexivity|].
  simpl in Hcd. now rewrite (of_serializable_saved cd Hcd), IH.
Qed.

(** The table depends on the runtime through the hash secret only. *)
Lemma process_for_training_secret rtA rtB raw :
  hash_secret rtB = hash_secret rtA ->
  process_for_training rtB raw = process_for_training rtA raw.
Proof.
  intros H. induction raw as [|[compound cd] raw IH]; simpl; [reflexivity|].
  rewrite IH. unfold training_sample, encode. now rewrite H.
Qed.

Lemma save_then_load rtA raw filename st st1 :
  NoDup (map fst raw) ->
  Forall (fun kv => reloadable (snd kv)) raw ->
  save_data rtA raw filename st = (Ok tt, st1) ->
  forall stB, files stB = files st1 ->
    load_data filename stB = (Ok raw, stB).
Proof.
  intros Hnd Hr Hsave stB Hfiles.
  unfold save_data, bind, lift, write_file in Hsave.
  rewrite (serialize_loop_nodup raw [] Hnd) in Hsave;
    [|intros k _; apply not_elem_of_nil|exact Hr].
  destruct (write_ok rtA (attempts st)); [|discriminate].
  injection Hsave as <-. unfold load_data. rewrite Hfiles. cbn [files].
  rewrite lookup_insert_eq. cbn [app]. now rewrite (reload_map raw Hr).
Qed.

(** ** The collection with progress files *)

Lemma string_length_app s t :
  String.length (s +:+ t) = (String.length s + String.length t)%nat.
Proof. induction s as [|a s IH]; simpl; [reflexivity|]. now rewrite IH. Qed.

Lemma string_app_inv_tail t : forall s s', s +:+ t = s' +:+ t -> s = s'.
Proof.
  induction s as [|a s IH]; intros [|a' s'] H; simpl in H.
  - reflexivity.
  - apply (f_equal String.length) in H.
    rewrite !string_length_app in H. simpl in H. lia.
  - apply (f_equal String.length) in H.
    rewrite !string_length_app in H. simpl in H. lia.
  - injection H as -> H. f_equal. now apply IH.
Qed.

Lemma progress_file_inj n k : progress_file n = progress_file k -> n = k.
Proof.
  unfold progress_file. intros H.
  apply (inj (String.app "nist_data_progress_")) in H.
  apply string_app_inv_tail in H. now apply (inj pretty) in H.
Qed.

Lemma scrape_results_scraped rt : forall l results,
  Forall (fun kv => scraped (snd kv)) results ->
  Forall (fun kv => scraped (snd kv)) (scrape_results rt l results).
Proof.
  induction l as [|c l IH]; intros results H; simpl; [exact H|].
  apply IH. destruct (scrape_compound_data rt c) as [data|] eqn:E;
    [|exact H].
  apply dict_set_Forall; [|exact H].
  simpl. eapply scrape_compound_data_scraped, E.
Qed.

(** One turn of the loop: it never raises, and it writes the progress file
    when the compound is found, its position is a multiple of five, the
    progress is to be saved and the file can be written; otherwise it
    leaves the files as they are. *)
Lemma scrape_step rt (save_progress : bool) i
    (data : option CompoundData) results st :
  Forall (fun kv => scraped (snd kv)) results ->
  exists st',
    try_catch
      (match data with
       | Some _ =>
           if save_progress && ((i + 1) mod 5 =? 0)%nat
           then save_data rt results (progress_file (i + 1))
           else ret tt
       | None => ret tt
       end) (fun _ => ret tt) st = (Ok tt, st')
    /\ (forall f, f <> progress_file (i + 1) ->
          files st' !! f = files st !! f)
    /\ (save_progress = true -> ((i + 1) mod 5 = 0)%nat ->
        is_Some data -> write_ok rt (attempts st) = true ->
        exists d, serialize_loop results [] = Ok d
                  /\ files st' !! progress_file (i + 1) = Some (Json d))
    /\ (data = None \/ ((i + 1) mod 5 <> 0)%nat \/ save_progress = false ->
        st' = st).
Proof.
  intros Hres.
  destruct (serialize_loop_scraped results [] Hres) as [d Hd].
  unfold try_catch, save_data, bind, lift, write_file, ret. rewrite Hd.
  destruct data as [data|];
    [|exists st; repeat split; auto; intros _ _ [? ?]; discriminate].
  destruct save_progress; cbn [andb];
    [|exists st; repeat split; auto; discriminate].
  destruct (Nat.eqb_spec ((i + 1) mod 5) 0) as [E|E];
    [|exists st; repeat split; auto; intros; contradiction].
  destruct (write_ok rt (attempts st)) eqn:Hw; eexists; split;
    try reflexivity; cbn [files]; repeat split.
  - intros f Hf. now apply lookup_insert_ne.
  - intros _ _ _ _. exists d. split; [reflexivity|apply lookup_insert_eq].
  - intros [H|[H|H]]; [discriminate|contradiction|discriminate].
  - intros; discriminate.
  - intros [H|[H|H]]; [discriminate|contradiction|discriminate].
Qed.

Lemma scrape_loop_spec rt save_progress : forall l i results st,
  Forall (fun kv => scraped (snd kv)) results ->
  exists st',
    scrape_loop rt save_progress i l results st
    = (Ok (scrape_results rt l results), st')
    /\ (forall f, (forall k, (i < k)%nat -> f <> progress_file k) ->
          files st' !! f = files st !! f)
    /\ (save_progress = true -> (forall k, write_ok rt k = true) ->
        forall j compound,
          l !! j = Some compound -> ((i + j + 1) mod 5 = 0)%nat ->
          is_Some (scrape_compound_data rt compound) ->
          exists d,
            serialize_loop (scrape_results rt (take (j + 1) l) results) []
            = Ok d
            /\ files st' !! progress_file (i + j + 1) = Some (Json d)).
Proof.
  induction l as [|c l IH]; intros i results st Hres.
  - exists st. repeat split; auto. intros _ _ j compound H. discriminate.
  - cbn [scrape_loop scrape_results fold_left].
    set (results1 := match scrape_compound_data rt c with
                     | Some data => dict_set c data results
                     | None => results
                     end).
    assert (Hres1 : Forall (fun kv => scraped (snd kv)) results1).
    { apply (scrape_results_scraped rt [c] results Hres). }
    destruct (scrape_step rt save_progress i (scrape_compound_data rt c)
                results1 st Hres1) as (st1 & Hstep & Hframe1 & Hsave1 & _).
    destruct (IH (S i) results1 st1 Hres1) as (st' & Hloop & Hframe & Hsave).
    exists st'. split; [|split].
    + rewrite (bind_ok _ _ _ _ _ Hstep). exact Hloop.
    + intros f Hf. rewrite Hframe by (intros k Hk; apply Hf; lia).
      apply Hframe1. replace (i + 1)%nat with (S i) by lia. apply Hf. lia.
    + intros Hsp Hw j compound Hj Hmod Hfound. destruct j as [|j].
      * injection Hj as ->. replace (i + 0 + 1)%nat with (i + 1)%nat in * by lia.
        destruct (Hsave1 Hsp Hmod Hfound (Hw _)) as (d & Hd & Hfile).
        exists d. split; [exact Hd|]. rewrite Hframe; [exact Hfile|].
        intros k Hk E. apply progress_file_inj in E. lia.
      * replace (i + S j + 1)%nat with (S i + j + 1)%nat in * by lia.
        exact (Hsave Hsp Hw j compound Hj Hmod Hfound).
Qed.

(** ** The rows of a phase-change table *)

Lemma phase_row_write d cells :
  phase_row d cells
  = Ok (match row_write cells with
        | Some (k, v) => <[k := v]> d
        | None => d
        end).
Proof.
  destruct cells as [|cell0 [|cell1 rest]]; try reflexivity.
  unfold phase_row, row_write, value_at, phase_key. cbn [lookup list_lookup].
  cbv zeta beta.
  destruct (parse_number_total (strip cell1)) as [[v|] ->]; cbn [rbind];
    [|reflexivity].
  repeat match goal with
         | |- context [if ?b then _ else _] => destruct b
         end; reflexivity.
Qed.

Lemma phase_rows_writes : forall rows d,
  phase_rows d rows
  = Ok (fold_left (fun d kv => <[fst kv := snd kv]> d)
                  (omap row_write rows) d).
Proof.
  induction rows as [|cells rows IH]; intros d; simpl; [reflexivity|].
  rewrite phase_row_write. cbn [rbind]. rewrite IH.
  destruct (row_write cells) as [[k v]|]; reflexivity.
Qed.

Lemma fold_insert_lookup (writes : list (string * pyfloat)) :
  forall (d : gmap string pyfloat) k v,
    fold_left (fun d kv => <[fst kv := snd kv]> d) writes d !! k = Some v ->
    d !! k = Some v \/ In (k, v) writes.
Proof.
  induction writes as [|[k' v'] writes IH]; intros d k v H; simpl in H;
    [now left|].
  apply IH in H. destruct H as [H|H]; [|right; now right].
  destruct (decide (k' = k)) as [->|Hne].
  - rewrite lookup_insert_eq in H. injection H as ->. right. now left.
  - rewrite lookup_insert_ne in H by exact Hne. now left.
Qed.

Lemma fold_insert_absent (writes : list (string * pyfloat)) :
  forall (d : gmap string pyfloat) k,
    (forall v, ~ In (k, v) writes) ->
    fold_left (fun d kv => <[fst kv := snd kv]> d) writes d !! k = d !! k.
Proof.
  induction writes as [|[k' v'] writes IH]; intros d k H; simpl;
    [reflexivity|].
  rewrite IH by (intros v Hv; apply (H v); now right).
  apply lookup_insert_ne. intros ->. apply (H v'). now left.
Qed.

Lemma phase_key_known name k :
  phase_key name = Some k -> In k phase_change_keys.
Proof.
  unfold phase_key. cbv zeta beta.
  repeat match goal with
         | |- context [if ?b then _ else _] => destruct b
         end; intros [= <-]; simpl; tauto.
Qed.

Lemma in_omap_row_write rows k v :
  In (k, v) (omap row_write rows) ->
  exists cells, In cells rows /\ row_write cells = Some (k, v).
Proof.
  induction rows as [|cells rows IH]; simpl; [intros []|].
  destruct (row_write cells) as [[k' v']|] eqn:E.
  - intros [[= -> ->]|H]; [eauto|].
    destruct (IH H) as (c & Hc & Hw). eauto.
  - intros H. destruct (IH H) as (c & Hc & Hw). eauto.
Qed.

(** What a row stores, in the words of its label. *)
Lemma row_write_parse c0 c1 rest k v :
  row_write (c0 :: c1 :: rest) = Some (k, v) <->
  _parse_number (strip c1) = Ok (Some v)
  /\ phase_key (lower (strip c0)) = Some k.
Proof.
  unfold row_write, value_at. cbn [lookup list_lookup].
  destruct (parse_number_total (strip c1)) as [[v'|] ->];
    destruct (phase_key (lower (strip c0))) as [k'|]; cbv iota beta;
    (split; [intros H|intros [H1 H2]]); try congruence.
  injection H as <- <-. auto.
Qed.

Lemma phase_key_label c0 k :
  phase_key (lower (strip c0)) = Some k <->
  (k = "boiling_point_K"
   /\ label_has "boiling" c0 || label_has "vaporization" c0 = true
   /\ label_has "temperature" c0 || label_has "point" c0 = true)
  \/ (k = "heat_of_vaporization"
      /\ label_has "boiling" c0 || label_has "vaporization" c0 = true
      /\ label_has "temperature" c0 || label_has "point" c0 = false
      /\ label_has "enthalpy" c0 = true)
  \/ (k = "melting_point_K"
      /\ label_has "boiling" c0 || label_has "vaporization" c0 = false
      /\ label_has "melting" c0 || label_has "fusion" c0 = true
      /\ label_has "temperature" c0 || label_has "point" c0 = true)
  \/ (k = "heat_of_fusion"
      /\ label_has "boiling" c0 || label_has "vaporization" c0 = false
      /\ label_has "melting" c0 || label_has "fusion" c0 = true
      /\ label_has "temperature" c0 || label_has "point" c0 = false
      /\ label_has "enthalpy" c0 = true).
Proof.
  unfold phase_key, label_has. cbv zeta beta.
  destruct (contains (str "boiling") _ || contains (str "vaporization") _);
    destruct (contains (str "melting") _ || contains (str "fusion") _);
    destruct (contains (str "temperature") _ || contains (str "point") _);
    destruct (contains (str "enthalpy") _);
    split; try (intros [= <-]; tauto); try discriminate;
    intros [H|[H|[H|H]]]; try (destruct H as (-> & ?); reflexivity);
    repeat match goal with
           | H : _ /\ _ |- _ => destruct H
           end; discriminate.
Qed.

(** A value under a key comes from a row of the page whose label has the
    key and whose second cell has the value. *)
Lemma phase_entry_row soup d k v :
  _parse_phase_change_data soup = Ok d -> d !! k = Some v ->
  exists t c0 c1 rest,
    In t soup /\ In (c0 :: c1 :: rest) (tr t)
    /\ _parse_number (strip c1) = Ok (Some v)
    /\ phase_key (lower (strip c0)) = Some k.
Proof.
  unfold _parse_phase_change_data. rewrite phase_rows_writes.
  intros [= <-] H.
  apply fold_insert_lookup in H. destruct H as [H|H].
  { rewrite lookup_empty in H. discriminate. }
  apply in_omap_row_write in H. destruct H as (cells & Hin & Hw).
  apply in_flat_map in Hin. destruct Hin as (t & Ht & Hcells).
  destruct cells as [|c0 [|c1 rest]]; try discriminate.
  apply row_write_parse in Hw. destruct Hw as [Hv Hk].
  exists t, c0, c1, rest. auto.
Qed.

(** The value of the last row that stores under a key is the one the
    result has. *)
Lemma phase_last_write soup before cells after k v :
  flat_map tr soup = before ++ cells :: after ->
  row_write cells = Some (k, v) ->
  (forall cells' v', In cells' after -> row_write cells' <> Some (k, v')) ->
  exists d, _parse_phase_change_data soup = Ok d /\ d !! k = Some v.
Proof.
  intros Hrows Hw Hafter. unfold _parse_phase_change_data.
  rewrite phase_rows_writes, Hrows. eexists. split; [reflexivity|].
  rewrite omap_app. simpl. rewrite Hw. rewrite fold_left_app. simpl.
  rewrite fold_insert_absent; [apply lookup_insert_eq|].
  intros v' Hin. apply in_omap_row_write in Hin.
  destruct Hin as (cells' & Hc & Hw'). exact (Hafter cells' v' Hc Hw').
Qed.

(** ** The files of a run *)

Lemma scrape_compound_data_ext rt rt' name :
  search rt' = search rt -> thermo_page rt' = thermo_page rt ->
  phase_page rt' = phase_page rt ->
  scrape_compound_data rt' name = scrape_compound_data rt name.
Proof.
  unfold scrape_compound_data, search_compound, get_thermodynamic_data,
    get_phase_change_data.
  intros -> -> ->. reflexivity.
Qed.

Lemma scrape_results_ext rt rt' :
  search rt' = search rt -> thermo_page rt' = thermo_page rt ->
  phase_page rt' = phase_page rt ->
  forall l results, scrape_results rt' l results = scrape_results rt l results.
Proof.
  intros Hs Ht Hp. induction l as [|c l IH]; intros results;
    [reflexivity|].
  unfold scrape_results in *. cbn [fold_left].
  rewrite (scrape_compound_data_ext rt rt' c Hs Ht Hp). apply IH.
Qed.

(** The loop changes no file but the progress files of the positions that
    are a multiple of five and whose compound is found. *)
Lemma scrape_loop_found_frame rt save_progress : forall l i results st,
  Forall (fun kv => scraped (snd kv)) results ->
  exists st',
    scrape_loop rt save_progress i l results st
    = (Ok (scrape_results rt l results), st')
    /\ forall f,
         (forall j compound,
            l !! j = Some compound -> ((i + j + 1) mod 5 = 0)%nat ->
            is_Some (scrape_compound_data rt compound) ->
            f <> progress_file (i + j + 1)) ->
         files st' !! f = files st !! f.
Proof.
  induction l as [|c l IH]; intros i results st Hres.
  - exists st. split; [reflexivity|auto].
  - cbn [scrape_loop scrape_results fold_left].
    set (results1 := match scrape_compound_data rt c with
                     | Some data => dict_set c data results
                     | None => results
                     end).
    assert (Hres1 : Forall (fun kv => scraped (snd kv)) results1).
    { apply (scrape_results_scraped rt [c] results Hres). }
    destruct (scrape_step rt save_progress i (scrape_compound_data rt c)
                results1 st Hres1) as (st1 & Hstep & Hframe1 & _ & Hsame).
    destruct (IH (S i) results1 st1 Hres1) as (st' & Hloop & Hframe).
    exists st'. split.
    + rewrite (bind_ok _ _ _ _ _ Hstep). exact Hloop.
    + intros f Hf. rewrite Hframe.
      * destruct (scrape_compound_data rt c) as [data|] eqn:Hc;
          [|rewrite (Hsame (or_introl eq_refl)); reflexivity].
        destruct (Nat.eq_dec ((i + 1) mod 5)%nat 0%nat) as [E|E];
          [|rewrite (Hsame (or_intror (or_introl E))); reflexivity].
        apply Hframe1.
        replace (i + 1)%nat with (i + 0 + 1)%nat in * by lia.
        apply (Hf 0%nat c); [reflexivity|exact E|]. rewrite Hc. eauto.
      * intros j compound Hj Hmod Hfound.
        replace (S i + j + 1)%nat with (i + S j + 1)%nat in * by lia.
        apply (Hf (S j) compound); auto.
Qed.

Lemma progress_file_not_collected n :
  progress_file n <> "hackathon_raw_data.json"
  /\ progress_file n <> "hackathon_training_data.csv".
Proof. unfold progress_file. split; discriminate. Qed.

(** The collection changes no file but its own two. *)
Lemma collect_frame rt st f :
  f <> "hackathon_raw_data.json" -> f <> "hackathon_training_data.csv" ->
  files (snd (collect_hackathon_dataset rt st)) !! f = files st !! f.
Proof.
  intros Hraw_json Hcsv.
  assert (H : post (collect_hackathon_dataset rt) st
                (fun _ st' => files st' !! f = files st !! f)
                (fun _ st' => files st' !! f = files st !! f)).
  { unfold collect_hackathon_dataset.
    destruct (collect_loop_spec rt target_compounds [] st)
      as (raw & Hl & Hraw); [constructor|].
    apply post_bind. eapply post_ok; [exact Hl|].
    apply post_bind.
    assert (Hsave : post (match raw with
                          | [] => ret tt
                          | _ => save_data rt raw "hackathon_raw_data.json"
                          end) st
                      (fun _ st1 => files st1 !! f = files st !! f)
                      (fun _ st1 => files st1 !! f = files st !! f)).
    { destruct (serialize_loop_scraped raw [] Hraw) as [d Hd].
      destruct raw as [|kv raw']; [apply post_ret; reflexivity|].
      cbv iota. unfold save_data. apply post_bind.
      unfold lift. rewrite Hd. unfold post at 1.
      apply post_write_file; intros _; cbn [files];
        [now apply lookup_insert_ne|reflexivity]. }
    eapply post_conseq; [exact Hsave| |auto].
    intros [] st1 H1. apply post_bind.
    destruct (process_for_training_spec rt raw Hraw) as (table & Ht & _).
    unfold lift. rewrite Ht. unfold post at 1.
    apply post_bind.
    apply post_conseq
      with (Q := fun _ st2 => files st2 !! f = files st !! f)
           (E := fun _ _ => False); [| |contradiction].
    - destruct (length table <? 50)%nat.
      + apply post_bind. eapply post_conseq; [apply post_generate| |auto].
        intros rows st2 (_ & _ & _ & Hf). apply post_ret.
        rewrite Hf. exact H1.
      + apply post_ret. exact H1.
    - intros data st2 H2. apply post_bind.
      apply post_write_file; intros _; [apply post_ret|]; cbn [files].
      + rewrite lookup_insert_ne by congruence. exact H2.
      + exact H2. }
  destruct (post_cases _ _ _ _ H)
    as [(a & st' & Heq & Hf)|(e & st' & Heq & Hf)];
    rewrite Heq; exact Hf.
Qed.

(** * The properties of the specification *)

(** C1, as the code has it.  When [collect_hackathon_dataset] raises, [main]
    runs the fallback: the synthetic table of
    [generate_synthetic_supplement(0)], then the write of
    final_training_data.csv.  If that write succeeds the fallback returns
    the table, which has 100 rows and is what the file holds; if it is
    refused, the fallback raises.  Whenever [main] returns, its table has
    at least 50 rows and is the content of final_training_data.csv. *)
Theorem main_falls_back_unless_write_fails rt st :
  (forall e st1,
     collect_hackathon_dataset rt st = (Raise e, st1) ->
     main rt st = emergency_fallback rt st1)
  /\ (forall st1,
        write_ok rt (attempts st1) = true ->
        exists data st2,
          emergency_fallback rt st1 = (Ok data, st2)
          /\ fst (generate_synthetic_supplement rt 0 st1) = Ok data
          /\ length data = 100%nat
          /\ files st2 !! "final_training_data.csv" = Some (Csv data))
  /\ (forall st1,
        write_ok rt (attempts st1) = false ->
        exists st2,
          emergency_fallback rt st1
          = (Raise (OSError "final_training_data.csv"), st2))
  /\ (forall data st',
        main rt st = (Ok data, st') ->
        (50 <= length data)%nat
        /\ files st' !! "final_training_data.csv" = Some (Csv data)).
Proof.
  repeat split.
  - intros e st1 H.
    exact (try_catch_raise _ (fun _ => emergency_fallback rt) st e st1
             (bind_raise _ _ st e st1 H)).
  - intros st1 Hw.
    destruct (post_cases _ _ _ _ (post_emergency_fallback rt st1))
      as [(data & st2 & Heq & _ & Hn & _ & Hg & Hf)
         |(e & st2 & _ & _ & Hno)]; [|congruence].
    exists data, st2. auto.
  - intros st1 Hw.
    destruct (post_cases _ _ _ _ (post_emergency_fallback rt st1))
      as [(data & st2 & _ & _ & _ & Hyes & _)
         |(e & st2 & Heq & -> & _)]; [congruence|].
    exists st2. exact Heq.
  - apply (post_ok_inv _ _ _ _ _ _ (post_main rt st) H).
  - apply (post_ok_inv _ _ _ _ _ _ (post_main rt st) H).
Qed.

Lemma main_falls_back_unless_write_fails_witness :
  fst (collect_hackathon_dataset flaky init)
  = Raise (OSError "hackathon_training_data.csv")
  /\ main flaky init
     = emergency_fallback flaky (snd (collect_hackathon_dataset flaky init))
  /\ exists data st2,
       emergency_fallback flaky (snd (collect_hackathon_dataset flaky init))
       = (Ok data, st2)
       /\ fst (generate_synthetic_supplement flaky 0
                 (snd (collect_hackathon_dataset flaky init))) = Ok data
       /\ length data = 100%nat
       /\ files st2 !! "final_training_data.csv" = Some (Csv data).
Proof.
  pose proof (main_falls_back_unless_write_fails flaky init)
    as (Hcatch & Hfallback & _).
  split; [vm_compute; reflexivity|]. split.
  - apply (Hcatch (OSError "hackathon_training_data.csv")).
    vm_compute. reflexivity.
  - apply Hfallback. vm_compute. reflexivity.
Defined.

(** C1 at a runtime in which no file can be written: the collection raises
    at its first write, the fallback at its own, and [main] ends with that
    exception, no table and no file. *)
Lemma main_raises_on_read_only_disk :
  fst (main read_only init) = Raise (OSError "final_training_data.csv")
  /\ files (snd (main read_only init)) = ∅.
Proof. vm_compute. split; reflexivity. Qed.

(** C2 at a row whose first cell reads NaN.  The letters N and a lie in the
    range from [+] to [e] of the cleaning class, so the cleaned text is
    still NaN, [float] reads it as the float NaN, and the test
    [temp < 50 or temp > 5000] is false of NaN: the row is accepted,
    although its first cell does not parse to a temperature between 50 and
    5000.  Apart from NaN the test of the code is the range of the
    specification; a row gives one record or none, a row with fewer than
    two cells none, and a table whose headers name no keyword adds no
    record. *)
Theorem nan_temperature_row_is_accepted :
  _parse_number (str "NaN") = Ok (Some NaN)
  /\ fge NaN (of_Z 50) = false
  /\ _parse_thermodynamic_tables [nan_table]
     = Some [ {| temperature := NaN;
                 heat_capacity := Fin (71 # 2);
                 entropy := None;
                 enthalpy_minus_h298 := None;
                 gibbs_free_energy := None |} ]
  /\ (forall c0 c1 rest r,
        parse_thermo_row (c0 :: c1 :: rest) = [r] ->
        exists t cp,
          _parse_number (strip c0) = Ok (Some t)
          /\ (t = NaN \/ fge t (of_Z 50) = true /\ fle t (of_Z 5000) = true)
          /\ _parse_number (strip c1) = Ok (Some cp)
          /\ fgt cp (of_Z 0) = true
          /\ temperature r = t /\ heat_capacity r = cp)
  /\ (forall cells,
        parse_thermo_row cells = []
        \/ exists r, parse_thermo_row cells = [r])
  /\ (forall cells, (length cells < 2)%nat -> parse_thermo_row cells = [])
  /\ (forall t, is_thermo_table t = false -> parse_thermo_table t = []).
Proof.
  split; [vm_compute; reflexivity|].
  split; [reflexivity|].
  split; [vm_compute; reflexivity|].
  split.
  - intros c0 c1 rest r H. apply thermo_row_accepted in H.
    destruct H as (t & cp & c & Ht & Hlo & Hhi & Hcp & Hpos & _ & ->).
    exists t, cp. repeat split; auto.
    apply range_test. auto.
  - split; [exact thermo_row_one_or_none|].
    split; [exact thermo_row_short|].
    intros t H. rewrite thermo_table_records. now rewrite H.
Qed.

(** C3 at "298 ± 2".  The cleaning removes the plus-minus sign together
    with the blanks, so the cut at that sign finds nothing to cut, on this
    text as on every other, and the digits of the uncertainty stay: the
    extractor returns 2982 where the specification has 298. *)
Theorem plus_minus_uncertainty_is_kept :
  (forall s, split_first plus_minus (clean s) = clean s)
  /\ clean (strip uncertain_text) = str "2982"
  /\ _parse_number uncertain_text = Ok (Some (Fin 2982)).
Proof.
  split; [exact split_first_clean|].
  split; vm_compute; reflexivity.
Qed.

(** C4 at "1.2×10^-3".  The multiplication sign becomes [e], but the base
    10 and the circumflex stay, [float] rejects "1.2e10^-3", and the first
    number found in the text is 1.2: the extractor returns 1.2 where the
    specification has 1.2e-3. *)
Theorem times_notation_is_not_flattened :
  clean (strip times_text) = str "1.2e10^-3"
  /\ float_of (str "1.2e10^-3") = Raise ValueError
  /\ findall number_re times_text = [str "1.2"; str "10"; str "-3"]
  /\ _parse_number times_text = Ok (Some (Fin (6 # 5)))
  /\ float_of (str "1.2e-3") = Ok (Fin (3 # 2500)).
Proof. repeat split; vm_compute; reflexivity. Qed.

(** C5.  The extractor never raises: on every text it returns a float or
    no value.  It returns no value on the empty text, on "-" and on every
    blank text.  On a text without a digit it returns no value unless the
    cleaned text spells an infinity or NaN, which is then the value: "NaN",
    in which no number is found, gives the float NaN where the specification
    has no value. *)
Theorem extractor_total_and_nan_text :
  (forall s, exists r, _parse_number s = Ok r)
  /\ _parse_number [] = Ok None
  /\ _parse_number (str "-") = Ok None
  /\ (forall s, forallb is_space s = true -> _parse_number s = Ok None)
  /\ (forall s, no_digit s ->
        _parse_number s = Ok None
        \/ exists x, py_float (clean (strip s)) = Some x
                     /\ (x = PInf \/ x = NInf \/ x = NaN)
                     /\ _parse_number s = Ok (Some x))
  /\ findall number_re (str "NaN") = []
  /\ _parse_number (str "NaN") = Ok (Some NaN).
Proof.
  split; [exact parse_number_total|].
  split; [reflexivity|].
  split; [reflexivity|].
  split; [exact parse_number_blank|].
  split; [exact parse_number_no_digit|].
  split; vm_compute; reflexivity.
Qed.

(** C6.  For every existing row count the synthetic generator returns the
    concatenation of ten blocks, one for each of the fixed compounds in
    their order, each of [max((100 - existing_count) div 10, 5)] rows, hence
    of at least five; the temperatures of a block are evenly spaced from 200
    to 2000; every heat capacity is at least 10 and every entropy at least
    0, whatever the random draws; and from an existing count of 0 the table
    has 100 rows, at least 95 per cent of the target. *)
Theorem synthetic_supplement_rows rt existing_count st :
  let n := Z.to_nat (rows_per_compound existing_count) in
  exists blocks st',
    generate_synthetic_supplement rt existing_count st
    = (Ok (concat blocks), st')
    /\ (5 <= n)%nat
    /\ Forall2
         (fun compound block =>
            length block = n /\
            forall i, (i < n)%nat ->
              exists row t, block !! i = Some row
                /\ Sample.compound row = compound
                /\ Sample.temperature row = Fin t
                /\ (t == 200 + inject_Z (Z.of_nat i)
                             * (1800 / inject_Z (Z.of_nat n - 1)))%Q
                /\ (200 <= t <= 2000)%Q)
         ["H2O"; "CO2"; "CH4"; "NH3"; "C2H5OH"; "N2"; "O2"; "C6H6";
          "C8H18"; "NaCl"]
         blocks
    /\ Forall
         (fun row =>
            (exists cp, Sample.heat_capacity row = Fin cp /\ (10 <= cp)%Q) /\
            (exists s, Sample.entropy row = Some (Fin s) /\ (0 <= s)%Q))
         (concat blocks)
    /\ length (concat blocks) = (10 * n)%nat
    /\ (existing_count = 0 -> (95 <= length (concat blocks))%nat).
Proof.
  intros n.
  destruct (generate_synthetic_supplement_spec rt existing_count st)
    as (blocks & st' & Hgen & HF & _).
  assert (Hn : (5 <= n)%nat).
  { pose proof (samples_per_compound_spec existing_count) as [_ H].
    unfold n. lia. }
  assert (Hblocks :
    Forall2 (fun compound block =>
               length block = n /\
               (forall i, (i < n)%nat ->
                  exists row t, block !! i = Some row
                    /\ Sample.compound row = compound
                    /\ Sample.temperature row = Fin t
                    /\ (t == 200 + inject_Z (Z.of_nat i)
                                 * (1800 / inject_Z (Z.of_nat n - 1)))%Q
                    /\ (200 <= t <= 2000)%Q) /\
               Forall (fun row =>
                  (exists cp, Sample.heat_capacity row = Fin cp
                              /\ (10 <= cp)%Q) /\
                  (exists s, Sample.entropy row = Some (Fin s)
                             /\ (0 <= s)%Q)) block)
            compounds blocks).
  { eapply Forall2_impl; [exact HF|]. intros compound block Hb.
    apply (synthetic_block rt compound n block); [lia|exact Hb]. }
  assert (Hlen : length (concat blocks) = (10 * n)%nat).
  { rewrite (concat_length_blocks n compounds blocks); [reflexivity|].
    eapply Forall2_impl; [exact Hblocks|]. simpl. tauto. }
  exists blocks, st'. repeat split.
  - exact Hgen.
  - exact Hn.
  - eapply Forall2_impl; [exact Hblocks|]. simpl. tauto.
  - apply Forall_concat. eapply Forall2_Forall_r; [exact Hblocks|].
    apply Forall_forall. intros compound _ block (_ & _ & H). exact H.
  - exact Hlen.
  - intros ->. rewrite Hlen. unfold n. vm_compute. lia.
Qed.

(** C7.  Every row of the table [main] returns, real or synthetic, has its
    temperature between 200 and 2000 and a heat capacity above 0, and
    carries the molecular properties of its compound: the entry of the
    fixed table, or the default. *)
Theorem final_table_rows_within_bounds rt st data st' :
  main rt st = (Ok data, st') ->
  forall row, In row data ->
    fge (Sample.temperature row) (of_Z 200) = true
    /\ fle (Sample.temperature row) (of_Z 2000) = true
    /\ fgt (Sample.heat_capacity row) (of_Z 0) = true
    /\ Sample.mol_props row = get_molecular_properties (Sample.compound row).
Proof.
  intros H row Hrow.
  destruct (post_ok_inv _ _ _ _ _ _ (post_main rt st) H) as [Hb _].
  rewrite Forall_forall in Hb. apply Hb, list_elem_of_In, Hrow.
Qed.

Lemma final_table_rows_within_bounds_witness :
  main water_only init = (Ok water_table, snd (main water_only init))
  /\ length water_table = 92%nat
  /\ Forall
       (fun row =>
          fge (Sample.temperature row) (of_Z 200) = true
          /\ fle (Sample.temperature row) (of_Z 2000) = true
          /\ fgt (Sample.heat_capacity row) (of_Z 0) = true
          /\ Sample.mol_props row
             = get_molecular_properties (Sample.compound row))
       water_table.
Proof.
  assert (H : main water_only init
              = (Ok water_table, snd (main water_only init)))
    by (vm_compute; reflexivity).
  split; [exact H|]. split; [vm_compute; reflexivity|].
  apply Forall_forall. intros row Hrow.
  apply (final_table_rows_within_bounds water_only init water_table
           (snd (main water_only init)) H).
  apply list_elem_of_In, Hrow.
Defined.

(** C8, as the code has it.  A snapshot of raw results in which the data of
    every compound is [None] or a frame with at least one row, saved by one
    interpreter and loaded by another, gives back the same raw results, and
    the aggregation gives the same training table provided the two
    interpreters have the same string-hash secret. *)
Theorem reload_reproduces_table_under_same_hash_secret
    rtA rtB raw filename st st1 stB :
  hash_secret rtB = hash_secret rtA ->
  NoDup (map fst raw) ->
  Forall (fun kv => reloadable (snd kv)) raw ->
  save_data rtA raw filename st = (Ok tt, st1) ->
  files stB = files st1 ->
  load_data filename stB = (Ok raw, stB)
  /\ process_for_training rtB raw = process_for_training rtA raw.
Proof.
  intros Hsecret Hnd Hr Hsave Hfiles. split.
  - eapply save_then_load; eauto.
  - now apply process_for_training_secret.
Qed.

Lemma reload_reproduces_table_under_same_hash_secret_witness :
  load_data snapshot
    (snd (save_data (seeded 1) water_raw snapshot init))
  = (Ok water_raw, snd (save_data (seeded 1) water_raw snapshot init))
  /\ process_for_training (seeded 1) water_raw
     = process_for_training (seeded 1) water_raw.
Proof.
  apply (reload_reproduces_table_under_same_hash_secret
           (seeded 1) (seeded 1) water_raw snapshot init
           (snd (save_data (seeded 1) water_raw snapshot init))).
  - reflexivity.
  - vm_compute. repeat constructor. apply not_elem_of_nil.
  - vm_compute. repeat constructor. discriminate.
  - vm_compute. reflexivity.
  - reflexivity.
Defined.

(** C8 across two interpreters.  The snapshot saved with
    [PYTHONHASHSEED=1] is read back unchanged with [PYTHONHASHSEED=2], but
    [hash("H2O") % 1000] is 355 in the first interpreter and 518 in the
    second, so the two training tables differ. *)
Lemma reload_under_other_hash_secret_differs :
  water_reloaded = Ok water_raw
  /\ compound_ids (process_for_training (seeded 1) water_raw) = [355; 355]
  /\ compound_ids (rbind water_reloaded (process_for_training (seeded 2)))
     = [518; 518]
  /\ rbind water_reloaded (process_for_training (seeded 2))
     <> process_for_training (seeded 1) water_raw.
Proof.
  repeat split; try (vm_compute; reflexivity).
  intros H. apply (f_equal compound_ids) in H. vm_compute in H. discriminate.
Qed.

(** C9, as the code has it.  [scrape_multiple_compounds] never raises and
    returns the data of every compound that is found; the results do not
    depend on what the writes do.  When the progress is to be saved and the
    files can be written, after a compound that is found and whose position
    in the list is a multiple of five the file nist_data_progress_N.json,
    [N] being that position, holds the results accumulated so far.  No
    other file is changed: in particular no progress file is written at
    the position of a compound that is not found.
    [collect_hackathon_dataset] writes no progress file. *)
Theorem progress_saved_after_fifth_compound_found rt compound_list st :
  (forall save_progress,
     exists st',
       scrape_multiple_compounds rt compound_list save_progress st
       = (Ok (scrape_results rt compound_list []), st'))
  /\ ((forall k, write_ok rt k = true) ->
      forall j compound,
        compound_list !! j = Some compound ->
        ((j + 1) mod 5 = 0)%nat ->
        is_Some (scrape_compound_data rt compound) ->
        exists d,
          serialize_loop
            (scrape_results rt (take (j + 1) compound_list) []) [] = Ok d
          /\ files (snd (scrape_multiple_compounds rt compound_list true st))
               !! progress_file (j + 1) = Some (Json d))
  /\ (forall save_progress f,
        (forall j compound,
           compound_list !! j = Some compound ->
           ((j + 1) mod 5 = 0)%nat ->
           is_Some (scrape_compound_data rt compound) ->
           f <> progress_file (j + 1)) ->
        files (snd (scrape_multiple_compounds rt compound_list save_progress
                      st)) !! f
        = files st !! f)
  /\ (forall save_progress j compound,
        compound_list !! j = Some compound ->
        scrape_compound_data rt compound = None ->
        files (snd (scrape_multiple_compounds rt compound_list save_progress
                      st)) !! progress_file (j + 1)
        = files st !! progress_file (j + 1))
  /\ (forall rt' save_progress st2,
        search rt' = search rt ->
        thermo_page rt' = thermo_page rt ->
        phase_page rt' = phase_page rt ->
        fst (scrape_multiple_compounds rt' compound_list save_progress st2)
        = Ok (scrape_results rt compound_list []))
  /\ (forall n,
        files (snd (collect_hackathon_dataset rt st)) !! progress_file n
        = files st !! progress_file n).
Proof.
  assert (Hframe : forall save_progress f,
            (forall j compound,
               compound_list !! j = Some compound ->
               ((j + 1) mod 5 = 0)%nat ->
               is_Some (scrape_compound_data rt compound) ->
               f <> progress_file (j + 1)) ->
            files (snd (scrape_multiple_compounds rt compound_list
                          save_progress st)) !! f
            = files st !! f).
  { intros save_progress f Hf.
    destruct (scrape_loop_found_frame rt save_progress compound_list 0 [] st)
      as (st' & H & Hfr); [constructor|].
    unfold scrape_multiple_compounds. rewrite H. apply Hfr. exact Hf. }
  split; [|split; [|split; [|split; [|split]]]].
  - intros save_progress.
    destruct (scrape_loop_spec rt save_progress compound_list 0 [] st)
      as (st' & H & _); [constructor|]. exists st'. exact H.
  - intros Hw j compound Hj Hmod Hfound.
    destruct (scrape_loop_spec rt true compound_list 0 [] st)
      as (st' & H & _ & Hsave); [constructor|].
    destruct (Hsave eq_refl Hw j compound Hj Hmod Hfound) as (d & Hd & Hf).
    exists d. split; [exact Hd|].
    unfold scrape_multiple_compounds. rewrite H. exact Hf.
  - exact Hframe.
  - intros save_progress j compound Hj Hnone. apply Hframe.
    intros j' compound' Hj' _ [cd Hfound] E.
    apply progress_file_inj in E.
    assert (j = j') by lia. subst j'.
    rewrite Hj in Hj'. injection Hj' as <-. congruence.
  - intros rt' save_progress st2 Hs Ht Hp.
    destruct (scrape_loop_spec rt' save_progress compound_list 0 [] st2)
      as (st' & H & _); [constructor|].
    unfold scrape_multiple_compounds. rewrite H. cbn [fst].
    now rewrite (scrape_results_ext rt rt' Hs Ht Hp).
  - intros n. destruct (progress_file_not_collected n) as [H1 H2].
    now apply collect_frame.
Qed.

Lemma progress_saved_after_fifth_compound_found_witness :
  exists d,
    serialize_loop (scrape_results fifth_missing (take (4 + 1) five_found) [])
                   [] = Ok d
    /\ files (snd (scrape_multiple_compounds fifth_missing five_found true
                     init))
         !! progress_file (4 + 1) = Some (Json d).
Proof.
  apply (proj1 (proj2 (progress_saved_after_fifth_compound_found
                         fifth_missing five_found init))
               (fun k => eq_refl) 4%nat "N2").
  - reflexivity.
  - reflexivity.
  - vm_compute. eauto.
Defined.

(** C9 at a list of five compounds of which the fifth is not found: the
    four others are in the results, every write would succeed, and no
    progress file is written. *)
Lemma no_progress_file_when_fifth_not_found :
  map fst (scrape_results fifth_missing five_compounds [])
  = ["H2O"; "CO2"; "CH4"; "NH3"]
  /\ fst (scrape_multiple_compounds fifth_missing five_compounds true init)
     = Ok (scrape_results fifth_missing five_compounds [])
  /\ files (snd (scrape_multiple_compounds fifth_missing five_compounds
                   true init)) = ∅.
Proof. repeat split; vm_compute; reflexivity. Qed.

(** C10, as the code has it.  In the result of the phase-change parser, a
    row whose value parses and whose label names a point or a temperature
    stores its value under boiling_point_K when the label names boiling or
    vaporization, and under melting_point_K when it names neither but names
    melting or fusion, whether the label names an enthalpy or not; the
    value stays there unless a later row stores under the same key.  A
    value under heat_of_vaporization or heat_of_fusion always comes from a
    row whose label names an enthalpy and neither a point nor a
    temperature. *)
Theorem point_label_takes_priority soup :
  exists d,
    _parse_phase_change_data soup = Ok d
    /\ (forall before c0 c1 rest after v,
          flat_map tr soup = before ++ (c0 :: c1 :: rest) :: after ->
          _parse_number (strip c1) = Ok (Some v) ->
          label_has "temperature" c0 || label_has "point" c0 = true ->
          (label_has "boiling" c0 || label_has "vaporization" c0 = true ->
           (forall cells v', In cells after ->
              row_write cells <> Some ("boiling_point_K", v')) ->
           d !! "boiling_point_K" = Some v)
          /\ (label_has "boiling" c0 || label_has "vaporization" c0 = false ->
              label_has "melting" c0 || label_has "fusion" c0 = true ->
              (forall cells v', In cells after ->
                 row_write cells <> Some ("melting_point_K", v')) ->
              d !! "melting_point_K" = Some v))
    /\ (forall v,
          d !! "heat_of_vaporization" = Some v ->
          exists t c0 c1 rest,
            In t soup /\ In (c0 :: c1 :: rest) (tr t)
            /\ _parse_number (strip c1) = Ok (Some v)
            /\ label_has "boiling" c0 || label_has "vaporization" c0 = true
            /\ label_has "temperature" c0 || label_has "point" c0 = false
            /\ label_has "enthalpy" c0 = true)
    /\ (forall v,
          d !! "heat_of_fusion" = Some v ->
          exists t c0 c1 rest,
            In t soup /\ In (c0 :: c1 :: rest) (tr t)
            /\ _parse_number (strip c1) = Ok (Some v)
            /\ label_has "boiling" c0 || label_has "vaporization" c0 = false
            /\ label_has "melting" c0 || label_has "fusion" c0 = true
            /\ label_has "temperature" c0 || label_has "point" c0 = false
            /\ label_has "enthalpy" c0 = true).
Proof.
  destruct (_parse_phase_change_data soup) as [d|e] eqn:Hd.
  2:{ unfold _parse_phase_change_data in Hd.
      rewrite phase_rows_writes in Hd. discriminate. }
  exists d. split; [reflexivity|]. split; [|split].
  - intros before c0 c1 rest after v Hrows Hv Hpoint.
    split; [intros Hboil Hafter|intros Hboil Hmelt Hafter].
    + destruct (phase_last_write soup before (c0 :: c1 :: rest) after
                  "boiling_point_K" v Hrows) as (d' & Hd' & Hk);
        [|exact Hafter|congruence].
      apply row_write_parse. split; [exact Hv|].
      apply phase_key_label. left. auto.
    + destruct (phase_last_write soup before (c0 :: c1 :: rest) after
                  "melting_point_K" v Hrows) as (d' & Hd' & Hk);
        [|exact Hafter|congruence].
      apply row_write_parse. split; [exact Hv|].
      apply phase_key_label. right. right. left. auto.
  - intros v H.
    destruct (phase_entry_row soup d _ v Hd H)
      as (t & c0 & c1 & rest & Ht & Hrow & Hv & Hk).
    exists t, c0, c1, rest. split; [exact Ht|]. split; [exact Hrow|].
    split; [exact Hv|]. apply phase_key_label in Hk.
    destruct Hk as [(E & _)|[(_ & H1 & H2 & H3)|[(E & _)|(E & _)]]];
      try discriminate. auto.
  - intros v H.
    destruct (phase_entry_row soup d _ v Hd H)
      as (t & c0 & c1 & rest & Ht & Hrow & Hv & Hk).
    exists t, c0, c1, rest. split; [exact Ht|]. split; [exact Hrow|].
    split; [exact Hv|]. apply phase_key_label in Hk.
    destruct Hk as [(E & _)|[(E & _)|[(E & _)|(_ & H1 & H2 & H3 & H4)]]];
      try discriminate. auto.
Qed.

Lemma point_label_takes_priority_witness :
  exists d,
    _parse_phase_change_data enthalpy_at_boiling_page = Ok d
    /\ d !! "boiling_point_K" = Some (Fin (7463 # 20))
    /\ d !! "heat_of_vaporization" = None.
Proof.
  destruct (point_label_takes_priority enthalpy_at_boiling_page)
    as (d & Hd & Hpoint & Hvap & _).
  exists d. split; [exact Hd|]. split.
  - apply (Hpoint [] (str "Enthalpy at boiling point") (str "373.15")
             [] [] (Fin (7463 # 20)));
      [reflexivity|vm_compute; reflexivity ..|intros cells v' []].
  - destruct (d !! "heat_of_vaporization") as [v|] eqn:E; [|reflexivity].
    destruct (Hvap v eq_refl)
      as (t & c0 & c1 & rest & Ht & Hrow & _ & _ & Hp & _).
    destruct Ht as [<-|[]]. destruct Hrow as [[= <- <-]|[]].
    vm_compute in Hp. discriminate.
Defined.

(** C10 at a label that names fusion, a point and an enthalpy, and boiling
    as well: the test on boiling and vaporization comes first, so the
    value goes to boiling_point_K and nothing is stored under
    melting_point_K. *)
Lemma fusion_label_naming_boiling_is_a_boiling_point :
  label_has "fusion" (str "Enthalpy of fusion at boiling point") = true
  /\ label_has "point" (str "Enthalpy of fusion at boiling point") = true
  /\ label_has "enthalpy" (str "Enthalpy of fusion at boiling point") = true
  /\ _parse_phase_change_data fusion_at_boiling_page
     = Ok (<["boiling_point_K" := Fin (601 # 100)]> ∅)
  /\ (<["boiling_point_K" := Fin (601 # 100)]> ∅ : gmap string pyfloat)
       !! "melting_point_K" = None.
Proof. repeat split; vm_compute; reflexivity. Qed.

(** * Further properties of the code *)

(** ** The numeric extractor *)

Lemma text_eqb_eq s t : text_eqb s t = true <-> s = t.
Proof.
  revert t. induction s as [|a s IH]; intros [|b t]; simpl;
    try (split; [discriminate|discriminate]); [tauto|].
  unfold ascii_eqb. rewrite andb_true_iff, Ascii.eqb_eq, IH.
  split; [intros [-> ->]; reflexivity|intros [= -> ->]; auto].
Qed.

Lemma lstrip_idem s : lstrip (lstrip s) = lstrip s.
Proof.
  induction s as [|c s IH]; simpl; [reflexivity|].
  destruct (is_space c) eqn:E; [exact IH|]. simpl. now rewrite E.
Qed.

Lemma lstrip_keeps_last l c :
  is_space c = false -> exists u, lstrip (l ++ [c]) = u ++ [c].
Proof.
  intros Hc. induction l as [|a l IH]; simpl.
  - rewrite Hc. now exists [].
  - destruct (is_space a); [exact IH|]. now exists (a :: l).
Qed.

(** A stripped text is left alone by [strip]. *)
Lemma strip_idem s : strip (strip s) = strip s.
Proof.
  assert (Hr : lstrip (rev (strip s)) = rev (strip s)).
  { unfold strip, rstrip. now rewrite rev_involutive, lstrip_idem. }
  assert (Hl : lstrip (strip s) = strip s).
  { unfold strip, rstrip. destruct (lstrip s) as [|c a] eqn:E.
    - reflexivity.
    - assert (Hc : is_space c = false).
      { destruct s as [|x s]; [discriminate|].
        pose proof (lstrip_idem (x :: s)) as H. rewrite E in H.
        simpl in H. destruct (is_space c); [|reflexivity].
        apply (f_equal length) in H. simpl in H.
        assert (length (lstrip a) <= length a)%nat; [|lia].
        clear. induction a as [|y a IH]; simpl; [lia|].
        destruct (is_space y); simpl; lia. }
      simpl rev. destruct (lstrip_keeps_last (rev a) c Hc) as [u ->].
      rewrite rev_app_distr. simpl. now rewrite Hc. }
  unfold strip at 1. rewrite Hl. unfold rstrip. rewrite Hr.
  apply rev_involutive.
Qed.

Lemma guard_spec t :
  text_eqb t [] || text_eqb t (str "-") || text_eqb t [] = true
  <-> t = [] \/ t = str "-".
Proof.
  rewrite !orb_true_iff, !text_eqb_eq. tauto.
Qed.

(** X1.  Blanks around the text make no difference to the extractor: it
    gives the same result on a text and on the stripped text. *)
Theorem parse_number_ignores_outer_blanks s :
  _parse_number (strip s) = _parse_number s.
Proof.
  unfold _parse_number. rewrite strip_idem.
  destruct (text_eqb s [] || text_eqb s (str "-") || text_eqb s [])
    eqn:Hs.
  - apply guard_spec in Hs. destruct Hs as [-> | ->]; reflexivity.
  - destruct (text_eqb (strip s) [] || text_eqb (strip s) (str "-")
              || text_eqb (strip s) []) eqn:Ht; [|reflexivity].
    apply guard_spec in Ht. destruct Ht as [-> | ->]; reflexivity.
Qed.

Lemma number_char_kept c :
  implb (number_char c)
        (negb (is_space c) && kept_by_cleaning c
         && negb (ascii_eqb c times_sign)) = true.
Proof. by_cases_on_ascii c. Qed.

Lemma lstrip_plain s :
  match s with [] => True | c :: _ => is_space c = false end ->
  lstrip s = s.
Proof. destruct s as [|c s]; simpl; [auto|]. now intros ->. Qed.

Lemma strip_plain s :
  Forall (fun c => is_space c = false) s -> strip s = s.
Proof.
  intros H. unfold strip, rstrip.
  rewrite (lstrip_plain s) by (destruct H; auto).
  apply Forall_rev in H.
  rewrite (lstrip_plain (rev s)) by (destruct H; auto).
  apply rev_involutive.
Qed.

Lemma clean_plain s :
  Forall (fun c => kept_by_cleaning c = true
                   /\ ascii_eqb c times_sign = false) s ->
  clean s = s.
Proof.
  unfold clean, replace_char.
  induction 1 as [|c s [Hk Ht] _ IH]; simpl; [reflexivity|].
  rewrite Hk. simpl. now rewrite Ht, IH.
Qed.

(** X2.  On a text that is a decimal literal from its first character to
    its last (the number pattern matches all of it) the extractor returns
    the value [float] gives to that text. *)
Theorem parse_number_of_literal s :
  match_at number_re s = Some (s, []) ->
  exists x, py_float s = Some x /\ _parse_number s = Ok (Some x).
Proof.
  intros H. apply match_at_lang in H. destruct H as [_ Hl].
  destruct (py_float_number s Hl) as [x Hx]. exists x. split; [exact Hx|].
  pose proof (lang_number_chars s Hl) as Hch.
  assert (Hall : Forall (fun c => is_space c = false
                                  /\ kept_by_cleaning c = true
                                  /\ ascii_eqb c times_sign = false) s).
  { rewrite forallb_forall in Hch. apply Forall_forall. intros c Hc.
    apply list_elem_of_In in Hc. specialize (Hch c Hc).
    use_facts number_char_kept c Hch. auto. }
  unfold _parse_number.
  destruct (text_eqb s [] || text_eqb s (str "-") || text_eqb s [])
    eqn:Hg.
  { apply guard_spec in Hg. destruct Hg as [-> | ->]; discriminate. }
  rewrite strip_plain by (eapply Forall_impl; [exact Hall|]; simpl; tauto).
  replace (if contains [plus_minus] s
           then split_first plus_minus (clean s) else clean s)
    with (clean s)
    by (destruct (contains _ _); [now rewrite split_first_clean|reflexivity]).
  rewrite clean_plain by (eapply Forall_impl; [exact Hall|]; simpl; tauto).
  unfold float_of. now rewrite Hx.
Qed.

Lemma parse_number_of_literal_witness :
  exists x, py_float (str "-1.5e3") = Some x
            /\ _parse_number (str "-1.5e3") = Ok (Some x).
Proof.
  apply (parse_number_of_literal (str "-1.5e3")). vm_compute. reflexivity.
Defined.

(** The greedy repetition succeeds as soon as its continuation succeeds
    where it stands. *)
Lemma star_match_some p : forall s k,
  k s <> None -> star_match p s k <> None.
Proof.
  intros [|c s] k H; simpl; [exact H|].
  destruct (p c); [|exact H].
  destruct (star_match p s k); [discriminate|exact H].
Qed.

(** The number pattern matches wherever a digit stands. *)
Lemma number_matches_at_digit d s :
  is_digit d = true -> match_at number_re (d :: s) <> None.
Proof.
  intros Hd. unfold match_at.
  assert (H : rmatch number_re (d :: s) Some <> None);
    [|destruct (rmatch number_re (d :: s) Some); [discriminate|congruence]].
  use_facts digit_facts d Hd. unfold number_re.
  cbn [rmatch]. rewrite F. apply star_match_some.
  cbn [rmatch]. unfold is_dot. rewrite F3. rewrite Hd.
  apply star_match_some.
  match goal with
  | |- match ?X with _ => _ end <> None => destruct X; discriminate
  end.
Qed.

Lemma findall_digit : forall s,
  has_digit s -> findall number_re s <> [].
Proof.
  unfold findall. induction s as [|c s IH]; intros (d & Hin & Hd).
  - destruct Hin.
  - simpl. destruct (match_at number_re (c :: s)) as [[m rest]|] eqn:E;
      [discriminate|].
    destruct Hin as [->|Hin].
    + now apply number_matches_at_digit in E.
    + apply IH. exists d. auto.
Qed.

Lemma has_digit_strip s : has_digit s -> has_digit (strip s).
Proof.
  assert (Hl : forall t, has_digit t -> has_digit (lstrip t)).
  { induction t as [|c t IH]; intros (d & Hin & Hd); [destruct Hin|].
    simpl. destruct (is_space c) eqn:Hc.
    - apply IH. destruct Hin as [->|Hin]; [|exists d; auto].
      revert Hc Hd. clear. revert d.
      assert (forall d, implb (is_space d) (negb (is_digit d)) = true) as H
        by (intros d; by_cases_on_ascii d).
      intros d Hs Hd. specialize (H d). rewrite Hs, Hd in H. discriminate.
    - exists d. auto. }
  assert (Hr : forall t, has_digit t -> has_digit (rev t)).
  { intros t (d & Hin & Hd). exists d. split; [|exact Hd].
    now apply in_rev in Hin. }
  intros H. unfold strip, rstrip. auto.
Qed.

Lemma parse_number_of_text_with_digit s :
  has_digit s -> exists x, _parse_number s = Ok (Some x).
Proof.
  intros H. unfold _parse_number.
  destruct (text_eqb s [] || text_eqb s (str "-") || text_eqb s [])
    eqn:Hg.
  { apply guard_spec in Hg. destruct H as (d & Hin & Hd).
    destruct Hg as [-> | ->]; [destruct Hin|].
    destruct Hin as [<-|[]]. discriminate. }
  match goal with
  | |- context [float_of ?c] => destruct (float_of c) as [x|e] eqn:Hf
  end; cbn [rbind try_except_ValueError]; [eauto|].
  assert (e = ValueError) as ->.
  { unfold float_of in Hf. destruct (py_float _); congruence. }
  pose proof (findall_digit _ (has_digit_strip s H)) as Hn.
  destruct (findall number_re (strip s)) as [|n0 rest] eqn:E; [congruence|].
  destruct (findall_number_parses _ _ _ E) as [x ->]. simpl. eauto.
Qed.

Lemma digit_or_not s : no_digit s \/ has_digit s.
Proof.
  induction s as [|c s [IH|(d & Hin & Hd)]].
  - left. constructor.
  - destruct (is_digit c) eqn:Hc.
    + right. exists c. split; [now left|exact Hc].
    + left. now constructor.
  - right. exists d. split; [now right|exact Hd].
Qed.

(** X3.  The extractor returns no value exactly on the texts that have no
    digit and whose cleaned form [float] rejects; in particular a text in
    which a digit occurs always gives a value. *)
Theorem parse_number_none_iff s :
  _parse_number s = Ok None <->
  (forall c, In c s -> is_digit c = false)
  /\ py_float (clean (strip s)) = None.
Proof.
  split.
  - intros H. destruct (digit_or_not s) as [Hn|Hd].
    + split.
      * intros c Hc. unfold no_digit in Hn. rewrite Forall_forall in Hn.
        now apply Hn, list_elem_of_In.
      * destruct (parse_number_no_digit s Hn) as [_|(x & _ & _ & Hx)];
          [|congruence].
        destruct (py_float (clean (strip s))) as [x|] eqn:E; [|reflexivity].
        exfalso. revert H. unfold _parse_number.
        destruct (text_eqb s [] || text_eqb s (str "-") || text_eqb s [])
          eqn:Hg.
        { apply guard_spec in Hg. destruct Hg as [-> | ->]; discriminate. }
        replace (if contains [plus_minus] (strip s)
                 then split_first plus_minus (clean (strip s))
                 else clean (strip s)) with (clean (strip s))
          by (destruct (contains _ _);
              [now rewrite split_first_clean|reflexivity]).
        unfold float_of. rewrite E. discriminate.
    + destruct (parse_number_of_text_with_digit s Hd) as [x Hx]. congruence.
  - intros [Hn Hf].
    assert (Hnd : no_digit s).
    { unfold no_digit. apply Forall_forall. intros c Hc.
      now apply Hn, list_elem_of_In. }
    destruct (parse_number_no_digit s Hnd) as [H|(x & Hx & _)];
      [exact H|congruence].
Qed.

(** ** The table of thermodynamic data *)

(** X4.  A frame of thermodynamic data is never empty, and none of its
    records has a temperature below 50 or above 5000 or a heat capacity
    that is not above 0. *)
Theorem thermodynamic_frame_invariant soup df :
  _parse_thermodynamic_tables soup = Some df ->
  df <> []
  /\ forall r, In r df ->
       fgt (heat_capacity r) (of_Z 0) = true
       /\ flt (temperature r) (of_Z 50) = false
       /\ fgt (temperature r) (of_Z 5000) = false.
Proof.
  unfold _parse_thermodynamic_tables. intros H.
  assert (Hall : forall r, In r (flat_map parse_thermo_table soup) ->
            fgt (heat_capacity r) (of_Z 0) = true
            /\ flt (temperature r) (of_Z 50) = false
            /\ fgt (temperature r) (of_Z 5000) = false).
  { intros r Hr. apply in_flat_map in Hr. destruct Hr as (t & _ & Hr).
    rewrite thermo_table_records in Hr.
    destruct (is_thermo_table t); [|destruct Hr].
    apply in_flat_map in Hr. destruct Hr as (cells & _ & Hr).
    destruct cells as [|c0 [|c1 rest]];
      try (rewrite thermo_row_short in Hr by (simpl; lia); destruct Hr).
    destruct (thermo_row_one_or_none (c0 :: c1 :: rest)) as [E|[r' E]];
      rewrite E in Hr; [destruct Hr|].
    destruct Hr as [<-|[]]. apply thermo_row_accepted in E.
    destruct E as (t' & cp & c & _ & Hlo & Hhi & _ & Hpos & _ & ->).
    simpl. auto. }
  destruct (flat_map parse_thermo_table soup) as [|r l]; [discriminate|].
  injection H as <-. split; [discriminate|exact Hall].
Qed.

Lemma thermodynamic_frame_invariant_witness :
  exists df,
    _parse_thermodynamic_tables water_page = Some df
    /\ df <> []
    /\ forall r, In r df ->
         fgt (heat_capacity r) (of_Z 0) = true
         /\ flt (temperature r) (of_Z 50) = false
         /\ fgt (temperature r) (of_Z 5000) = false.
Proof.
  destruct (_parse_thermodynamic_tables water_page) as [df|] eqn:E;
    [|vm_compute in E; discriminate].
  exists df. split; [reflexivity|].
  exact (thermodynamic_frame_invariant water_page df E).
Defined.

Lemma column_set_column k i v c :
  column k (set_column i v c)
  = if ((i =? k) && (1 <=? k) && (k <=? 4))%nat then Some v else column k c.
Proof.
  destruct i as [|[|[|[|[|i]]]]]; destruct k as [|[|[|[|[|k]]]]];
    try reflexivity; simpl;
    destruct (i =? k)%nat; reflexivity.
Qed.

Lemma value_at_cons cell rest j :
  value_at (cell :: rest) (S j) = value_at rest j.
Proof. reflexivity. Qed.

(** After the loop, the variable for the cell of index [k] holds the value
    of that cell, if the cell is there and has one. *)
Lemma scan_cells_column : forall cells i c c' k,
  scan_cells i cells c = Ok c' ->
  (1 <= k <= 4)%nat ->
  column k c'
  = if (i <=? k)%nat
    then match value_at cells (k - i) with
         | Some v => Some v
         | None => column k c
         end
    else column k c.
Proof.
  induction cells as [|cell cells IH]; intros i c c' k H Hk; simpl in H.
  - injection H as <-. unfold value_at. simpl.
    destruct (i <=? k)%nat; reflexivity.
  - destruct (_parse_number (strip cell)) as [v|e] eqn:E; [|discriminate].
    simpl in H. rewrite (IH _ _ _ k H Hk).
    destruct (Nat.leb_spec i k) as [Hik|Hik].
    + destruct (Nat.eq_dec i k) as [->|Hne].
      * rewrite (proj2 (Nat.leb_gt (S k) k)) by lia.
        rewrite Nat.sub_diag. unfold value_at. simpl. rewrite E.
        destruct v as [v|]; [|reflexivity].
        rewrite column_set_column, Nat.eqb_refl.
        destruct (Nat.leb_spec 1 k); [|lia].
        destruct (Nat.leb_spec k 4); [reflexivity|lia].
      * rewrite (proj2 (Nat.leb_le (S i) k)) by lia.
        replace (k - i)%nat with (S (k - S i)) by lia.
        rewrite value_at_cons.
        destruct (value_at cells (k - S i)); [reflexivity|].
        destruct v as [v|]; [|reflexivity].
        rewrite column_set_column.
        destruct (Nat.eqb_spec i k); [lia|reflexivity].
    + rewrite (proj2 (Nat.leb_gt (S i) k)) by lia.
      destruct v as [v|]; [|reflexivity].
      rewrite column_set_column.
      destruct (Nat.eqb_spec i k); [lia|reflexivity].
Qed.

(** X5.  The record of an accepted row is made of its first five cells by
    position: temperature, heat capacity, entropy, Gibbs function and
    enthalpy, in that order; a cell that is missing or has no value leaves
    its field empty. *)
Theorem thermo_record_by_position cells r :
  parse_thermo_row cells = [r] ->
  value_at cells 0 = Some (temperature r)
  /\ value_at cells 1 = Some (heat_capacity r)
  /\ entropy r = value_at cells 2
  /\ gibbs_free_energy r = value_at cells 3
  /\ enthalpy_minus_h298 r = value_at cells 4.
Proof.
  intros H. destruct cells as [|c0 [|c1 rest]];
    try (rewrite thermo_row_short in H by (simpl; lia); discriminate).
  apply thermo_row_accepted in H.
  destruct H as (t & cp & c & Ht & _ & _ & Hcp & _ & Hc & ->). simpl.
  assert (Hcol : forall k, (1 <= k <= 4)%nat ->
            column k c = value_at (c0 :: c1 :: rest) k).
  { intros k Hk.
    rewrite (scan_cells_column _ _ _ _ k Hc Hk).
    destruct k as [|[|[|[|[|k]]]]]; try lia;
      cbn [Nat.leb Nat.sub]; rewrite (value_at_cons c0 (c1 :: rest));
      match goal with
      | |- context [value_at (c1 :: rest) ?j] =>
          destruct (value_at (c1 :: rest) j); reflexivity
      end. }
  unfold value_at at 1 2. simpl. rewrite Ht, Hcp.
  repeat split.
  - exact (Hcol 2%nat ltac:(lia)).
  - exact (Hcol 3%nat ltac:(lia)).
  - exact (Hcol 4%nat ltac:(lia)).
Qed.

Lemma thermo_record_by_position_witness :
  exists r,
    parse_thermo_row five_cells = [r]
    /\ value_at five_cells 0 = Some (temperature r)
    /\ value_at five_cells 1 = Some (heat_capacity r)
    /\ entropy r = value_at five_cells 2
    /\ gibbs_free_energy r = value_at five_cells 3
    /\ enthalpy_minus_h298 r = value_at five_cells 4.
Proof.
  destruct (parse_thermo_row five_cells) as [|r [|r' l]] eqn:E;
    try (vm_compute in E; discriminate).
  exists r. split; [reflexivity|].
  exact (thermo_record_by_position five_cells r E).
Defined.

(** ** The phase-change data *)

(** X6.  The phase-change parser never raises, and every entry of its
    result has one of the four keys and is the key and the value of a row
    of a table of the page. *)
Theorem phase_change_entries soup :
  exists d,
    _parse_phase_change_data soup = Ok d
    /\ forall k v, d !! k = Some v ->
         In k ["boiling_point_K"; "heat_of_vaporization"; "melting_point_K";
               "heat_of_fusion"]
         /\ exists t cells,
              In t soup /\ In cells (tr t)
              /\ row_write cells = Some (k, v).
Proof.
  unfold _parse_phase_change_data. rewrite phase_rows_writes.
  eexists. split; [reflexivity|]. intros k v H.
  apply fold_insert_lookup in H. destruct H as [H|H].
  { rewrite lookup_empty in H. discriminate. }
  apply in_omap_row_write in H. destruct H as (cells & Hin & Hw).
  apply in_flat_map in Hin. destruct Hin as (t & Ht & Hcells). split.
  - unfold row_write in Hw. destruct cells as [|c0 [|c1 rest]];
      try discriminate.
    destruct (value_at _ 1); [|discriminate].
    destruct (phase_key _) as [k'|] eqn:E; [|discriminate].
    injection Hw as -> _. exact (phase_key_known _ _ E).
  - eauto.
Qed.

(** X7.  The last row stored under a key wins: when the rows of the page
    are [before], then a row that stores [v] under [k], then rows that
    store nothing under [k], the result has [v] under [k]. *)
Theorem phase_change_last_row_wins soup before cells after k v :
  flat_map tr soup = before ++ cells :: after ->
  row_write cells = Some (k, v) ->
  (forall cells' v', In cells' after -> row_write cells' <> Some (k, v')) ->
  exists d, _parse_phase_change_data soup = Ok d /\ d !! k = Some v.
Proof.
  intros Hrows Hw Hafter. unfold _parse_phase_change_data.
  rewrite phase_rows_writes, Hrows. eexists. split; [reflexivity|].
  rewrite omap_app. simpl. rewrite Hw. rewrite fold_left_app. simpl.
  rewrite fold_insert_absent; [apply lookup_insert_eq|].
  intros v' Hin. apply in_omap_row_write in Hin.
  destruct Hin as (cells' & Hc & Hw'). exact (Hafter cells' v' Hc Hw').
Qed.

Lemma phase_change_last_row_wins_witness :
  exists d, _parse_phase_change_data boiling_page = Ok d
            /\ d !! "boiling_point_K" = Some (Fin 373).
Proof.
  apply (phase_change_last_row_wins boiling_page
           [[str "Boiling point"; str "373.15"]]
           [str "Boiling Temperature"; str "373"]
           [[str "Melting point"; str "273.15"]]).
  - reflexivity.
  - vm_compute. reflexivity.
  - intros cells' v' [<-|[]]. vm_compute. discriminate.
Defined.

(** ** Saving and loading *)

(** X8.  [save_data] changes no file but the one it is asked to write.
    When the conversion of the data raises, it raises before the file is
    opened: the state is as it was.  When [save_data] returns, the file
    holds the converted data. *)
Theorem save_data_touches_one_file rt data filename st :
  (forall f, f <> filename ->
     files (snd (save_data rt data filename st)) !! f = files st !! f)
  /\ (forall e, serialize_loop data [] = Raise e ->
      save_data rt data filename st = (Raise e, st))
  /\ (forall st', save_data rt data filename st = (Ok tt, st') ->
      exists d, serialize_loop data [] = Ok d
                /\ files st' !! filename = Some (Json d)).
Proof.
  unfold save_data, bind, lift, write_file.
  destruct (serialize_loop data []) as [d|e]; cbn [fst snd files].
  - destruct (write_ok rt (attempts st)); cbn [fst snd files];
      (split; [|split]); try discriminate.
    + intros f Hf. now apply lookup_insert_ne.
    + intros st' [= <-]. exists d. split; [reflexivity|].
      cbn [files]. apply lookup_insert_eq.
    + reflexivity.
  - split; [reflexivity|]. split; [|discriminate].
    intros e' [= <-]. reflexivity.
Qed.

Lemma process_for_training_plain_list rt : forall raw,
  (exists name cd l, In (name, cd) raw /\ thermodynamic_data cd = Records l) ->
  process_for_training rt raw = Raise AttributeError.
Proof.
  induction raw as [|[compound data] raw IH]; intros (name & cd & l & Hin & Hl).
  - destruct Hin.
  - simpl. destruct Hin as [[= -> ->]|Hin].
    + rewrite Hl. reflexivity.
    + rewrite (IH (ex_intro _ name (ex_intro _ cd (ex_intro _ l
                      (conj Hin Hl))))).
      destruct (thermodynamic_data data); reflexivity.
Qed.

Lemma serialize_loop_plain_list : forall raw acc,
  (exists name cd l, In (name, cd) raw /\ thermodynamic_data cd = Records l) ->
  serialize_loop raw acc = Raise AttributeError.
Proof.
  induction raw as [|[compound data] raw IH];
    intros acc (name & cd & l & Hin & Hl).
  - destruct Hin.
  - simpl. unfold to_serializable. destruct Hin as [[= -> ->]|Hin].
    + rewrite Hl. reflexivity.
    + destruct (thermodynamic_data data); cbn [rbind]; try reflexivity;
        apply IH; eauto 6.
Qed.

(** X9.  A snapshot in which the thermodynamic data of a compound is an
    empty list is loaded without error, but the list stays a plain list:
    the aggregation of what was loaded raises AttributeError, and so does
    saving it again, without writing anything. *)
Theorem empty_list_in_snapshot_breaks_aggregation
    rt filename d st name sc other :
  files st !! filename = Some (Json d) ->
  In (name, sc) d ->
  saved_thermodynamic_data sc = Some [] ->
  exists raw,
    load_data filename st = (Ok raw, st)
    /\ process_for_training rt raw = Raise AttributeError
    /\ save_data rt raw other st = (Raise AttributeError, st).
Proof.
  intros Hfile Hin Hempty. unfold load_data. rewrite Hfile.
  eexists. split; [reflexivity|].
  assert (Hplain : exists name' cd l,
            In (name', cd)
               (map (fun kv : string * SavedCompound =>
                       let '(n, s) := kv in (n, of_serializable s)) d)
            /\ thermodynamic_data cd = Records l).
  { exists name, (of_serializable sc), [].
    split.
    - apply in_map_iff. exists (name, sc). auto.
    - unfold of_serializable. simpl. now rewrite Hempty. }
  split.
  - now apply process_for_training_plain_list.
  - unfold save_data, bind, lift.
    now rewrite (serialize_loop_plain_list _ [] Hplain).
Qed.

Lemma empty_list_in_snapshot_breaks_aggregation_witness :
  exists raw,
    load_data snapshot with_snapshot = (Ok raw, with_snapshot)
    /\ process_for_training water_only raw = Raise AttributeError
    /\ save_data water_only raw "copy.json" with_snapshot
       = (Raise AttributeError, with_snapshot).
Proof.
  apply (empty_list_in_snapshot_breaks_aggregation water_only snapshot
           empty_list_snapshot with_snapshot "H2O"
           {| saved_formula := "H2O";
              saved_compound_id := "C7732185";
              saved_phase_change_data := ∅;
              saved_thermodynamic_data := Some [] |} "copy.json").
  - vm_compute. reflexivity.
  - now left.
  - reflexivity.
Defined.

(** ** The results of a collection *)

Lemma dict_set_keys {V} k (v : V) d :
  map fst (dict_set k v d)
  = if bool_decide (k ∈ map fst d) then map fst d else map fst d ++ [k].
Proof.
  induction d as [|[k' v'] d IH]; simpl; [reflexivity|].
  destruct (String.eqb_spec k' k) as [->|Hne]; simpl.
  - rewrite bool_decide_eq_true_2 by (now left). reflexivity.
  - rewrite IH. destruct (bool_decide (k ∈ map fst d)) eqn:E.
    + apply bool_decide_eq_true_1 in E.
      rewrite bool_decide_eq_true_2 by (now right). reflexivity.
    + apply bool_decide_eq_false_1 in E.
      rewrite bool_decide_eq_false_2; [reflexivity|].
      intros H. apply elem_of_cons in H. destruct H; congruence.
Qed.

Lemma dict_set_nodup {V} k (v : V) d :
  NoDup (map fst d) -> NoDup (map fst (dict_set k v d)).
Proof.
  intros H. rewrite dict_set_keys.
  destruct (bool_decide (k ∈ map fst d)) eqn:E; [exact H|].
  apply bool_decide_eq_false_1 in E. apply NoDup_app. repeat split.
  - exact H.
  - intros x Hx Hx'. apply list_elem_of_singleton in Hx'. congruence.
  - apply NoDup_singleton.
Qed.

Lemma dict_set_in {V} k (v : V) d k' v' :
  In (k', v') (dict_set k v d) -> (k' = k /\ v' = v) \/ In (k', v') d.
Proof.
  induction d as [|[k0 v0] d IH]; simpl.
  - intros [[= <- <-]|[]]. now left.
  - destruct (String.eqb_spec k0 k) as [->|Hne]; simpl.
    + intros [[= <- <-]|H]; [now left|right; now right].
    + intros [H|H]; [right; now left|].
      destruct (IH H) as [H'|H']; [now left|right; now right].
Qed.

Lemma dict_set_has_key {V} k (v : V) d : In k (map fst (dict_set k v d)).
Proof.
  rewrite dict_set_keys. destruct (bool_decide (k ∈ map fst d)) eqn:E.
  - apply bool_decide_eq_true_1 in E. now apply list_elem_of_In.
  - apply in_or_app. right. now left.
Qed.

Lemma dict_set_keeps_keys {V} k (v : V) d k' :
  In k' (map fst d) -> In k' (map fst (dict_set k v d)).
Proof.
  intros H. rewrite dict_set_keys.
  destruct (bool_decide (k ∈ map fst d)); [exact H|].
  apply in_or_app. now left.
Qed.

Lemma scrape_compound_data_formula rt name cd :
  scrape_compound_data rt name = Some cd -> formula cd = name.
Proof.
  unfold scrape_compound_data.
  destruct (search_compound rt name) as [[|c id]|]; try discriminate.
  now intros [= <-].
Qed.

Lemma scrape_results_invariant rt : forall l acc,
  NoDup (map fst acc) ->
  (forall k cd, In (k, cd) acc -> scrape_compound_data rt k = Some cd) ->
  NoDup (map fst (scrape_results rt l acc))
  /\ (forall k cd, In (k, cd) (scrape_results rt l acc) ->
        scrape_compound_data rt k = Some cd
        /\ (In k l \/ In (k, cd) acc))
  /\ (forall k, In k (map fst acc)
                \/ (In k l /\ is_Some (scrape_compound_data rt k)) ->
        In k (map fst (scrape_results rt l acc))).
Proof.
  induction l as [|c l IH]; intros acc Hnd Hacc.
  - simpl. repeat split; auto.
    intros k [H|[[] _]]. exact H.
  - cbn [scrape_results fold_left].
    set (acc1 := match scrape_compound_data rt c with
                 | Some data => dict_set c data acc
                 | None => acc
                 end).
    assert (Hnd1 : NoDup (map fst acc1)).
    { unfold acc1. destruct (scrape_compound_data rt c);
        [now apply dict_set_nodup|exact Hnd]. }
    assert (Hacc1 : forall k cd, In (k, cd) acc1 ->
              scrape_compound_data rt k = Some cd
              /\ (k = c \/ In (k, cd) acc)).
    { unfold acc1. intros k cd H.
      destruct (scrape_compound_data rt c) as [data|] eqn:E.
      - apply dict_set_in in H. destruct H as [[-> ->]|H]; auto.
      - auto. }
    destruct (IH acc1 Hnd1 (fun k cd H => proj1 (Hacc1 k cd H)))
      as (H1 & H2 & H3).
    change (fold_left _ l acc1) with (scrape_results rt l acc1).
    split; [exact H1|]. split.
    + intros k cd H. destruct (H2 k cd H) as [Hs [Hl|Ha]].
      * split; [exact Hs|]. left. now right.
      * split; [exact Hs|]. destruct (Hacc1 k cd Ha) as [_ [->|Hin]].
        -- left. now left.
        -- now right.
    + intros k Hk. apply H3.
      destruct Hk as [Hk|[[->|Hl] Hs]].
      * left. unfold acc1. destruct (scrape_compound_data rt c);
          [now apply dict_set_keeps_keys|exact Hk].
      * left. unfold acc1. destruct Hs as [data ->].
        apply dict_set_has_key.
      * right. auto.
Qed.

(** X10.  The results of [scrape_multiple_compounds] hold every compound of
    the list that is found, once, under its name, with the data of that
    compound, and nothing else. *)
Theorem scraped_results_are_the_found_compounds
    rt compound_list save_progress st results st' :
  scrape_multiple_compounds rt compound_list save_progress st
  = (Ok results, st') ->
  NoDup (map fst results)
  /\ (forall name cd, In (name, cd) results ->
        In name compound_list
        /\ scrape_compound_data rt name = Some cd
        /\ formula cd = name)
  /\ (forall name, In name compound_list ->
        is_Some (scrape_compound_data rt name) ->
        In name (map fst results)).
Proof.
  intros H.
  destruct (scrape_loop_spec rt save_progress compound_list 0 [] st)
    as (st1 & Hloop & _); [constructor|].
  unfold scrape_multiple_compounds in H. rewrite Hloop in H.
  injection H as <- _.
  destruct (scrape_results_invariant rt compound_list [])
    as (H1 & H2 & H3); [constructor|intros k cd []|].
  split; [exact H1|]. split.
  - intros name cd Hin. destruct (H2 name cd Hin) as [Hs [Hl|[]]].
    repeat split; auto. eapply scrape_compound_data_formula, Hs.
  - intros name Hl Hs. apply H3. right. auto.
Qed.

Lemma scraped_results_are_the_found_compounds_witness :
  NoDup (map fst (scrape_results fifth_missing five_compounds []))
  /\ (forall name cd,
        In (name, cd) (scrape_results fifth_missing five_compounds []) ->
        In name five_compounds
        /\ scrape_compound_data fifth_missing name = Some cd
        /\ formula cd = name)
  /\ (forall name, In name five_compounds ->
        is_Some (scrape_compound_data fifth_missing name) ->
        In name (map fst (scrape_results fifth_missing five_compounds []))).
Proof.
  apply (scraped_results_are_the_found_compounds fifth_missing five_compounds
           true init _
           (snd (scrape_multiple_compounds fifth_missing five_compounds
                   true init))).
  vm_compute. reflexivity.
Defined.

(** ** The aggregation into a training table *)

Lemma clean_and_filter_in r df :
  In r (clean_and_filter df) <->
  In r df
  /\ is_nan (temperature r) = false /\ is_nan (heat_capacity r) = false
  /\ fge (temperature r) (of_Z 200) = true
  /\ fle (temperature r) (of_Z 2000) = true.
Proof.
  unfold clean_and_filter. rewrite !filter_In, !andb_true_iff,
    !negb_true_iff. tauto.
Qed.

Lemma encode_range rt compound : 0 <= encode rt compound < 1000.
Proof. unfold encode. apply Z.mod_pos_bound. lia. Qed.

Lemma process_for_training_rows rt : forall raw table,
  process_for_training rt raw = Ok table ->
  forall row, In row table <->
    exists compound cd df r,
      In (compound, cd) raw /\ thermodynamic_data cd = Frame df
      /\ In r (clean_and_filter df)
      /\ row = training_sample rt compound r.
Proof.
  induction raw as [|[compound cd] raw IH]; intros table H row.
  - injection H as <-. split; [intros []|].
    intros (? & ? & ? & ? & [] & _).
  - cbn [process_for_training] in H.
    destruct (process_for_training rt raw) as [more|e] eqn:Hmore.
    2:{ destruct (thermodynamic_data cd); discriminate. }
    specialize (IH more eq_refl row).
    destruct (thermodynamic_data cd) as [|df|l] eqn:Htd;
      cbn [rbind] in H; try discriminate; injection H as <-.
    + cbn [app]. rewrite IH. split.
      * intros (c & cd' & df & r & Hin & Hrest).
        exists c, cd', df, r. split; [now right|exact Hrest].
      * intros (c & cd' & df & r & [Heq|Hin] & Hf & Hrest).
        -- injection Heq as <- <-. congruence.
        -- exists c, cd', df, r. auto.
    + rewrite in_app_iff, in_map_iff, IH. split.
      * intros [(r & <- & Hr)|(c & cd' & df' & r & Hin & Hrest)].
        -- exists compound, cd, df, r. repeat split; auto. now left.
        -- exists c, cd', df', r. split; [now right|exact Hrest].
      * intros (c & cd' & df' & r & [Heq|Hin] & Hf & Hr & ->).
        -- injection Heq as <- <-. left. exists r.
           split; [reflexivity|congruence].
        -- right. exists c, cd', df', r. auto.
Qed.

Lemma filter_filter_andb {A} (P Q : A -> bool) (l : list A) :
  List.filter Q (List.filter P l) = List.filter (fun x => P x && Q x) l.
Proof.
  induction l as [|x l IH]; [reflexivity|]. simpl.
  destruct (P x); simpl; [destruct (Q x); now rewrite IH|exact IH].
Qed.

Lemma clean_and_filter_kept df :
  clean_and_filter df = List.filter kept_for_training df.
Proof.
  unfold clean_and_filter. rewrite filter_filter_andb.
  induction df as [|r df IH]; [reflexivity|]. simpl. rewrite IH.
  unfold kept_for_training at 1 3. rewrite !andb_assoc. reflexivity.
Qed.

Lemma process_for_training_table rt : forall raw table,
  process_for_training rt raw = Ok table ->
  table = flat_map (fun kv => map (training_sample rt (fst kv))
                                  (List.filter kept_for_training
                                               (frame_of (snd kv)))) raw.
Proof.
  induction raw as [|[compound cd] raw IH]; intros table H.
  - injection H as <-. reflexivity.
  - cbn [process_for_training] in H.
    destruct (process_for_training rt raw) as [more|e] eqn:Hmore.
    2:{ destruct (thermodynamic_data cd); discriminate. }
    specialize (IH more eq_refl). cbn [flat_map fst snd]. unfold frame_of at 1.
    destruct (thermodynamic_data cd) as [|df|l];
      cbn [rbind] in H; try discriminate; injection H as <-.
    + rewrite <- IH. reflexivity.
    + rewrite <- IH, clean_and_filter_kept. reflexivity.
Qed.

(** X11.  The training table is made of the raw data compound after
    compound, in the order of the raw data: for each compound, the records
    of its frame whose temperature and heat capacity are not NaN and whose
    temperature is from 200 to 2000, in the order of the frame and as often
    as the frame has them, each turned into a row under the key of the
    compound.  So a row is in the table exactly when it comes from such a
    record; the code of the compound is from 0 to 999. *)
Theorem training_rows_are_the_filtered_records rt raw table :
  process_for_training rt raw = Ok table ->
  table = flat_map (fun kv => map (training_sample rt (fst kv))
                                  (List.filter kept_for_training
                                               (frame_of (snd kv)))) raw
  /\ (forall row, In row table <->
        exists compound cd df r,
          In (compound, cd) raw /\ thermodynamic_data cd = Frame df
          /\ In r df
          /\ is_nan (temperature r) = false
          /\ is_nan (heat_capacity r) = false
          /\ fge (temperature r) (of_Z 200) = true
          /\ fle (temperature r) (of_Z 2000) = true
          /\ row = training_sample rt compound r)
  /\ (forall row, In row table ->
        0 <= Sample.compound_id row < 1000
        /\ Sample.mol_props row
           = get_molecular_properties (Sample.compound row)).
Proof.
  intros H. split; [exact (process_for_training_table rt raw table H)|].
  split.
  - intros row. rewrite (process_for_training_rows rt raw table H). split.
    + intros (c & cd & df & r & Hin & Hf & Hr & ->).
      apply clean_and_filter_in in Hr.
      exists c, cd, df, r. tauto.
    + intros (c & cd & df & r & Hin & Hf & Hr & H1 & H2 & H3 & H4 & ->).
      exists c, cd, df, r. rewrite clean_and_filter_in. tauto.
  - intros row Hrow.
    apply (process_for_training_rows rt raw table H) in Hrow.
    destruct Hrow as (c & cd & df & r & _ & _ & _ & ->).
    split; [apply encode_range|reflexivity].
Qed.

Lemma training_rows_are_the_filtered_records_witness :
  exists table,
    process_for_training water_only water_raw = Ok table
    /\ table = flat_map (fun kv => map (training_sample water_only (fst kv))
                                       (List.filter kept_for_training
                                                    (frame_of (snd kv))))
                        water_raw
    /\ (forall row, In row table <->
          exists compound cd df r,
            In (compound, cd) water_raw /\ thermodynamic_data cd = Frame df
            /\ In r df
            /\ is_nan (temperature r) = false
            /\ is_nan (heat_capacity r) = false
            /\ fge (temperature r) (of_Z 200) = true
            /\ fle (temperature r) (of_Z 2000) = true
            /\ row = training_sample water_only compound r)
    /\ (forall row, In row table ->
          0 <= Sample.compound_id row < 1000
          /\ Sample.mol_props row
             = get_molecular_properties (Sample.compound row)).
Proof.
  destruct (process_for_training water_only water_raw) as [table|e] eqn:E;
    [|vm_compute in E; discriminate].
  exists table. split; [reflexivity|].
  exact (training_rows_are_the_filtered_records water_only water_raw table E).
Defined.

(** ** The collection *)

Lemma has_thermo_true cd :
  has_thermo cd = true <-> thermodynamic_data cd <> NoData.
Proof.
  unfold has_thermo. destruct (thermodynamic_data cd); split;
    congruence.
Qed.

Lemma collect_loop_invariant rt : forall todo raw st,
  NoDup (map fst raw) ->
  (forall k cd, In (k, cd) raw ->
     scrape_compound_data rt k = Some cd /\ has_thermo cd = true) ->
  exists raw',
    collect_loop rt todo raw st = (Ok raw', st)
    /\ NoDup (map fst raw')
    /\ (forall k cd, In (k, cd) raw' ->
          (scrape_compound_data rt k = Some cd /\ has_thermo cd = true)
          /\ (In k todo \/ In (k, cd) raw))
    /\ (forall k, In k (map fst raw)
                  \/ (In k todo
                      /\ exists cd, scrape_compound_data rt k = Some cd
                                    /\ has_thermo cd = true) ->
          In k (map fst raw')).
Proof.
  induction todo as [|c todo IH]; intros raw st Hnd Hraw.
  - exists raw. cbn [collect_loop].
    split; [reflexivity|]. split; [exact Hnd|]. split.
    + intros k cd H. split; [now apply Hraw|now right].
    + intros k [H|[[] _]]. exact H.
  - cbn [collect_loop].
    set (raw1 := match scrape_compound_data rt c with
                 | Some data =>
                     if has_thermo data then dict_set c data raw else raw
                 | None => raw
                 end).
    assert (Hstep : try_catch
              (match scrape_compound_data rt c with
               | Some data =>
                   if has_thermo data
                   then ret (dict_set c data raw)
                   else ret raw
               | None => ret raw
               end) (fun _ => ret raw) st = (Ok raw1, st)).
    { unfold try_catch, raw1.
      destruct (scrape_compound_data rt c) as [data|]; [|reflexivity].
      destruct (has_thermo data); reflexivity. }
    rewrite (bind_ok _ _ _ _ _ Hstep).
    assert (Hnd1 : NoDup (map fst raw1)).
    { unfold raw1. destruct (scrape_compound_data rt c) as [data|];
        [|exact Hnd].
      destruct (has_thermo data); [now apply dict_set_nodup|exact Hnd]. }
    assert (Hraw1 : forall k cd, In (k, cd) raw1 ->
              (scrape_compound_data rt k = Some cd /\ has_thermo cd = true)
              /\ (k = c \/ In (k, cd) raw)).
    { unfold raw1. intros k cd H.
      destruct (scrape_compound_data rt c) as [data|] eqn:E; [|auto].
      destruct (has_thermo data) eqn:Ht; [|auto].
      apply dict_set_in in H. destruct H as [[-> ->]|H]; auto. }
    destruct (IH raw1 st Hnd1 (fun k cd H => proj1 (Hraw1 k cd H)))
      as (raw' & Hrun & H1 & H2 & H3).
    exists raw'. split; [exact Hrun|]. split; [exact H1|]. split.
    + intros k cd H. destruct (H2 k cd H) as [Hs [Hl|Ha]].
      * split; [exact Hs|]. left. now right.
      * split; [exact Hs|]. destruct (Hraw1 k cd Ha) as [_ [->|Hin]].
        -- left. now left.
        -- now right.
    + intros k Hk. apply H3.
      destruct Hk as [Hk|[[->|Hl] Hs]].
      * left. unfold raw1.
        destruct (scrape_compound_data rt c) as [data|]; [|exact Hk].
        destruct (has_thermo data); [now apply dict_set_keeps_keys|exact Hk].
      * left. unfold raw1. destruct Hs as (data & -> & ->).
        apply dict_set_has_key.
      * right. auto.
Qed.

(** X12.  The loop of the collection keeps, once and under its name, every
    target compound that is found with thermodynamic data, and nothing
    else; it never raises and writes no file. *)
Theorem collected_raw_data_has_thermodynamic_data rt todo st :
  exists raw,
    collect_loop rt todo [] st = (Ok raw, st)
    /\ NoDup (map fst raw)
    /\ forall name cd,
         In (name, cd) raw <->
         In name todo
         /\ scrape_compound_data rt name = Some cd
         /\ thermodynamic_data cd <> NoData.
Proof.
  destruct (collect_loop_invariant rt todo [] st)
    as (raw & Hrun & Hnd & H2 & H3); [constructor|intros k cd []|].
  exists raw. split; [exact Hrun|]. split; [exact Hnd|].
  intros name cd. rewrite <- has_thermo_true. split.
  - intros H. destruct (H2 name cd H) as [[Hs Ht] [Hl|[]]]. auto.
  - intros (Hl & Hs & Ht).
    assert (Hk : In name (map fst raw)) by (apply H3; right; eauto).
    apply in_map_iff in Hk. destruct Hk as ([k cd'] & Hfst & Hin).
    simpl in Hfst. subst k.
    destruct (H2 name cd' Hin) as [[Hs' _] _].
    rewrite Hs in Hs'. injection Hs' as <-. exact Hin.
Qed.

Lemma collect_run rt st data st' :
  collect_hackathon_dataset rt st = (Ok data, st') ->
  exists raw real synthetic st1 st2,
    collect_loop rt target_compounds [] st = (Ok raw, st)
    /\ match raw with
       | [] => st1 = st
       | _ => exists d, serialize_loop raw [] = Ok d
                        /\ write_ok rt (attempts st) = true
                        /\ st1 = written raw_json (Json d) st
       end
    /\ process_for_training rt raw = Ok real
    /\ (if (length real <? 50)%nat
        then generate_synthetic_supplement rt (Z.of_nat (length real)) st1
             = (Ok synthetic, st2)
        else synthetic = [] /\ st2 = st1)
    /\ data = real ++ synthetic
    /\ write_ok rt (attempts st2) = true
    /\ st' = written training_csv (Csv data) st2.
Proof.
  intros H. unfold collect_hackathon_dataset in H.
  destruct (collect_loop_spec rt target_compounds [] st) as (raw & Hl & Hraw);
    [constructor|].
  rewrite (bind_ok _ _ _ _ _ Hl) in H.
  destruct (process_for_training_spec rt raw Hraw) as (real & Hreal & _).
  assert (Hsave :
            (exists st1,
               (match raw with
                | [] => ret tt
                | _ => save_data rt raw raw_json
                end) st = (Ok tt, st1)
               /\ match raw with
                  | [] => st1 = st
                  | _ => exists d, serialize_loop raw [] = Ok d
                                   /\ write_ok rt (attempts st) = true
                                   /\ st1 = written raw_json (Json d) st
                  end)
            \/ (exists e st1,
                  (match raw with
                   | [] => ret tt
                   | _ => save_data rt raw raw_json
                   end) st = (Raise e, st1))).
  { destruct (serialize_loop_scraped raw [] Hraw) as [d Hd].
    destruct raw as [|kv raw']; [left; exists st; auto|].
    cbv iota. unfold save_data, lift, bind. rewrite Hd.
    unfold write_file.
    destruct (write_ok rt (attempts st)) eqn:Hw.
    - left. eexists. split; [reflexivity|]. exists d. auto.
    - right. eauto. }
  destruct Hsave as [Hsave|(e & st1 & Hsave)];
    [|rewrite (bind_raise _ _ _ _ _ Hsave) in H; discriminate].
  destruct Hsave as (st1 & Hsave & Hst1).
  rewrite (bind_ok _ _ _ _ _ Hsave) in H.
  unfold lift in H. unfold bind at 1 in H. rewrite Hreal in H.
  exists raw, real.
  destruct (length real <? 50)%nat eqn:Hlen.
  - destruct (generate_rows_in_bounds rt (Z.of_nat (length real)) st1)
      as (rows & st2 & Hg & _).
    exists rows, st1, st2.
    unfold bind at 1 in H. rewrite (bind_ok _ _ _ _ _ Hg) in H.
    unfold ret at 1 in H. unfold bind at 1, write_file in H.
    destruct (write_ok rt (attempts st2)) eqn:Hw; [|discriminate].
    injection H as <- <-. repeat split; auto.
  - exists [], st1, st1.
    unfold bind at 1 in H. unfold ret at 1 in H.
    unfold bind at 1, write_file in H.
    destruct (write_ok rt (attempts st1)) eqn:Hw; [|discriminate].
    injection H as <- <-. rewrite app_nil_r. repeat split; auto.
Qed.

Lemma generate_same_disk rt e st rows st' :
  generate_synthetic_supplement rt e st = (Ok rows, st') ->
  length rows = (10 * Z.to_nat (rows_per_compound e))%nat
  /\ same_disk st st'.
Proof.
  intros H. destruct (generate_rows_in_bounds rt e st)
    as (rows' & st2 & Hg & _ & Hn & Hd).
  rewrite H in Hg. injection Hg as <- <-. auto.
Qed.

(** X13.  When the collection returns, the file of the training table holds
    the table it returns, the file of the raw data has been written if and
    only if some compound was kept, and no other file has changed. *)
Theorem collection_writes_its_two_files rt st data st' :
  collect_hackathon_dataset rt st = (Ok data, st') ->
  exists raw,
    collect_loop rt target_compounds [] st = (Ok raw, st)
    /\ match raw with
       | [] => files st' = <[training_csv := Csv data]> (files st)
       | _ => exists d,
                serialize_loop raw [] = Ok d
                /\ files st'
                   = <[training_csv := Csv data]>
                       (<[raw_json := Json d]> (files st))
       end.
Proof.
  intros H. apply collect_run in H.
  destruct H as (raw & real & synthetic & st1 & st2
                 & Hl & Hsave & _ & Hgen & _ & _ & ->).
  exists raw. split; [exact Hl|].
  assert (Hfiles : files st2 = files st1).
  { destruct (length real <? 50)%nat.
    - apply generate_same_disk in Hgen. apply Hgen.
    - destruct Hgen as [_ ->]. reflexivity. }
  cbn [written files]. rewrite Hfiles.
  destruct raw as [|kv raw'].
  - now subst st1.
  - destruct Hsave as (d & Hd & _ & ->). exists d. auto.
Qed.

Lemma collection_writes_its_two_files_witness :
  exists raw,
    collect_loop water_only target_compounds [] init = (Ok raw, init)
    /\ match raw with
       | [] => files (snd (collect_hackathon_dataset water_only init))
               = <[training_csv := Csv water_collected]> (files init)
       | _ => exists d,
                serialize_loop raw [] = Ok d
                /\ files (snd (collect_hackathon_dataset water_only init))
                   = <[training_csv := Csv water_collected]>
                       (<[raw_json := Json d]> (files init))
       end.
Proof.
  apply (collection_writes_its_two_files water_only init water_collected
           (snd (collect_hackathon_dataset water_only init))).
  vm_compute. reflexivity.
Defined.

Lemma supplemented_size (n : nat) :
  (n < 50)%nat ->
  (91 <= n + 10 * Z.to_nat (rows_per_compound (Z.of_nat n)) <= 100)%nat.
Proof.
  intros H. unfold rows_per_compound.
  assert (H5 : 5 <= (100 - Z.of_nat n) / 10)
    by (apply Z.div_le_lower_bound; lia).
  rewrite Z.max_l by lia.
  pose proof (Z.mul_div_le (100 - Z.of_nat n) 10 ltac:(lia)).
  pose proof (Z.mul_succ_div_gt (100 - Z.of_nat n) 10 ltac:(lia)).
  lia.
Qed.

(** X14.  The table the collection returns is the aggregated table followed
    by the synthetic rows: none when the aggregated table has fifty rows or
    more, and otherwise as many as bring the table to between 91 and 100
    rows. *)
Theorem collected_table_size rt st data st' :
  collect_hackathon_dataset rt st = (Ok data, st') ->
  exists raw real synthetic,
    collect_loop rt target_compounds [] st = (Ok raw, st)
    /\ process_for_training rt raw = Ok real
    /\ data = real ++ synthetic
    /\ ((50 <= length real)%nat -> synthetic = [])
    /\ ((length real < 50)%nat ->
        length synthetic
        = (10 * Z.to_nat (rows_per_compound (Z.of_nat (length real))))%nat
        /\ (91 <= length data <= 100)%nat).
Proof.
  intros H. apply collect_run in H.
  destruct H as (raw & real & synthetic & st1 & st2
                 & Hl & _ & Hreal & Hgen & -> & _ & _).
  exists raw, real, synthetic. repeat split; auto.
  - intros Hn. apply Nat.ltb_ge in Hn. rewrite Hn in Hgen. apply Hgen.
  - apply Nat.ltb_lt in H. rewrite H in Hgen.
    apply generate_same_disk in Hgen. apply Hgen.
  - apply Nat.ltb_lt in H. rewrite H in Hgen.
    apply generate_same_disk in Hgen. destruct Hgen as [Hn _].
    rewrite length_app, Hn. apply supplemented_size.
    now apply Nat.ltb_lt.
  - apply Nat.ltb_lt in H. rewrite H in Hgen.
    apply generate_same_disk in Hgen. destruct Hgen as [Hn _].
    rewrite length_app, Hn. apply supplemented_size.
    now apply Nat.ltb_lt.
Qed.

Lemma collected_table_size_witness :
  exists raw real synthetic,
    collect_loop water_only target_compounds [] init = (Ok raw, init)
    /\ process_for_training water_only raw = Ok real
    /\ water_collected = real ++ synthetic
    /\ ((50 <= length real)%nat -> synthetic = [])
    /\ ((length real < 50)%nat ->
        length synthetic
        = (10 * Z.to_nat (rows_per_compound (Z.of_nat (length real))))%nat
        /\ (91 <= length water_collected <= 100)%nat).
Proof.
  apply (collected_table_size water_only init water_collected
           (snd (collect_hackathon_dataset water_only init))).
  vm_compute. reflexivity.
Defined.

(** ** The entry point *)

Lemma collected_not_empty rt st data st1 :
  collect_hackathon_dataset rt st = (Ok data, st1) -> data <> [].
Proof.
  intros H. destruct (post_ok_inv _ _ _ _ _ _ (post_collect rt st) H)
    as [_ Hn].
  destruct data; [simpl in Hn; lia|discriminate].
Qed.

Lemma main_after_collection rt st data st1 :
  collect_hackathon_dataset rt st = (Ok data, st1) ->
  main rt st
  = if write_ok rt (attempts st1)
    then (Ok data, written final_csv (Csv data) st1)
    else emergency_fallback rt (refused st1).
Proof.
  intros H. pose proof (collected_not_empty rt st data st1 H) as Hne.
  unfold main, try_catch. rewrite (bind_ok _ _ _ _ _ H).
  unfold lift, dataset_summary. destruct data as [|row data]; [congruence|].
  unfold bind at 1. unfold bind at 1. unfold write_file, written, refused.
  destruct (write_ok rt (attempts st1)); reflexivity.
Qed.

Lemma emergency_fallback_run rt st :
  exists rows stg,
    generate_synthetic_supplement rt 0 st = (Ok rows, stg)
    /\ length rows = 100%nat /\ same_disk st stg
    /\ emergency_fallback rt st
       = if write_ok rt (attempts st)
         then (Ok rows, written final_csv (Csv rows) stg)
         else (Raise (OSError final_csv), refused stg).
Proof.
  destruct (generate_rows_in_bounds rt 0 st)
    as (rows & stg & Hg & _ & Hn & Ha & Hf).
  exists rows, stg. repeat split; auto.
  unfold emergency_fallback. rewrite (bind_ok _ _ _ _ _ Hg).
  unfold bind, write_file, written, refused, ret. rewrite Ha.
  destruct (write_ok rt (attempts st)); reflexivity.
Qed.

(** X15.  When the collection returns a table and the write of the final
    file succeeds, [main] returns that table, writes it to the final file
    and does not run its fallback: no random number is drawn and no other
    file changes after the collection. *)
Theorem main_returns_collected_table rt st data st1 :
  collect_hackathon_dataset rt st = (Ok data, st1) ->
  write_ok rt (attempts st1) = true ->
  exists st2,
    main rt st = (Ok data, st2)
    /\ files st2 = <[final_csv := Csv data]> (files st1)
    /\ draws st2 = draws st1.
Proof.
  intros H Hw. rewrite (main_after_collection rt st data st1 H), Hw.
  eexists. split; [reflexivity|]. split; reflexivity.
Qed.

Lemma main_returns_collected_table_witness :
  exists st2,
    main water_only init = (Ok water_collected, st2)
    /\ files st2
       = <[final_csv := Csv water_collected]>
           (files (snd (collect_hackathon_dataset water_only init)))
    /\ draws st2 = draws (snd (collect_hackathon_dataset water_only init)).
Proof.
  apply (main_returns_collected_table water_only init water_collected
           (snd (collect_hackathon_dataset water_only init))).
  - vm_compute. reflexivity.
  - reflexivity.
Defined.

(** X16.  When the collection returns a table but the write of the final
    file is refused, [main] runs its fallback: if the next write succeeds
    it returns one hundred synthetic rows and writes them to the final
    file, while the file of the collection still holds the table that was
    collected; if that write is refused too, [main] raises. *)
Theorem main_replaces_table_when_final_write_fails rt st data st1 :
  collect_hackathon_dataset rt st = (Ok data, st1) ->
  write_ok rt (attempts st1) = false ->
  exists synthetic stg,
    generate_synthetic_supplement rt 0 (refused st1) = (Ok synthetic, stg)
    /\ length synthetic = 100%nat
    /\ (write_ok rt (S (attempts st1)) = true ->
        exists st2,
          main rt st = (Ok synthetic, st2)
          /\ files st2 !! final_csv = Some (Csv synthetic)
          /\ files st2 !! training_csv = Some (Csv data))
    /\ (write_ok rt (S (attempts st1)) = false ->
        fst (main rt st) = Raise (OSError final_csv)).
Proof.
  intros H Hw. rewrite (main_after_collection rt st data st1 H), Hw.
  destruct (emergency_fallback_run rt (refused st1))
    as (rows & stg & Hg & Hn & [_ Hf] & Hrun).
  exists rows, stg. split; [exact Hg|]. split; [exact Hn|].
  rewrite Hrun. cbn [refused attempts]. split; intros Hw'; rewrite Hw'.
  - eexists. split; [reflexivity|]. cbn [written files]. split.
    + apply lookup_insert_eq.
    + rewrite lookup_insert_ne by discriminate. rewrite Hf.
      cbn [refused files]. apply collect_run in H.
      destruct H as (_ & _ & _ & _ & st0 & _ & _ & _ & _ & _ & _ & ->).
      cbn [written files]. apply lookup_insert_eq.
  - reflexivity.
Qed.

Lemma main_replaces_table_when_final_write_fails_witness :
  exists synthetic stg,
    generate_synthetic_supplement final_write_fails 0
      (refused (snd (collect_hackathon_dataset final_write_fails init)))
    = (Ok synthetic, stg)
    /\ length synthetic = 100%nat
    /\ (write_ok final_write_fails
          (S (attempts (snd (collect_hackathon_dataset final_write_fails
                               init)))) = true ->
        exists st2,
          main final_write_fails init = (Ok synthetic, st2)
          /\ files st2 !! final_csv = Some (Csv synthetic)
          /\ files st2 !! training_csv = Some (Csv offline_collected))
    /\ (write_ok final_write_fails
          (S (attempts (snd (collect_hackathon_dataset final_write_fails
                               init)))) = false ->
        fst (main final_write_fails init) = Raise (OSError final_csv)).
Proof.
  apply (main_replaces_table_when_final_write_fails final_write_fails init
           offline_collected
           (snd (collect_hackathon_dataset final_write_fails init))).
  - vm_compute. reflexivity.
  - vm_compute. reflexivity.
Defined.

(** ** The files of a scrape *)

Lemma scrape_loop_frame rt save_progress : forall l i results st,
  Forall (fun kv => scraped (snd kv)) results ->
  exists st',
    scrape_loop rt save_progress i l results st
    = (Ok (scrape_results rt l results), st')
    /\ (save_progress = false -> st' = st)
    /\ (forall f,
          (forall k, (i < k <= i + length l)%nat -> (k mod 5 = 0)%nat ->
                     f <> progress_file k) ->
          files st' !! f = files st !! f).
Proof.
  induction l as [|c l IH]; intros i results st Hres.
  - exists st. repeat split; auto.
  - cbn [scrape_loop scrape_results fold_left].
    set (results1 := match scrape_compound_data rt c with
                     | Some data => dict_set c data results
                     | None => results
                     end).
    assert (Hres1 : Forall (fun kv => scraped (snd kv)) results1).
    { apply (scrape_results_scraped rt [c] results Hres). }
    destruct (scrape_step rt save_progress i (scrape_compound_data rt c)
                results1 st Hres1) as (st1 & Hstep & Hframe1 & _ & Hsame).
    destruct (IH (S i) results1 st1 Hres1) as (st' & Hloop & Hoff & Hframe).
    exists st'. split; [|split].
    + rewrite (bind_ok _ _ _ _ _ Hstep). exact Hloop.
    + intros Hsp. rewrite (Hoff Hsp). apply Hsame. auto.
    + intros f Hf. cbn [length] in Hf.
      rewrite Hframe by (intros k Hk; apply Hf; lia).
      destruct (Nat.eq_dec ((i + 1) mod 5)%nat 0%nat) as [E|E].
      * apply Hframe1. apply Hf; [lia|exact E].
      * rewrite (Hsame (or_intror (or_introl E))). reflexivity.
Qed.

(** X17.  [scrape_multiple_compounds] never raises, also when a write is
    refused.  Without [save_progress] it leaves every file alone; with it,
    the only files it can change are the progress files whose number is a
    multiple of 5 and at most the length of the list. *)
Theorem scrape_touches_progress_files_only rt compound_list save_progress st :
  exists results st',
    scrape_multiple_compounds rt compound_list save_progress st
    = (Ok results, st')
    /\ (save_progress = false -> st' = st)
    /\ (forall f,
          (forall k, (0 < k <= length compound_list)%nat ->
                     (k mod 5 = 0)%nat -> f <> progress_file k) ->
          files st' !! f = files st !! f).
Proof.
  destruct (scrape_loop_frame rt save_progress compound_list 0 [] st)
    as (st' & Hloop & Hoff & Hframe); [constructor|].
  exists (scrape_results rt compound_list []), st'.
  split; [exact Hloop|]. split; [exact Hoff|].
  intros f Hf. apply Hframe. intros k Hk. apply Hf. lia.
Qed.

(** ** The record of a compound *)

Lemma phase_change_keys_only soup d k :
  _parse_phase_change_data soup = Ok d -> is_Some (d !! k) ->
  In k phase_change_keys.
Proof.
  unfold _parse_phase_change_data. rewrite phase_rows_writes.
  intros [= <-] [v H].
  apply fold_insert_lookup in H. destruct H as [H|H].
  { rewrite lookup_empty in H. discriminate. }
  apply in_omap_row_write in H. destruct H as (cells & _ & Hw).
  unfold row_write in Hw. destruct cells as [|c0 [|c1 rest]];
    try discriminate.
  destruct (value_at _ 1); [|discriminate].
  destruct (phase_key _) as [k'|] eqn:E; [|discriminate].
  injection Hw as -> _. exact (phase_key_known _ _ E).
Qed.

Lemma phase_change_total soup : exists d, _parse_phase_change_data soup = Ok d.
Proof.
  unfold _parse_phase_change_data. rewrite phase_rows_writes. eauto.
Qed.

(** X18.  [scrape_compound_data] returns a record exactly when the search
    gives an identifier that is not empty.  A request for a page that fails
    is absorbed: the record then has no thermodynamic data, or no
    phase-change data.  Thermodynamic data that are present are a frame
    that is not empty, with heat capacities above 0; the phase-change data
    have no other keys than the four of the parser. *)
Theorem scraped_record_shape rt name :
  (is_Some (scrape_compound_data rt name) <->
   exists id, search_compound rt name = Some id /\ id <> "")
  /\ forall cd, scrape_compound_data rt name = Some cd ->
       formula cd = name
       /\ search_compound rt name = Some (compound_id cd)
       /\ (forall e, thermo_page rt (compound_id cd) = Raise e ->
             thermodynamic_data cd = NoData)
       /\ (forall e, phase_page rt (compound_id cd) = Raise e ->
             phase_change_data cd = ∅)
       /\ (forall soup, phase_page rt (compound_id cd) = Ok soup ->
             _parse_phase_change_data soup = Ok (phase_change_data cd))
       /\ (forall df, thermodynamic_data cd = Frame df ->
             df <> []
             /\ forall r, In r df -> fgt (heat_capacity r) (of_Z 0) = true)
       /\ (forall l, thermodynamic_data cd <> Records l)
       /\ (forall k, is_Some (phase_change_data cd !! k) ->
             In k phase_change_keys).
Proof.
  split.
  - unfold scrape_compound_data.
    destruct (search_compound rt name) as [[|c id]|]; split.
    + intros [? [=]].
    + intros (id & [= <-] & H). congruence.
    + intros _. eexists. split; [reflexivity|discriminate].
    + intros _. eauto.
    + intros [? [=]].
    + intros (id & [=] & _).
  - intros cd H. pose proof (scrape_compound_data_scraped rt name cd H) as Hs.
    unfold scrape_compound_data in H.
    destruct (search_compound rt name) as [[|c id]|]; try discriminate.
    injection H as <-. cbn [formula compound_id thermodynamic_data
                             phase_change_data] in *.
    unfold scraped in Hs. cbn [thermodynamic_data] in Hs.
    split; [reflexivity|]. split; [reflexivity|]. split; [|split; [|split]].
    + intros e He. unfold get_thermodynamic_data. rewrite He. reflexivity.
    + intros e He. unfold get_phase_change_data. rewrite He. reflexivity.
    + intros soup Hp. unfold get_phase_change_data. rewrite Hp.
      destruct (phase_change_total soup) as [d Hd].
      cbn [rbind]. rewrite Hd. reflexivity.
    + split; [|split].
      * intros df Hdf. rewrite Hdf in Hs. destruct Hs as [Hne Hpos].
        split; [exact Hne|]. intros r Hr.
        rewrite Forall_forall in Hpos. apply Hpos, list_elem_of_In, Hr.
      * intros l Hl. rewrite Hl in Hs. exact Hs.
      * unfold get_phase_change_data.
        destruct (phase_page rt (String c id)) as [soup|e]; cbn [rbind try_or].
        -- destruct (phase_change_total soup) as [d Hd]. rewrite Hd.
           cbn [try_or]. intros k. now apply phase_change_keys_only with soup.
        -- intros k [v Hv]. rewrite lookup_empty in Hv. discriminate.
Qed.

(** ** The search of a compound *)

Lemma is_char_eq a c : is_char a c = true -> c = a.
Proof. unfold is_char, ascii_eqb. apply Ascii.eqb_eq. Qed.

Lemma id_re_lang m :
  lang id_re m ->
  exists digits,
    m = str "ID=C" ++ digits /\ digits <> []
    /\ forallb is_digit digits = true.
Proof.
  intros (m1 & r1 & -> & (c1 & -> & H1)
          & m2 & r2 & -> & (c2 & -> & H2)
          & m3 & r3 & -> & (c3 & -> & H3)
          & m4 & digits & -> & (c4 & -> & H4) & Hne & Hd).
  apply is_char_eq in H1, H2, H3, H4. subst. exists digits. auto.
Qed.

Lemma re_search_match r : forall s m,
  re_search r s = Some m ->
  exists pre rest, s = pre ++ m ++ rest /\ lang r m.
Proof.
  induction s as [|c s IH]; intros m H; cbn [re_search] in H.
  - destruct (match_at r []) as [[m' rest]|] eqn:E; [|discriminate].
    injection H as ->. apply match_at_lang in E. destruct E as [E L].
    exists [], rest. auto.
  - destruct (match_at r (c :: s)) as [[m' rest]|] eqn:E.
    + injection H as ->. apply match_at_lang in E. destruct E as [E L].
      exists [], rest. auto.
    + destruct (IH m H) as (pre & rest & -> & L).
      exists (c :: pre), rest. auto.
Qed.

Lemma re_search_id s m :
  re_search id_re s = Some m ->
  exists pre digits rest,
    s = pre ++ str "ID=C" ++ digits ++ rest
    /\ digits <> [] /\ forallb is_digit digits = true
    /\ group1 m = "C"%char :: digits.
Proof.
  intros H. apply re_search_match in H.
  destruct H as (pre & rest & -> & L). apply id_re_lang in L.
  destruct L as (digits & -> & Hne & Hd).
  exists pre, digits, rest. rewrite <- app_assoc. auto.
Qed.

Lemma starts_with_app p s : starts_with p (p ++ s) = true.
Proof.
  induction p as [|a p IH]; [reflexivity|]. simpl.
  unfold ascii_eqb. now rewrite Ascii.eqb_refl.
Qed.

Lemma contains_unfold p s :
  contains p s
  = starts_with p s || match s with [] => false | _ :: s' => contains p s' end.
Proof. destruct s; reflexivity. Qed.

Lemma contains_app p : forall pre s, contains p (pre ++ p ++ s) = true.
Proof.
  induction pre as [|c pre IH]; intros s.
  - cbn [app]. rewrite contains_unfold, starts_with_app. reflexivity.
  - cbn [app]. rewrite contains_unfold, IH. apply orb_true_r.
Qed.

Lemma re_search_id_contains s m :
  re_search id_re s = Some m -> contains (str "ID=C") s = true.
Proof.
  intros H. apply re_search_id in H.
  destruct H as (pre & digits & rest & -> & _). apply contains_app.
Qed.

Lemma filter_nil_forall {A} (P : A -> bool) (l : list A) :
  List.filter P l = [] <-> Forall (fun x => P x = false) l.
Proof.
  induction l as [|x l IH]; simpl.
  - split; constructor.
  - destruct (P x) eqn:E.
    + split; [discriminate|]. intros H. inversion H. congruence.
    + rewrite IH. split; [now constructor|]. intros H. now inversion H.
Qed.

Lemma filter_first {A} (P : A -> bool) : forall (l : list A) x rest,
  List.filter P l = x :: rest ->
  P x = true
  /\ exists l1 l2, l = l1 ++ x :: l2 /\ Forall (fun y => P y = false) l1.
Proof.
  induction l as [|y l IH]; intros x rest H; simpl in H; [discriminate|].
  destruct (P y) eqn:E.
  - injection H as -> _. split; [exact E|]. exists [], l. auto.
  - destruct (IH x rest H) as [Hx (l1 & l2 & -> & Hl1)].
    split; [exact Hx|]. exists (y :: l1), l2. auto.
Qed.

Lemma has_match_false r s :
  bool_decide (is_Some (re_search r s)) = false <-> re_search r s = None.
Proof.
  rewrite bool_decide_eq_false. destruct (re_search r s); split;
    try congruence; try (intros H; exfalso; apply H; eauto).
  intros _ [? [=]].
Qed.

Lemma has_match_true r s :
  bool_decide (is_Some (re_search r s)) = true ->
  exists m, re_search r s = Some m.
Proof. intros H. apply bool_decide_eq_true_1 in H. exact H. Qed.

(** What a response gives: the match in the first link that has one, else
    the match in the URL, else nothing. *)
Lemma id_of_response_cases response :
  (exists href m l1 l2,
     hrefs response = l1 ++ href :: l2
     /\ Forall (fun h => re_search id_re h = None) l1
     /\ re_search id_re href = Some m
     /\ id_of_response response = Ok (Some (group1 m)))
  \/ (Forall (fun h => re_search id_re h = None) (hrefs response)
      /\ exists m, re_search id_re (url response) = Some m
                   /\ id_of_response response = Ok (Some (group1 m)))
  \/ (no_compound response /\ id_of_response response = Ok None).
Proof.
  unfold id_of_response, no_compound.
  destruct (List.filter _ (hrefs response)) as [|href rest] eqn:E.
  - right. apply filter_nil_forall in E.
    assert (Hnone : Forall (fun h => re_search id_re h = None)
                           (hrefs response)).
    { eapply Forall_impl; [exact E|]. intros h. apply has_match_false. }
    destruct (re_search id_re (url response)) as [m|] eqn:Hurl.
    + left. rewrite (re_search_id_contains _ _ Hurl). eauto.
    + right. destruct (contains _ _); auto.
  - left. apply filter_first in E.
    destruct E as [Hm (l1 & l2 & Hl & Hl1)].
    apply has_match_true in Hm. destruct Hm as [m Hm].
    exists href, m, l1, l2. rewrite Hm. repeat split; auto.
    eapply Forall_impl; [exact Hl1|]. intros h. apply has_match_false.
Qed.

Lemma no_compound_none response :
  no_compound response -> id_of_response response = Ok None.
Proof.
  intros [Hl Hu].
  destruct (id_of_response_cases response)
    as [(href & m & l1 & l2 & Hh & _ & Hm & _)
       |[(_ & m & Hm & _)|[_ H]]]; [| |exact H].
  - rewrite Hh in Hl. apply Forall_app in Hl. destruct Hl as [_ Hl].
    inversion Hl; congruence.
  - congruence.
Qed.

(** X19.  An identifier that [search_compound] returns is the letter C
    followed by one or more decimal digits, so it is never empty.  It is
    read from the answer to the first request that succeeds and names a
    compound: from the first link to a compound, or from the URL when the
    page has no such link. *)
Theorem search_returns_a_compound_identifier responses id :
  search_compound_requests responses = Some id ->
  (exists digits,
     id = "C"%char :: digits /\ digits <> []
     /\ forallb is_digit digits = true)
  /\ exists before response after source m,
       responses = before ++ Ok response :: after
       /\ (forall r, In (Ok r) before -> no_compound r)
       /\ re_search id_re source = Some m /\ id = group1 m
       /\ ((exists l1 l2,
              hrefs response = l1 ++ source :: l2
              /\ Forall (fun h => re_search id_re h = None) l1)
           \/ (Forall (fun h => re_search id_re h = None) (hrefs response)
               /\ source = url response)).
Proof.
  induction responses as [|[response|e] responses IH]; intros H;
    cbn [search_compound_requests rbind] in H; [discriminate| |].
  - destruct (id_of_response_cases response)
      as [(href & m & l1 & l2 & Hh & Hl1 & Hm & Hid)
         |[(Hl & m & Hm & Hid)|[Hno Hid]]];
      rewrite Hid in H.
    + injection H as <-. split.
      * destruct (re_search_id _ _ Hm) as (_ & digits & _ & _ & ? & ? & ?).
        eauto.
      * exists [], response, responses, href, m.
        split; [reflexivity|]. split; [intros r []|]. eauto 10.
    + injection H as <-. split.
      * destruct (re_search_id _ _ Hm) as (_ & digits & _ & _ & ? & ? & ?).
        eauto.
      * exists [], response, responses, (url response), m.
        split; [reflexivity|]. split; [intros r []|]. auto.
    + destruct (IH H)
        as [Hshape (before & r & after & source & m & -> & Hb & Hrest)].
      split; [exact Hshape|].
      exists (Ok response :: before), r, after, source, m.
      split; [reflexivity|]. split; [|exact Hrest].
      intros r' [[= <-]|Hin]; auto.
  - destruct (IH H)
      as [Hshape (before & r & after & source & m & -> & Hb & Hrest)].
    split; [exact Hshape|].
    exists (Raise e :: before), r, after, source, m.
    split; [reflexivity|]. split; [|exact Hrest].
    intros r' [[=]|Hin]; auto.
Qed.

Lemma search_returns_a_compound_identifier_witness :
  (exists digits,
     str "C7732185" = "C"%char :: digits /\ digits <> []
     /\ forallb is_digit digits = true)
  /\ exists before response after source m,
       water_answers = before ++ Ok response :: after
       /\ (forall r, In (Ok r) before -> no_compound r)
       /\ re_search id_re source = Some m /\ str "C7732185" = group1 m
       /\ ((exists l1 l2,
              hrefs response = l1 ++ source :: l2
              /\ Forall (fun h => re_search id_re h = None) l1)
           \/ (Forall (fun h => re_search id_re h = None) (hrefs response)
               /\ source = url response)).
Proof.
  apply (search_returns_a_compound_identifier water_answers (str "C7732185")).
  vm_compute. reflexivity.
Defined.

(** X20.  [search_compound] returns [None] exactly when every request has
    failed or has been answered by a page without a link to a compound and
    without a compound in its URL; no answer makes it raise. *)
Theorem search_returns_none_iff responses :
  search_compound_requests responses = None <->
  forall response, In (Ok response) responses -> no_compound response.
Proof.
  induction responses as [|[response|e] responses IH];
    cbn [search_compound_requests rbind].
  - split; [intros _ r []|reflexivity].
  - destruct (id_of_response_cases response)
      as [(href & m & l1 & l2 & Hh & Hl1 & Hm & Hid)
         |[(Hl & m & Hm & Hid)|[Hno Hid]]];
      rewrite Hid.
    + split; [discriminate|]. intros H.
      rewrite (no_compound_none response) in Hid by (apply H; now left).
      discriminate.
    + split; [discriminate|]. intros H.
      rewrite (no_compound_none response) in Hid by (apply H; now left).
      discriminate.
    + rewrite IH. split.
      * intros H r [[= <-]|Hin]; auto.
      * intros H r Hin. apply H. now right.
  - rewrite IH. split.
    + intros H r [[=]|Hin]; auto.
    + intros H r Hin. apply H. now right.
Qed.

(** ** The molecular properties *)

(** X21.  Each of the ten formulas of the synthetic generator has its own
    entry in the table of molecular properties, every other name (the
    alternative names of the collection among them) gets the default of
    weight 50, five atoms and no polarity, and for every name the weight is
    above 0, the number of atoms at least 2 and the polarity 0 or 1. *)
Theorem molecular_properties_of_any_name compound :
  (In compound compounds <-> is_Some (properties !! compound))
  /\ (~ In compound compounds ->
      get_molecular_properties compound = mk_props 50 5 0)
  /\ (0 < molecular_weight (get_molecular_properties compound))%Q
  /\ 2 <= n_atoms (get_molecular_properties compound)
  /\ (is_polar (get_molecular_properties compound) = 0
      \/ is_polar (get_molecular_properties compound) = 1).
Proof.
  assert (Hin : In compound compounds -> is_Some (properties !! compound)).
  { intros H. simpl in H.
    repeat (destruct H as [<-|H]; [vm_compute; eauto|]). destruct H. }
  assert (Hout : ~ In compound compounds -> properties !! compound = None).
  { intros H. unfold properties. apply not_elem_of_list_to_map_1.
    intros H'. apply H. apply list_elem_of_In in H'. exact H'. }
  assert (Hdec : In compound compounds \/ ~ In compound compounds).
  { rewrite <- list_elem_of_In.
    destruct (decide (compound ∈ compounds)); auto. }
  split; [|split].
  - split; [exact Hin|]. intros [p Hp].
    destruct Hdec as [H|H]; [exact H|].
    rewrite (Hout H) in Hp. discriminate.
  - intros H. unfold get_molecular_properties. rewrite (Hout H). reflexivity.
  - destruct Hdec as [H|H].
    + simpl in H.
      repeat (destruct H as [<-|H];
              [vm_compute; repeat split; auto; discriminate|]).
      destruct H.
    + unfold get_molecular_properties. rewrite (Hout H).
      vm_compute. repeat split; auto; discriminate.
Qed.

(** ** The draws of the synthetic generator *)

Lemma mapM_draws {A B} (f : A -> M B) (n : nat) :
  (forall x st, exists y st',
      f x st = (Ok y, st') /\ draws st' = (draws st + n)%nat) ->
  forall l st, exists ys st',
      mapM f l st = (Ok ys, st')
      /\ length ys = length l
      /\ draws st' = (draws st + n * length l)%nat.
Proof.
  intros Hf. induction l as [|x l IH]; intros st; simpl.
  - exists [], st. repeat split; lia.
  - destruct (Hf x st) as (y & st1 & Hy & H1).
    destruct (IH st1) as (ys & st2 & Hys & Hlen & H2).
    exists (y :: ys), st2. rewrite (bind_ok _ _ _ _ _ Hy).
    rewrite (bind_ok _ _ _ _ _ Hys). simpl. repeat split; lia.
Qed.

(** X22.  The synthetic generator draws three random numbers for each row
    it makes, and nothing else of the state changes: no file is written. *)
Theorem synthetic_rows_take_three_draws rt existing_count st :
  exists rows st',
    generate_synthetic_supplement rt existing_count st = (Ok rows, st')
    /\ draws st' = (draws st + 3 * length rows)%nat
    /\ attempts st' = attempts st
    /\ files st' = files st.
Proof.
  destruct (generate_rows_in_bounds rt existing_count st)
    as (rows & st' & Hg & _ & Hn & Ha & Hf).
  exists rows, st'. split; [exact Hg|]. split; [|auto].
  unfold generate_synthetic_supplement in Hg.
  set (n := Z.to_nat (samples_per_compound existing_count)) in *.
  destruct (mapM_draws
              (fun compound =>
                 mapM (synthetic_sample rt compound
                         (get_molecular_properties compound))
                      (linspace 200 2000 n))
              (3 * n)) with (l := compounds) (st := st)
    as (blocks & st1 & Hb & _ & Hd).
  { intros compound st0.
    destruct (mapM_draws
                (synthetic_sample rt compound
                   (get_molecular_properties compound)) 3)
      with (l := linspace 200 2000 n) (st := st0)
      as (ys & st2 & Hys & _ & Hd).
    - intros temp st2.
      unfold synthetic_sample, bind, np_random_normal, ret. simpl.
      eexists _, _. split; [reflexivity|]. simpl. lia.
    - exists ys, st2. split; [exact Hys|].
      rewrite linspace_length in Hd. lia. }
  rewrite (bind_ok _ _ _ _ _ Hb) in Hg. injection Hg as _ <-.
  rewrite Hd, Hn. unfold n.
  destruct (samples_per_compound_spec existing_count) as [-> _].
  simpl length. lia.
Qed.
